(** * resin-preload: the disk-image surgery of [src/preload.py]

    A shallow embedding of the functions of [preload.py] that grow a raw disk
    image, rewrite its partition table, resize its filesystem and pull a
    container image into it, together with the properties stated for them.

    Conventions of the embedding.
    - Python [int] is [Z]; a Python [float] is a finite binary64 value kept as
      mantissa and exponent, with the rounding of each operation written out.
    - Python [str] is [string]; its characters are code points below 256.
      [sfdisk], [parted] and [/etc/os-release] are read under [LANG=C].
    - A [dict] is a [gmap string _]; dict objects live in a store indexed by
      object identity, so that aliasing and [dict.copy] are visible.
    - Commands run through the [sh] package, log records and file effects are
      events of a trace; what the outside world answers (exit codes, standard
      output, file tests) is an oracle the theorems quantify over.
    - The two [while] loops of [start_docker_daemon] take a bound on their
      number of iterations; a loop that reaches it is [Spinning].
    - [human_size] is embedded on its own; in a log record it is kept as the
      call it is.  The HTTP side ([api], [registry], [get_app_data],
      [get_container_size]), [replace_splash_image], [get_device_type] and
      [main] are not part of the embedding. *)

From Stdlib Require Import ZArith List String Ascii Bool Lia.
From stdpp Require Import gmap strings list.

Local Open Scope string_scope.
Local Open Scope Z_scope.

(** ** Exceptions of the Python program *)

Inductive exn :=
| IndexError
| KeyError (key : string)
| TypeError
| ValueError
| OverflowError
| AttributeError
| OSError
| ErrorReturnCode (prog : string) (code : Z)
| SystemExit (code : Z).

Inductive result (A : Type) :=
| Ok (a : A)
| Raise (e : exn).
Arguments Ok {A} a.
Arguments Raise {A} e.

(** ** Sector arithmetic: [round_to_sector_size] *)

Module Sector.

Definition SECTOR_SIZE : Z := 512.

(** A finite binary64 value [mant * 2^expo], or an infinity. *)
Inductive pyfloat :=
| Finite (mant expo : Z)
| Inf (negative : bool).

Inductive pynum :=
| PyInt (n : Z)
| PyFloat (x : pyfloat).

(** [n / 2^e] rounded to the nearest integer, ties to even ([0 <= e]). *)
Definition round_half_even (n e : Z) : Z :=
  let q := n / 2 ^ e in
  let r := n mod 2 ^ e in
  if 2 * r <? 2 ^ e then q
  else if 2 ^ e <? 2 * r then q + 1
  else if Z.even q then q else q + 1.

(** The binary64 nearest to the non-negative integer [n] divided by [2^k]:
    a 53-bit mantissa, round-half-even.  The divisions of this program are by
    512, so the quotient never falls in the subnormal range. *)
Definition nearest_quotient (n k : Z) : pyfloat :=
  if n <? 2 ^ 53 then Finite n (- k)
  else
    let e := Z.log2 n - 52 in
    Finite (round_half_even n e) (e - k).

Definition fneg (x : pyfloat) : pyfloat :=
  match x with
  | Finite m e => Finite (- m) e
  | Inf s => Inf (negb s)
  end.

(** Does the magnitude of [m * 2^e] exceed the largest finite binary64? *)
Definition too_large (m e : Z) : bool :=
  if 0 <=? e then 2 ^ 1024 <=? Z.abs m * 2 ^ e
  else 2 ^ 1024 * 2 ^ (- e) <=? Z.abs m.

(** [int / int] (true division) for the divisor [2^k]: correctly rounded;
    [OverflowError] when the quotient is too large for a float. *)
Definition int_truediv_pow2 (n k : Z) : result pyfloat :=
  let x := if 0 <=? n then nearest_quotient n k
           else fneg (nearest_quotient (- n) k) in
  match x with
  | Finite m e => if too_large m e then Raise OverflowError else Ok x
  | Inf _ => Raise OverflowError
  end.

(** [float / int] and [float * int] for the integer [2^k]: the exponent
    moves, the mantissa is kept; a product that is too large is an infinity. *)
Definition float_div_pow2 (x : pyfloat) (k : Z) : pyfloat :=
  match x with
  | Finite m e => Finite m (e - k)
  | Inf s => Inf s
  end.

Definition float_mul_pow2 (x : pyfloat) (k : Z) : pyfloat :=
  match x with
  | Finite m e => if too_large m (e + k) then Inf (m <? 0) else Finite m (e + k)
  | Inf s => Inf s
  end.

(** [float.is_integer()] *)
Definition is_integer (x : pyfloat) : bool :=
  match x with
  | Finite m e => if 0 <=? e then true else m mod 2 ^ (- e) =? 0
  | Inf _ => false
  end.

(** [math.floor(float)]: an [int]; [OverflowError] on an infinity. *)
Definition floor (x : pyfloat) : result Z :=
  match x with
  | Finite m e => Ok (if 0 <=? e then m * 2 ^ e else m / 2 ^ (- e))
  | Inf _ => Raise OverflowError
  end.

(** [size / sector_size] with [sector_size = SECTOR_SIZE = 2^9], the only
    value the program passes. *)
Definition truediv_sector (size : pynum) : result pyfloat :=
  match size with
  | PyInt n => int_truediv_pow2 n 9
  | PyFloat x => Ok (float_div_pow2 x 9)
  end.

(** [[
def round_to_sector_size(size, sector_size=SECTOR_SIZE):
    sectors = size / sector_size
    if not sectors.is_integer():
        sectors = floor(sectors) + 1
    return sectors * sector_size
]] *)
Definition round_to_sector_size (size : pynum) : result pynum :=
  match truediv_sector size with
  | Raise e => Raise e
  | Ok sectors =>
      if negb (is_integer sectors) then
        match floor sectors with
        | Raise e => Raise e
        | Ok fl => Ok (PyInt ((fl + 1) * SECTOR_SIZE))
        end
      else Ok (PyFloat (float_mul_pow2 sectors 9))
  end.

(** The integer a number denotes, when it denotes one. *)
Definition int_value (v : pynum) : option Z :=
  match v with
  | PyInt n => Some n
  | PyFloat (Finite m e) =>
      if 0 <=? e then Some (m * 2 ^ e)
      else if m mod 2 ^ (- e) =? 0 then Some (m / 2 ^ (- e)) else None
  | PyFloat (Inf _) => None
  end.

(** Python's [==] on the numbers above (exact, also between int and float). *)
Definition num_eqb (a b : pynum) : bool :=
  match int_value a, int_value b with
  | Some x, Some y => x =? y
  | _, _ =>
      match a, b with
      | PyFloat (Inf s), PyFloat (Inf t) => Bool.eqb s t
      | PyFloat (Finite m e), PyFloat (Finite m' e') =>
          m * 2 ^ (e - Z.min e e') =? m' * 2 ^ (e' - Z.min e e')
      | _, _ => false
      end
  end.

(** The specification's [roundUpToSector]: the smallest multiple of the sector
    size that is at least [x]. *)
Definition roundUpToSector (x : Z) : Z :=
  ((x + SECTOR_SIZE - 1) / SECTOR_SIZE) * SECTOR_SIZE.

End Sector.

(** ** Python [str] operations used by the program *)

Module Text.

Definition code (c : ascii) : Z := Z.of_N (N_of_ascii c).

Definition nl : ascii := "010"%char.

Definition dquote : ascii := "034"%char.

(** [str.isspace] on one character, which is also the class [\s] of [re] and
    what [str.strip()] removes: TAB..CR, FS..US, space, NEL and NBSP. *)
Definition isspace (c : ascii) : bool :=
  let n := code c in
  ((9 <=? n) && (n <=? 13)) || ((28 <=? n) && (n <=? 32))
  || (n =? 133) || (n =? 160).

(** The class [\d] of [re]: the decimal digits. *)
Definition isdigit (c : ascii) : bool :=
  let n := code c in (48 <=? n) && (n <=? 57).

(** The class [[a-z]]. *)
Definition islower (c : ascii) : bool :=
  let n := code c in (97 <=? n) && (n <=? 122).

Definition is_empty (s : string) : bool :=
  match s with EmptyString => true | String _ _ => false end.

Fixpoint lstrip_by (p : ascii -> bool) (s : string) : string :=
  match s with
  | EmptyString => EmptyString
  | String c s' => if p c then lstrip_by p s' else s
  end.

Fixpoint rstrip_by (p : ascii -> bool) (s : string) : string :=
  match s with
  | EmptyString => EmptyString
  | String c s' =>
      let r := rstrip_by p s' in
      if is_empty r && p c then EmptyString else String c r
  end.

(** [s.strip()] and [s.strip(chars)] *)
Definition strip (s : string) : string := rstrip_by isspace (lstrip_by isspace s).

Definition strip_chars (p : ascii -> bool) (s : string) : string :=
  rstrip_by p (lstrip_by p s).

(** [s.split(sep)] for a one-character separator: never the empty list. *)
Fixpoint split (sep : ascii) (s : string) : list string :=
  match s with
  | EmptyString => [EmptyString]
  | String c s' =>
      if Ascii.eqb c sep then EmptyString :: split sep s'
      else match split sep s' with
           | l :: ls => String c l :: ls
           | [] => [String c EmptyString]
           end
  end.

(** [sep.join(parts)] *)
Fixpoint join (sep : string) (parts : list string) : string :=
  match parts with
  | [] => EmptyString
  | [l] => l
  | l :: ls => l ++ sep ++ join sep ls
  end.

Definition NL : string := String nl EmptyString.

(** The longest prefix whose characters satisfy [p], and what follows it. *)
Fixpoint span (p : ascii -> bool) (s : string) : string * string :=
  match s with
  | EmptyString => (EmptyString, EmptyString)
  | String c s' =>
      if p c then let '(a, b) := span p s' in (String c a, b)
      else (EmptyString, s)
  end.

(** [s] without the prefix [pre], when it starts with it. *)
Fixpoint strip_prefix (pre s : string) : option string :=
  match pre, s with
  | EmptyString, _ => Some s
  | String a pre', String b s' =>
      if Ascii.eqb a b then strip_prefix pre' s' else None
  | String _ _, EmptyString => None
  end.

Fixpoint all_chars (p : ascii -> bool) (s : string) : bool :=
  match s with
  | EmptyString => true
  | String c s' => p c && all_chars p s'
  end.

(** [int(s)] for a run of decimal digits, as matched by [\d+]. *)
Fixpoint int_acc (acc : Z) (s : string) : Z :=
  match s with
  | EmptyString => acc
  | String c s' => int_acc (10 * acc + (code c - 48)) s'
  end.

Definition int_of_digits (s : string) : Z := int_acc 0 s.

Definition digit_char (d : Z) : ascii := ascii_of_N (Z.to_N (48 + d)).

Fixpoint digits_acc (fuel : nat) (n : Z) (acc : string) : string :=
  match fuel with
  | O => acc
  | S fuel' =>
      let acc' := String (digit_char (n mod 10)) acc in
      if n <? 10 then acc' else digits_acc fuel' (n / 10) acc'
  end.

Definition digits (n : Z) : string :=
  digits_acc (S (Z.to_nat (Z.log2 n))) n EmptyString.

(** [str(n)] for an [int]. *)
Definition str_of_int (n : Z) : string :=
  if n <? 0 then String "-" (digits (- n)) else digits n.

(** [str.isdigit] on one character: the decimal digits and the superscript
    digits of Latin-1. *)
Definition str_isdigit (c : ascii) : bool :=
  let n := code c in
  isdigit c || (n =? 178) || (n =? 179) || (n =? 185).

(** [s[:-1]] *)
Fixpoint drop_last (s : string) : string :=
  match s with
  | EmptyString => EmptyString
  | String c s' => if is_empty s' then EmptyString else String c (drop_last s')
  end.

Fixpoint remove_char (x : ascii) (s : string) : string :=
  match s with
  | EmptyString => EmptyString
  | String c s' => if Ascii.eqb c x then remove_char x s' else String c (remove_char x s')
  end.

(** Digits with single underscores between them. *)
Fixpoint int_body (after_digit : bool) (s : string) : bool :=
  match s with
  | EmptyString => after_digit
  | String c s' =>
      if isdigit c then int_body true s'
      else if Ascii.eqb c "_" then after_digit && int_body false s'
      else false
  end.

(** [int(s)]: blanks around, a sign, digits with single underscores. *)
Definition py_int (s : string) : result Z :=
  let t := strip s in
  let '(negative, body) :=
    match t with
    | String "-" r => (true, r)
    | String "+" r => (false, r)
    | _ => (false, t)
    end in
  if int_body false body then
    let n := int_of_digits (remove_char "_" body) in
    Ok (if negative then - n else n)
  else Raise ValueError.

(** [l[i]] for a list: a negative index counts from the end. *)
Definition py_index {A} (l : list A) (i : Z) : result A :=
  let n := Z.of_nat (length l) in
  let j := if i <? 0 then i + n else i in
  if (0 <=? j) && (j <? n) then
    match l !! Z.to_nat j with
    | Some x => Ok x
    | None => Raise IndexError
    end
  else Raise IndexError.

(** [s.split(sep, 1)]: the text before the first [sep] and the text after
    it, or [None] when [sep] does not occur. *)
Fixpoint split_once (sep : ascii) (s : string) : option (string * string) :=
  match s with
  | EmptyString => None
  | String c s' =>
      if Ascii.eqb c sep then Some (EmptyString, s')
      else match split_once sep s' with
           | Some (a, b) => Some (String c a, b)
           | None => None
           end
  end.

(** The lines of a text file, each with its newline. *)
Fixpoint file_lines (s : string) : list string :=
  match s with
  | EmptyString => []
  | String c s' =>
      if Ascii.eqb c nl then NL :: file_lines s'
      else match file_lines s' with
           | [] => [String c EmptyString]
           | l :: ls => String c l :: ls
           end
  end.

Fixpoint ends_with_slash (s : string) : bool :=
  match s with
  | EmptyString => false
  | String c s' => if is_empty s' then Ascii.eqb c "/" else ends_with_slash s'
  end.

(** [os.path.join(a, b)] *)
Definition path_join (a b : string) : string :=
  match b with
  | String "/" _ => b
  | _ => if is_empty a || ends_with_slash a then a ++ b else a ++ "/" ++ b
  end.

(** The text up to and including the last slash. *)
Fixpoint upto_last_slash (s : string) : string :=
  match s with
  | EmptyString => EmptyString
  | String c s' =>
      let r := upto_last_slash s' in
      if is_empty r then (if Ascii.eqb c "/" then String c EmptyString else EmptyString)
      else String c r
  end.

(** [os.path.dirname(p)] *)
Definition dirname (p : string) : string :=
  let h := upto_last_slash p in
  if all_chars (fun c => Ascii.eqb c "/") h then h
  else rstrip_by (fun c => Ascii.eqb c "/") h.

End Text.

(** ** The Layout Rewriter: the text edits of [resize_rootfs_get_sfdisk_script] *)

Module Layout.
Import Text.

(** The three groups of a match of [( .* KEY \s* )( \d+ )( , .* )]. *)
Definition groups : Type := string * string * string.

(** [KEY \s*], [\d+] and [, .*] matched at the start of [s].  The classes
    [\s], [\d] and the comma are disjoint, so the greedy [\s*] and [\d+] take
    all they can and no other split can match; [.*] then runs to the end of the
    line (a line holds no newline). *)
Definition match_here (key s : string) : option groups :=
  match strip_prefix key s with
  | None => None
  | Some s1 =>
      let '(ws, s2) := span isspace s1 in
      let '(ds, s3) := span isdigit s2 in
      match ds, s3 with
      | String _ _, String c _ =>
          if Ascii.eqb c "," then Some (key ++ ws, ds, s3) else None
      | _, _ => None
      end
  end.

(** The match of [( .* KEY \s* )( \d+ )( , .* )] in a line.  The leading [.*] is
    greedy: the engine first lets it swallow the whole line and gives back one
    character at a time, so of all the places where the rest matches, the one
    furthest to the right wins.  A match starts at the first character and
    ends at the last one, hence [re.sub] makes at most one replacement. *)
Fixpoint search (key s : string) : option groups :=
  match s with
  | EmptyString => match_here key EmptyString
  | String c s' =>
      match search key s' with
      | Some (g1, g2, g3) => Some (String c g1, g2, g3)
      | None => match_here key s
      end
  end.

(** [[
    def add_size(match):
        groups = list(match.groups())
        groups[1] = str(int(groups[1]) + additional_sectors)
        return EMPTY.join(groups)      (EMPTY is the empty string)
]] *)
Definition add_size (additional_sectors : Z) (g : groups) : string :=
  let '(g1, g2, g3) := g in
  g1 ++ str_of_int (int_of_digits g2 + additional_sectors) ++ g3.

(** [sub("( .* KEY \s* )( \d+ )( , .* )", add_size, line)]: a line without a match
    is returned as it is. *)
Definition sub_add_size (key : string) (additional_sectors : Z) (line : string)
  : string :=
  match search key line with
  | Some g => add_size additional_sectors g
  | None => line
  end.

(** [for i in range(7, len(lines)): lines[i] = sub(START_PATTERN, add_size, lines[i])] *)
Definition shift_from (additional_sectors : Z) (first : nat) (lines : list string)
  : list string :=
  fold_left
    (fun ls i =>
       match ls !! i with
       | Some l => <[i := sub_add_size "start=" additional_sectors l]> ls
       | None => ls
       end)
    (seq first (length lines - first)) lines.

(** Everything of [resize_rootfs_get_sfdisk_script] after the call of
    [sfdisk -d]: [stdout] is what the command printed. *)
Definition rewrite_layout (stdout : string) (additional_sectors : Z)
  : result string :=
  let layout := strip stdout in
  let lines := split nl layout in
  match lines !! 6%nat with
  | None => Raise IndexError
  | Some l6 =>
      let lines := <[6%nat := sub_add_size "size=" additional_sectors l6]> lines in
      let lines := shift_from additional_sectors 7 lines in
      Ok (join NL lines)
  end.

(** The field the rewriter edits on line [i] (counted from 0) of the layout,
    and the layout edited line by line. *)
Definition expected_key (i : nat) : option string :=
  if Nat.ltb i 6 then None
  else if Nat.eqb i 6 then Some "size=" else Some "start=".

Definition edit_line (additional_sectors : Z) (i : nat) (line : string) : string :=
  match expected_key i with
  | None => line
  | Some key => sub_add_size key additional_sectors line
  end.

Fixpoint edit_lines (additional_sectors : Z) (i : nat) (lines : list string)
  : list string :=
  match lines with
  | [] => []
  | l :: ls => edit_line additional_sectors i l :: edit_lines additional_sectors (S i) ls
  end.

(** *** The table a description denotes, and the rewrite the specification asks for *)

(** One partition line of a dump, cut at its two number fields:
    [head start= pad START , mid size= pad SIZE , tail]. *)
Record entry := Entry {
  head : string;
  start_pad : string;
  start : Z;
  mid : string;
  size_pad : string;
  size : Z;
  tail : string
}.

Definition after_start (e : entry) : string :=
  mid e ++ "size=" ++ size_pad e ++ str_of_int (size e) ++ "," ++ tail e.

Definition render (e : entry) : string :=
  head e ++ "start=" ++ start_pad e ++ str_of_int (start e) ++ "," ++ after_start e.

Record description := Description {
  header : list string;
  entries : list entry
}.

Definition render_description (d : description) : string :=
  join NL (header d ++ map render (entries d)).

(** What [sfdisk -d] prints for [d]: the lines, each ended by a newline. *)
Definition dump (d : description) : string := render_description d ++ NL.

Definition grow (n : Z) (e : entry) : entry :=
  Entry (head e) (start_pad e) (start e) (mid e) (size_pad e) (size e + n) (tail e).

Definition shift (n : Z) (e : entry) : entry :=
  Entry (head e) (start_pad e) (start e + n) (mid e) (size_pad e) (size e) (tail e).

(** The rewrite of the specification, by partition index (the first entry has
    index [idx]): grow entry [growIndex], shift every later one. *)
Fixpoint rewrite_from (idx growIndex : nat) (n : Z) (es : list entry)
  : list entry :=
  match es with
  | [] => []
  | e :: es' =>
      (if Nat.eqb idx growIndex then grow n e
       else if Nat.ltb growIndex idx then shift n e
       else e) :: rewrite_from (S idx) growIndex n es'
  end.

Definition spec_rewrite (growIndex : nat) (n : Z) (d : description) : description :=
  Description (header d) (rewrite_from 1 growIndex n (entries d)).

Definition no_nl (s : string) : bool :=
  all_chars (fun c => negb (Ascii.eqb c nl)) s.

Definition is_pad (s : string) : bool :=
  all_chars (fun c => isspace c && negb (Ascii.eqb c nl)) s.

(** Does [key] occur in [s]? *)
Fixpoint contains (key s : string) : bool :=
  match strip_prefix key s with
  | Some _ => true
  | None =>
      match s with
      | EmptyString => false
      | String _ s' => contains key s'
      end
  end.

Definition starts_clean (s : string) : bool :=
  match s with
  | EmptyString => true
  | String c _ => negb (isspace c)
  end.

Fixpoint ends_clean (s : string) : bool :=
  match s with
  | EmptyString => true
  | String c s' => if is_empty s' then negb (isspace c) else ends_clean s'
  end.

(** A partition line as [sfdisk] prints it: blanks as padding, non-negative
    numbers, one line, and no second [start=] or [size=] after the first. *)
Definition valid_entry (e : entry) : bool :=
  no_nl (head e) && is_pad (start_pad e) && (0 <=? start e)
  && no_nl (mid e) && is_pad (size_pad e) && (0 <=? size e)
  && no_nl (tail e)
  && negb (contains "start=" (after_start e))
  && negb (contains "size=" (tail e)).

(** A dump: one-line header lines, valid partition lines, and no blank at
    either end of the whole text. *)
Definition valid_description (d : description) : bool :=
  forallb no_nl (header d) && forallb valid_entry (entries d)
  && starts_clean (render_description d) && ends_clean (render_description d).

End Layout.

(** ** [distutils.version.LooseVersion], as used to pick the filesystem *)

Module Version.
Import Text.

Inductive component :=
| CInt (n : Z)
| CStr (s : string).

Inductive cls := Digit | Lower | Dot | Other.

Definition classify (c : ascii) : cls :=
  if isdigit c then Digit
  else if islower c then Lower
  else if Ascii.eqb c "." then Dot
  else Other.

Definition cls_eqb (a b : cls) : bool :=
  match a, b with
  | Digit, Digit | Lower, Lower | Dot, Dot | Other, Other => true
  | _, _ => false
  end.

(** [component_re.split(vstring)] without its empty pieces, for
    [component_re = ( \d+ | [a-z]+ | \. )]: the runs of digits, the runs of
    lower-case letters, each dot, and the runs of anything else, which
    [split] returns as the text between two matches. *)
Fixpoint pieces (s : string) : list (cls * string) :=
  match s with
  | EmptyString => []
  | String c s' =>
      let k := classify c in
      match k, pieces s' with
      | Dot, ps => (Dot, String c EmptyString) :: ps
      | _, (k', t) :: ps =>
          if cls_eqb k k' then (k, String c t) :: ps
          else (k, String c EmptyString) :: (k', t) :: ps
      | _, [] => [(k, String c EmptyString)]
      end
  end.

(** [LooseVersion.parse]: the pieces other than dots; [int(obj)] succeeds on
    the runs of digits and raises [ValueError] on the others, which stay
    strings. *)
Definition parse (vstring : string) : list component :=
  flat_map
    (fun '(k, t) =>
       match k with
       | Digit => [CInt (int_of_digits t)]
       | Dot => []
       | Lower | Other => [CStr t]
       end)
    (pieces vstring).

(** [LooseVersion(vstring)]: [parse] runs only [if vstring]; otherwise the
    object has no attribute [version], which is [None] here. *)
Definition LooseVersion (vstring : option string) : option (list component) :=
  match vstring with
  | Some (String _ _ as s) => Some (parse s)
  | _ => None
  end.

(** The order of two items: [TypeError] between an [int] and a [str]. *)
Definition item_compare (x y : component) : result comparison :=
  match x, y with
  | CInt m, CInt n => Ok (Z.compare m n)
  | CStr s, CStr t => Ok (String.compare s t)
  | _, _ => Raise TypeError
  end.

(** The order of two lists, as Python compares them: the first pair of
    unequal items decides; when one list is a prefix of the other, the
    shorter one is the smaller. *)
Fixpoint list_compare (a b : list component) {struct a} : result comparison :=
  match a with
  | [] => match b with [] => Ok Eq | _ :: _ => Ok Lt end
  | x :: a' =>
      match b with
      | [] => Ok Gt
      | y :: b' =>
          match item_compare x y with
          | Ok Eq => list_compare a' b'
          | r => r
          end
      end
  end.

(** [LooseVersion._cmp] *)
Definition _cmp (self other : option (list component)) : result comparison :=
  match self, other with
  | Some a, Some b => list_compare a b
  | _, _ => Raise AttributeError
  end.

(** [self >= other], that is [self._cmp(other) >= 0] *)
Definition ge (self other : option (list component)) : result bool :=
  match _cmp self other with
  | Ok Lt => Ok false
  | Ok _ => Ok true
  | Raise e => Raise e
  end.

(** [LooseVersion(version) >= LooseVersion("2.0.0")] *)
Definition version_ge_2 (version : option string) : result bool :=
  ge (LooseVersion version) (LooseVersion (Some "2.0.0")).

(** *** The comparison the specification describes *)

(** The leading dotted numeric prefix of a version. *)
Fixpoint numeric_prefix (cs : list component) : list Z :=
  match cs with
  | CInt n :: cs' => n :: numeric_prefix cs'
  | _ => []
  end.

(** Components compared numerically left to right, the shorter sequence
    padded with zeros. *)
Definition pad_zeros (len : nat) (l : list Z) : list Z :=
  (l ++ repeat 0 (len - length l))%list.

Fixpoint numeric_compare (a b : list Z) : comparison :=
  match a, b with
  | x :: a', y :: b' =>
      match Z.compare x y with Eq => numeric_compare a' b' | c => c end
  | _, _ => Eq
  end.

Definition padded_compare (a b : list Z) : comparison :=
  let len := Nat.max (length a) (length b) in
  numeric_compare (pad_zeros len a) (pad_zeros len b).

(** [(a, b, c) >= (2, 0, 0)], compared left to right. *)
Definition at_least_2_0_0 (a b c : Z) : bool :=
  (2 <? a) || ((a =? 2) && ((0 <? b) || ((b =? 0) && (0 <=? c)))).

Definition dotted_numeric_ge (v threshold : string) : bool :=
  match padded_compare (numeric_prefix (parse v)) (numeric_prefix (parse threshold)) with
  | Lt => false
  | _ => true
  end.

End Version.

(** ** Effects: commands, files, logs, and the store of dict objects *)

Module Run.
Import Text.

(** Python values that travel through the program. *)
#[warnings="-register-all"]
Inductive pyval :=
| VNone
| VInt (n : Z)
| VStr (s : string)
| VList (items : list pyval)
| VDict (d : gmap string pyval).

Inductive level := INFO | WARNING | ERROR.

(** An argument of a log format: a string, or [human_size(n)], which is kept
    as the call it is. *)
Inductive logarg :=
| AStr (s : string)
| AHuman (n : Z).

(** A command of the [sh] package: program, arguments (keyword arguments
    already turned into options) and what is fed to its standard input. *)
Record command := Command {
  prog : string;
  args : list pyval;
  stdin : option string
}.

Inductive event :=
| Log (lvl : level) (fmt : string) (fmt_args : list logarg)
| Exec (c : command) (code : Z)
| Spawn (c : command)
| Mkdtemp (path : string)
| NamedTemporaryFile (dir path : string)
| Truncate (path : string) (size : Z)
| Tell (path : string) (size : Z)
| Rmdir (path : string)
| Rmtree (path : string)
| IsDir (path : string) (answer : bool)
| IsFile (path : string) (answer : bool)
| Read (path : string) (content : option string)
| JsonDump (path : string) (obj : pyval).

(** What the world outside the process answers.  The first argument is the
    number of events that happened before: the same question can be answered
    differently at different times. *)
Record world := World {
  exec_reply : nat -> command -> Z * string;
  mkdtemp_reply : nat -> string;
  tempfile_reply : nat -> string -> string;
  tell_reply : nat -> string -> Z;
  isdir_reply : nat -> string -> bool;
  isfile_reply : nat -> string -> bool;
  read_reply : nat -> string -> option string
}.

(** The state of a run: the events so far, oldest first, and the dict
    objects, by identity. *)
Record state := State {
  trace : list event;
  store : gmap nat (gmap string pyval)
}.

Inductive outcome (A : Type) :=
| Return (a : A)
| Raised (e : exn)
| Spinning.
Arguments Return {A} a.
Arguments Raised {A} e.
Arguments Spinning {A}.

(** A computation: [Spinning] is a loop that was still going round when the
    bound on its iterations was reached. *)
Definition M (A : Type) : Type := world -> state -> state * outcome A.

Definition ret {A} (a : A) : M A := fun _ st => (st, Return a).

Definition raise {A} (e : exn) : M A := fun _ st => (st, Raised e).

Definition spin {A} : M A := fun _ st => (st, Spinning).

Definition bind {A B} (m : M A) (k : A -> M B) : M B :=
  fun w st =>
    match m w st with
    | (st', Return a) => k a w st'
    | (st', Raised e) => (st', Raised e)
    | (st', Spinning) => (st', Spinning)
    end.

Notation "x <- m ;; k" := (bind m (fun x => k))
  (at level 100, m at next level, right associativity).
Notation "m ;;; k" := (bind m (fun _ => k))
  (at level 100, right associativity).

Definition lift {A} (r : result A) : M A :=
  match r with
  | Ok a => ret a
  | Raise e => raise e
  end.

Definition record (ev : event) (st : state) : state :=
  State (trace st ++ [ev]) (store st).

Definition emit (ev : event) : M unit := fun _ st => (record ev st, Return tt).

(** An answer of the world, recorded by the event [ev answer]. *)
Definition ask {A} (reply : world -> nat -> A) (ev : A -> event) : M A :=
  fun w st =>
    let a := reply w (length (trace st)) in
    (record (ev a) st, Return a).

Definition log (lvl : level) (fmt : string) (fmt_args : list logarg) : M unit :=
  emit (Log lvl fmt fmt_args).

(** A command run in the foreground: [sh] raises [ErrorReturnCode] when the
    exit code is not one of [_ok_code]. *)
Definition sh_ok (ok_code : list Z) (c : command) : M (Z * string) :=
  fun w st =>
    let '(code, out) := exec_reply w (length (trace st)) c in
    let st' := record (Exec c code) st in
    if existsb (Z.eqb code) ok_code then (st', Return (code, out))
    else (st', Raised (ErrorReturnCode (prog c) code)).

Definition sh (prog : string) (args : list pyval) : M (Z * string) :=
  sh_ok [0] (Command prog args None).

(** [for x in l: body(x)] *)
Fixpoint for_each {A} (l : list A) (body : A -> M unit) : M unit :=
  match l with
  | [] => ret tt
  | x :: l' => body x ;;; for_each l' body
  end.

(** A context manager made by [contextlib.contextmanager] from a generator
    with one [yield] that no [try] encloses: [enter] runs the generator up to
    the [yield], [resume] is the code after it. *)
Record context_manager (R : Type) := ContextManager {
  enter : M R;
  resume : R -> M unit
}.
Arguments ContextManager {R} enter resume.
Arguments enter {R} c.
Arguments resume {R} c.

(** [with cm as r: body].  When the body ends (also by [return]),
    [__exit__] calls [next] on the generator, which runs the code after the
    [yield].  When the body raises, [__exit__] throws the exception into the
    generator at the [yield]; nothing catches it there, so the generator
    ends without running the code after the [yield], and the exception goes
    on. *)
Definition with_ {R A} (cm : context_manager R) (body : R -> M A) : M A :=
  r <- enter cm ;;
  fun w st =>
    match body r w st with
    | (st', Return a) => (resume cm r ;;; ret a) w st'
    | (st', Raised e) => (st', Raised e)
    | (st', Spinning) => (st', Spinning)
    end.

(** *** Dict objects *)

Definition dict_copy (l : nat) : M nat :=
  fun _ st =>
    match store st !! l with
    | Some d =>
        let l' := fresh (dom (store st)) in
        (State (trace st) (<[l' := d]> (store st)), Return l')
    | None => (st, Raised AttributeError)
    end.

Definition getitem (l : nat) (k : string) : M pyval :=
  fun _ st =>
    match store st !! l with
    | Some d =>
        match d !! k with
        | Some v => (st, Return v)
        | None => (st, Raised (KeyError k))
        end
    | None => (st, Raised TypeError)
    end.

Definition setitem (l : nat) (k : string) (v : pyval) : M unit :=
  fun _ st =>
    match store st !! l with
    | Some d => (State (trace st) (<[l := <[k := v]> d]> (store st)), Return tt)
    | None => (st, Raised TypeError)
    end.

Definition delitem (l : nat) (k : string) : M unit :=
  fun _ st =>
    match store st !! l with
    | Some d =>
        match d !! k with
        | Some _ => (State (trace st) (<[l := delete k d]> (store st)), Return tt)
        | None => (st, Raised (KeyError k))
        end
    | None => (st, Raised TypeError)
    end.

(** [str + value]: [TypeError] unless the value is a [str]. *)
Definition str_add (s : string) (v : pyval) : M pyval :=
  match v with
  | VStr t => ret (VStr (s ++ t))
  | _ => raise TypeError
  end.

(** Every run of [m] adds events to the end of the trace, and only events
    that satisfy [P]. *)
Definition appends {A} (P : event -> Prop) (m : M A) : Prop :=
  forall w st, exists evs,
    trace (fst (m w st)) = (trace st ++ evs)%list /\ Forall P evs.

End Run.

(** ** The functions of [preload.py] *)

Module Preload.
Import Text Run.

Definition Str (s : string) : pyval := VStr s.

(** [[
def get_offsets_and_sizes(image, unit="B"):
    result = []
    output = parted("-s", "-m", image, "unit", unit, "p").stdout.decode("utf8")
    lines = output.strip().split("\n")
    for line in lines:
        if line[0].isdigit():
            data = line.split(":")
            offset = int(data[1][:-1])
            size = int(data[3][:-1])
            result.append((offset, size))
    return result
]] *)
Definition parted_field (data : list string) (i : Z) : result Z :=
  match py_index data i with
  | Ok field => py_int (drop_last field)
  | Raise e => Raise e
  end.

Fixpoint parse_parted (lines : list string) : result (list (Z * Z)) :=
  match lines with
  | [] => Ok []
  | line :: lines' =>
      match line with
      | EmptyString => Raise IndexError
      | String c _ =>
          if str_isdigit c then
            let data := split ":" line in
            match parted_field data 1 with
            | Raise e => Raise e
            | Ok offset =>
                match parted_field data 3 with
                | Raise e => Raise e
                | Ok size =>
                    match parse_parted lines' with
                    | Ok rest => Ok ((offset, size) :: rest)
                    | Raise e => Raise e
                    end
                end
            end
          else parse_parted lines'
      end
  end.

Definition parted_print (image unit : string) : command :=
  Command "parted" [Str "-s"; Str "-m"; Str image; Str "unit"; Str unit; Str "p"] None.

Definition get_offsets_and_sizes (image unit : string) : M (list (Z * Z)) :=
  r <- sh_ok [0] (parted_print image unit) ;;
  lift (parse_parted (split nl (strip (snd r)))).

(** [[
def get_offset_and_size(image, partition):
    return get_offsets_and_sizes(image)[partition - 1]
]] *)
Definition get_offset_and_size (image : string) (partition : Z) : M (Z * Z) :=
  table <- get_offsets_and_sizes image "B" ;;
  lift (py_index table (partition - 1)).

(** [[
def mount_partition(image, partition, extra_options):
    offset, size = get_offset_and_size(image, partition)
    mountpoint = mkdtemp()
    options = "offset={},sizelimit={}".format(offset, size)
    if extra_options:
        options += "," + extra_options
    mount("-o", options, image, mountpoint)
    return mountpoint
]] *)
Definition mount_options (offset size : Z) (extra_options : string) : string :=
  let options := "offset=" ++ str_of_int offset ++ ",sizelimit=" ++ str_of_int size in
  if is_empty extra_options then options else options ++ "," ++ extra_options.

Definition mount_partition (image : string) (partition : Z) (extra_options : string)
  : M string :=
  extent <- get_offset_and_size image partition ;;
  mountpoint <- ask mkdtemp_reply Mkdtemp ;;
  sh "mount" [Str "-o"; Str (mount_options (fst extent) (snd extent) extra_options);
              Str image; Str mountpoint] ;;;
  ret mountpoint.

(** [[
@contextmanager
def mount_context_manager(image, partition, extra_options=""):
    mountpoint = mount_partition(image, partition, extra_options)
    yield mountpoint
    umount(mountpoint)
    os.rmdir(mountpoint)
]] *)
Definition mount_context_manager (image : string) (partition : Z)
    (extra_options : string) : context_manager string :=
  ContextManager
    (mount_partition image partition extra_options)
    (fun mountpoint => sh "umount" [Str mountpoint] ;;; emit (Rmdir mountpoint)).

(** [[
def losetup_partition(image, partition):
    offset, size = get_offset_and_size(image, partition)
    device = losetup("-f").stdout.decode("utf8").strip()
    losetup("-o", offset, "--sizelimit", size, device, image)
    return device
]] *)
Definition losetup_partition (image : string) (partition : Z) : M string :=
  extent <- get_offset_and_size image partition ;;
  r <- sh "losetup" [Str "-f"] ;;
  let device := strip (snd r) in
  sh "losetup" [Str "-o"; VInt (fst extent); Str "--sizelimit"; VInt (snd extent);
                Str device; Str image] ;;;
  ret device.

(** [[
@contextmanager
def losetup_context_manager(image, partition):
    device = losetup_partition(image, partition)
    yield device
    losetup("-d", device)
]] *)
Definition losetup_context_manager (image : string) (partition : Z)
  : context_manager string :=
  ContextManager
    (losetup_partition image partition)
    (fun device => sh "losetup" [Str "-d"; Str device] ;;; ret tt).

(** [[
def get_resin_os_version(image):
    with mount_context_manager(image, 2) as mountpoint:
        with open(os.path.join(mountpoint, "etc/os-release")) as f:
            for line in f:
                key, value = line.split("=", 1)
                if key == "VERSION":
                    return value.strip('"\n"')
]] *)
Fixpoint find_version (lines : list string) : result (option string) :=
  match lines with
  | [] => Ok None
  | line :: lines' =>
      match split_once "=" line with
      | None => Raise ValueError
      | Some (key, value) =>
          if String.eqb key "VERSION" then
            Ok (Some (strip_chars (fun c => Ascii.eqb c dquote || Ascii.eqb c nl) value))
          else find_version lines'
      end
  end.

Definition open_read (path : string) : M string :=
  content <- ask (fun w t => read_reply w t path) (Read path) ;;
  match content with
  | Some text => ret text
  | None => raise OSError
  end.

Definition get_resin_os_version (image : string) : M (option string) :=
  with_ (mount_context_manager image 2 "") (fun mountpoint =>
    text <- open_read (path_join mountpoint "etc/os-release") ;;
    lift (find_version (file_lines text))).

(** [[
def expand_image(image, additional_space):
    log.info("Expanding image size by {}".format(human_size(additional_space)))
    with open(image, "a") as f:
        size = f.tell()
        f.truncate(size + additional_space)
]] *)
Definition expand_image (image : string) (additional_space : Z) : M unit :=
  log INFO "Expanding image size by {}" [AHuman additional_space] ;;;
  size <- ask (fun w t => tell_reply w t image) (Tell image) ;;
  emit (Truncate image (size + additional_space)).

(** [[
def expand_partitions(image):
    log.info("Expanding extended partition 4 and logical partition 6 to the end of "
             "the disk image.")
    parted("-s", image, "resizepart", 4, "100%", "resizepart", 6, "100%")
]] *)
Definition expand_partitions (image : string) : M unit :=
  log INFO "Expanding extended partition 4 and logical partition 6 to the end of the disk image." [] ;;;
  sh "parted" [Str "-s"; Str image; Str "resizepart"; VInt 4; Str "100%";
               Str "resizepart"; VInt 6; Str "100%"] ;;;
  ret tt.

(** [try: body  except ErrorReturnCode: handler] *)
Definition try_except_ErrorReturnCode {A} (body handler : M A) : M A :=
  fun w st =>
    match body w st with
    | (st', Raised (ErrorReturnCode _ _)) => handler w st'
    | other => other
    end.

(** [[
def expand_ext4(image, partition):
    with losetup_context_manager(image, partition) as loop_device:
        log.info("Using {}".format(loop_device))
        log.info("Resizing filesystem")
        try:
            status = e2fsck("-p", "-f", loop_device, _ok_code=[0, 1, 2])
            status = status.exit_code
            if status == 0:
                log.info("e2fsck: File system OK")
            else:
                log.warning("e2fsck: File system errors corrected")
        except ErrorReturnCode:
            log.error("e2fsck: File system errors could not be corrected")
            exit(1)
        resize2fs("-f", loop_device)
]] *)
Definition e2fsck (loop_device : string) : command :=
  Command "e2fsck" [Str "-p"; Str "-f"; Str loop_device] None.

Definition resize2fs (loop_device : string) : command :=
  Command "resize2fs" [Str "-f"; Str loop_device] None.

Definition expand_ext4 (image : string) (partition : Z) : M unit :=
  with_ (losetup_context_manager image partition) (fun loop_device =>
    log INFO "Using {}" [AStr loop_device] ;;;
    log INFO "Resizing filesystem" [] ;;;
    try_except_ErrorReturnCode
      (status <- sh_ok [0; 1; 2] (e2fsck loop_device) ;;
       if fst status =? 0 then log INFO "e2fsck: File system OK" []
       else log WARNING "e2fsck: File system errors corrected" [])
      (log ERROR "e2fsck: File system errors could not be corrected" [] ;;;
       raise (SystemExit 1)) ;;;
    sh_ok [0] (resize2fs loop_device) ;;;
    ret tt).

(** [[
def expand_btrfs(mountpoint):
    btrfs("filesystem", "resize", "max", mountpoint)
]] *)
Definition expand_btrfs (mountpoint : string) : M unit :=
  sh "btrfs" [Str "filesystem"; Str "resize"; Str "max"; Str mountpoint] ;;; ret tt.

(** [[
def fix_rce_docker(mountpoint):
    _docker_dir = mountpoint + "/docker"
    _rce_dir = mountpoint + "/rce"
    if os.path.isdir(_docker_dir):
        if os.path.isdir(_rce_dir):
            rmtree(_rce_dir)
        return _docker_dir
    else:
        return _rce_dir
]] *)
Definition isdir (path : string) : M bool :=
  ask (fun w t => isdir_reply w t path) (IsDir path).

Definition isfile (path : string) : M bool :=
  ask (fun w t => isfile_reply w t path) (IsFile path).

Definition fix_rce_docker (mountpoint : string) : M string :=
  let _docker_dir := mountpoint ++ "/docker" in
  let _rce_dir := mountpoint ++ "/rce" in
  has_docker <- isdir _docker_dir ;;
  if has_docker : bool then
    has_rce <- isdir _rce_dir ;;
    (if has_rce : bool then emit (Rmtree _rce_dir) else ret tt) ;;;
    ret _docker_dir
  else ret _rce_dir.

(** [[
def start_docker_daemon(filesystem_type, mountpoint, socket):
    docker_dir = fix_rce_docker(mountpoint)
    dockerd(s=filesystem_type, g=docker_dir, H="unix://" + socket, _bg=True)
    log.info("Waiting for Docker to start...")
    while os.path.isfile(socket):
        inotifywait("-t", 1, "-e", "create", os.path.dirname(socket))
    ok = False
    while not ok:
        output = docker("-H", "unix://" + socket, "version", _ok_code=[0, 1])
        ok = output.exit_code == 0
    log.info("Docker started")
]] *)
Definition dockerd (filesystem_type docker_dir socket : string) : command :=
  Command "dockerd" [Str "-s"; Str filesystem_type; Str "-g"; Str docker_dir;
                     Str "-H"; Str ("unix://" ++ socket)] None.

Definition docker_version (socket : string) : command :=
  Command "docker" [Str "-H"; Str ("unix://" ++ socket); Str "version"] None.

(** The first loop, for at most [fuel] tests of its condition. *)
Fixpoint wait_while_isfile (fuel : nat) (socket : string) : M unit :=
  match fuel with
  | O => spin
  | S fuel' =>
      there <- isfile socket ;;
      if there : bool then
        sh "inotifywait" [Str "-t"; VInt 1; Str "-e"; Str "create"; Str (dirname socket)] ;;;
        wait_while_isfile fuel' socket
      else ret tt
  end.

(** The readiness loop, for at most [fuel] queries: it is left when [ok],
    that is [output.exit_code == 0], is true. *)
Fixpoint wait_until_ok (fuel : nat) (socket : string) : M unit :=
  match fuel with
  | O => spin
  | S fuel' =>
      output <- sh_ok [0; 1] (docker_version socket) ;;
      let ok := fst output =? 0 in
      if ok then ret tt else wait_until_ok fuel' socket
  end.

Definition start_docker_daemon (fuel : nat) (filesystem_type mountpoint socket : string)
  : M unit :=
  docker_dir <- fix_rce_docker mountpoint ;;
  emit (Spawn (dockerd filesystem_type docker_dir socket)) ;;;
  log INFO "Waiting for Docker to start..." [] ;;;
  wait_while_isfile fuel socket ;;;
  wait_until_ok fuel socket ;;;
  log INFO "Docker started" [].

(** [[
@contextmanager
def docker_context_manager(filesystem_type, mountpoint, socket):
    start_docker_daemon(filesystem_type, mountpoint, socket)
    yield
    with open("/var/run/docker.pid", "r") as f:
        kill(f.read().strip())
]] *)
Definition docker_context_manager (fuel : nat) (filesystem_type mountpoint socket : string)
  : context_manager unit :=
  ContextManager
    (start_docker_daemon fuel filesystem_type mountpoint socket)
    (fun _ =>
       pid <- open_read "/var/run/docker.pid" ;;
       sh "kill" [Str (strip pid)] ;;; ret tt).

(** [[
def write_apps_json(data, output):
    data = data.copy()
    data["imageId"] = "registry2.resin.io/" + data["imageRepo"]
    del data["imageRepo"]
    with open(output, "w") as f:
        json.dump([data], f, indent=4, sort_keys=True)
]]
    [data] is the identity of a dict object; the event [JsonDump] carries the
    object given to [json.dump]. *)
Definition json_dump_list_of (l : nat) (output : string) : M unit :=
  fun w st =>
    match store st !! l with
    | Some d => emit (JsonDump output (VList [VDict d])) w st
    | None => (st, Raised TypeError)
    end.

Definition write_apps_json (data : nat) (output : string) : M unit :=
  data <- dict_copy data ;;
  repo <- getitem data "imageRepo" ;;
  image_id <- str_add "registry2.resin.io/" repo ;;
  setitem data "imageId" image_id ;;;
  delitem data "imageRepo" ;;;
  json_dump_list_of data output.

(** [[
def docker_pull(docker_sock, image_id):
    log.info("Pulling image...")
    docker("-H", "unix://" + docker_sock, "pull", image_id, _fg=True)
    log.info("Docker images loaded:")
    docker("-H", "unix://" + docker_sock, "images", "--all", _fg=True)
]] *)
Definition docker_pull (docker_sock : string) (image_id : pyval) : M unit :=
  log INFO "Pulling image..." [] ;;;
  sh "docker" [Str "-H"; Str ("unix://" ++ docker_sock); Str "pull"; image_id] ;;;
  log INFO "Docker images loaded:" [] ;;;
  sh "docker" [Str "-H"; Str ("unix://" ++ docker_sock); Str "images"; Str "--all"] ;;;
  ret tt.

(** [[
def resize_fs_copy_splash_image_and_pull(image, app_data):
    version = get_resin_os_version(image)
    version_ge_2 = LooseVersion(version) >= LooseVersion("2.0.0")
    extra_options = ""
    if version_ge_2:
        log.info("Expanding ext filesystem")
        expand_ext4(image, 6)
    else:
        extra_options = "nospace_cache,rw"
    docker_sock = mkdtemp() + "/docker.sock"
    with mount_context_manager(image, 6, extra_options) as mountpoint:
        if version_ge_2:
            driver = "aufs"
        else:
            log.info("Expanding btrfs filesystem")
            expand_btrfs(mountpoint)
            driver = "btrfs"
        with docker_context_manager(driver, mountpoint, docker_sock):
            write_apps_json(app_data, mountpoint + "/apps.json")
            docker_pull(docker_sock, app_data["imageId"])
]] *)
Definition resize_fs_copy_splash_image_and_pull (fuel : nat) (image : string)
    (app_data : nat) : M unit :=
  version <- get_resin_os_version image ;;
  version_ge_2 <- lift (Version.version_ge_2 version) ;;
  extra_options <-
    (if version_ge_2 : bool then
       log INFO "Expanding ext filesystem" [] ;;;
       expand_ext4 image 6 ;;;
       ret EmptyString
     else ret "nospace_cache,rw") ;;
  tmpdir <- ask mkdtemp_reply Mkdtemp ;;
  let docker_sock := tmpdir ++ "/docker.sock" in
  with_ (mount_context_manager image 6 extra_options) (fun mountpoint =>
    driver <-
      (if version_ge_2 : bool then ret "aufs"
       else
         log INFO "Expanding btrfs filesystem" [] ;;;
         expand_btrfs mountpoint ;;;
         ret "btrfs") ;;
    with_ (docker_context_manager fuel driver mountpoint docker_sock) (fun _ =>
      write_apps_json app_data (mountpoint ++ "/apps.json") ;;;
      image_id <- getitem app_data "imageId" ;;
      docker_pull docker_sock image_id)).

(** [[
def file_size(path):
    with open(path, "a") as f:
        return f.tell()
]] *)
Definition file_size (path : string) : M Z :=
  ask (fun w t => tell_reply w t path) (Tell path).

(** [[
def ddd( **kwargs ):
    return dd( *( "{}={}".format(k.lstrip("_"), v) for k, v in kwargs.items() ) )
]] *)
Inductive scalar :=
| KStr (s : string)
| KInt (n : Z).

Definition format_scalar (v : scalar) : string :=
  match v with
  | KStr s => s
  | KInt n => str_of_int n
  end.

Definition dd_operand (kv : string * scalar) : pyval :=
  Str (lstrip_by (fun c => Ascii.eqb c "_") (fst kv) ++ "=" ++ format_scalar (snd kv)).

Definition ddd (kwargs : list (string * scalar)) : M unit :=
  sh "dd" (map dd_operand kwargs) ;;; ret tt.

(** [[
def resize_rootfs_get_sfdisk_script(image, additional_sectors):
    layout = sfdisk(d=image).stdout.decode("utf8").strip()
    ...
]] *)
Definition resize_rootfs_get_sfdisk_script (image : string) (additional_sectors : Z)
  : M string :=
  r <- sh "sfdisk" [Str "-d"; Str image] ;;
  lift (Layout.rewrite_layout (snd r) additional_sectors).

(** [[
def resize_rootfs(image, additional_space):
    log.info("Resizing the 2nd partition of the image.")
    size = file_size(image) + additional_space
    log.info("New disk image size: {}.".format(human_size(size)))
    additional_sectors = additional_space // SECTOR_SIZE
    tmp = NamedTemporaryFile(dir=os.path.dirname(image), delete=False)
    tmp.truncate(size)
    tmp.close()
    new_layout = resize_rootfs_get_sfdisk_script(image, additional_sectors)
    sfdisk(tmp.name, _in=new_layout)
    offsets_and_sizes = get_offsets_and_sizes(image, "s")
    copy = partial(ddd, _if=image, of=tmp.name, bs=SECTOR_SIZE, conv="notrunc")
    for offset, size in offsets_and_sizes[:2]:
        copy(skip=offset, seek=offset, count=size)
    for offset, size in offsets_and_sizes[2:]:
        copy(skip=offset, seek=offset + additional_sectors, count=size)
    expand_ext4(tmp.name, 2)
    ddd(_if=tmp.name, of=image, bs=SECTOR_SIZE)
]] *)
Definition copy (image tmp : string) (skip seek count : Z) : M unit :=
  ddd [("_if", KStr image); ("of", KStr tmp); ("bs", KInt Sector.SECTOR_SIZE);
       ("conv", KStr "notrunc");
       ("skip", KInt skip); ("seek", KInt seek); ("count", KInt count)].

Definition resize_rootfs (image : string) (additional_space : Z) : M unit :=
  log INFO "Resizing the 2nd partition of the image." [] ;;;
  old_size <- file_size image ;;
  let size := old_size + additional_space in
  log INFO "New disk image size: {}." [AHuman size] ;;;
  let additional_sectors := additional_space / Sector.SECTOR_SIZE in
  tmp <- ask (fun w t => tempfile_reply w t (dirname image))
             (NamedTemporaryFile (dirname image)) ;;
  emit (Truncate tmp size) ;;;
  new_layout <- resize_rootfs_get_sfdisk_script image additional_sectors ;;
  sh_ok [0] (Command "sfdisk" [Str tmp] (Some new_layout)) ;;;
  offsets_and_sizes <- get_offsets_and_sizes image "s" ;;
  for_each (take 2 offsets_and_sizes)
    (fun '(offset, size) => copy image tmp offset offset size) ;;;
  for_each (drop 2 offsets_and_sizes)
    (fun '(offset, size) => copy image tmp offset (offset + additional_sectors) size) ;;;
  expand_ext4 tmp 2 ;;;
  ddd [("_if", KStr tmp); ("of", KStr image); ("bs", KInt Sector.SECTOR_SIZE)].

(** [[
def preload(image, additional_space, app_data):
    expand_image(image, additional_space)
    expand_partitions(image)
    resize_fs_copy_splash_image_and_pull(image, app_data)
]] *)
Definition preload (fuel : nat) (image : string) (additional_space : Z)
    (app_data : nat) : M unit :=
  expand_image image additional_space ;;;
  expand_partitions image ;;;
  resize_fs_copy_splash_image_and_pull fuel image app_data.

End Preload.

(** ** The two filesystem variants *)

Module Variants.
Import Text Run Preload.

(** What [resize_fs_copy_splash_image_and_pull] does once the filesystem is
    chosen: mount partition 6, [prepare] the mounted filesystem, start the
    daemon with [driver], write the metadata and pull. *)
Definition pull_into (fuel : nat) (image : string) (app_data : nat)
    (extra_options driver : string) (prepare : string -> M unit) : M unit :=
  tmpdir <- ask mkdtemp_reply Mkdtemp ;;
  let docker_sock := tmpdir ++ "/docker.sock" in
  with_ (mount_context_manager image 6 extra_options) (fun mountpoint =>
    prepare mountpoint ;;;
    with_ (docker_context_manager fuel driver mountpoint docker_sock) (fun _ =>
      write_apps_json app_data (mountpoint ++ "/apps.json") ;;;
      image_id <- getitem app_data "imageId" ;;
      docker_pull docker_sock image_id)).

(** The journaled-block variant: check and resize the unmounted partition
    through a loop device, then mount it and pull with the [aufs] driver. *)
Definition ext4_variant (fuel : nat) (image : string) (app_data : nat) : M unit :=
  log INFO "Expanding ext filesystem" [] ;;;
  expand_ext4 image 6 ;;;
  pull_into fuel image app_data EmptyString "aufs" (fun _ => ret tt).

(** The copy-on-write variant: mount the partition, resize it online, and
    pull with the [btrfs] driver. *)
Definition btrfs_variant (fuel : nat) (image : string) (app_data : nat) : M unit :=
  pull_into fuel image app_data "nospace_cache,rw" "btrfs"
    (fun mountpoint =>
       log INFO "Expanding btrfs filesystem" [] ;;; expand_btrfs mountpoint).

Definition is_bad (bad : list string) (p : string) : bool :=
  existsb (String.eqb p) bad.

(** The events a variant may add: a daemon is started only as [dockerd] with
    the storage driver [driver], and no program of [bad] is run. *)
Definition allowed (driver : string) (bad : list string) (ev : event) : Prop :=
  match ev with
  | Spawn c => exists docker_dir socket, c = dockerd driver docker_dir socket
  | Exec c _ => is_bad bad (prog c) = false
  | _ => True
  end.

(** The daemons started in a trace. *)
Definition spawned (tr : list event) : list command :=
  flat_map (fun ev => match ev with Spawn c => [c] | _ => [] end) tr.

End Variants.

(** ** The Block Migrator: what [resize_rootfs] is to copy *)

Module Migration.
Import Text Run Preload.

(** One [dd] copy between the two images, in sectors. *)
Record copy_op := CopyOp {
  op_skip : Z;
  op_seek : Z;
  op_count : Z
}.

(** The copies the specification asks for, by partition index (the first
    entry of the table has index [idx]): same place up to [growIndex], moved by
    [shift] sectors after it, always with the partition's own size. *)
Fixpoint planned_copies (idx growIndex : nat) (shift : Z) (table : list (Z * Z))
  : list copy_op :=
  match table with
  | [] => []
  | (offset, size) :: rest =>
      CopyOp offset (if Nat.leb idx growIndex then offset else offset + shift) size
        :: planned_copies (S idx) growIndex shift rest
  end.

(** The command line of a copy, and of the final copy back. *)
Definition dd_copy (image tmp : string) (op : copy_op) : command :=
  Command "dd"
    [VStr ("if=" ++ image); VStr ("of=" ++ tmp); VStr "bs=512"; VStr "conv=notrunc";
     VStr ("skip=" ++ str_of_int (op_skip op));
     VStr ("seek=" ++ str_of_int (op_seek op));
     VStr ("count=" ++ str_of_int (op_count op))] None.

Definition dd_back (tmp image : string) : command :=
  Command "dd" [VStr ("if=" ++ tmp); VStr ("of=" ++ image); VStr "bs=512"] None.

(** The [dd] commands of a list of events. *)
Definition dd_commands (tr : list event) : list command :=
  flat_map (fun ev =>
              match ev with
              | Exec c _ => if String.eqb (prog c) "dd" then [c] else []
              | _ => []
              end) tr.

(** What [dd bs=512 conv=notrunc skip= seek= count=] does to the size of its
    output file: it reads at most [count] sectors from [skip] on, as far as
    the input goes, and writes them from [seek] on; the output grows only if
    the last byte written lies beyond its end. *)
Definition copied_bytes (src_size : Z) (op : copy_op) : Z :=
  Z.max 0 (Z.min (op_count op * 512) (src_size - op_skip op * 512)).

Definition size_after_copy (src_size dst_size : Z) (op : copy_op) : Z :=
  let n := copied_bytes src_size op in
  if n =? 0 then dst_size else Z.max dst_size (op_seek op * 512 + n).

Definition size_after_copies (src_size dst_size : Z) (ops : list copy_op) : Z :=
  fold_left (size_after_copy src_size) ops dst_size.

(** The world lets every command succeed: exit code 0, and 0, 1 or 2 for
    [e2fsck]. *)
Definition cooperative (w : world) : Prop :=
  forall t c,
    if String.eqb (prog c) "e2fsck"
    then In (fst (exec_reply w t c)) [0; 1; 2]
    else fst (exec_reply w t c) = 0.

(** The command [c] prints [out] whenever it is run. *)
Definition prints (w : world) (c : command) (out : string) : Prop :=
  forall t, snd (exec_reply w t c) = out.

Definition sfdisk_dump (image : string) : command :=
  Command "sfdisk" [VStr "-d"; VStr image] None.

Definition parted_lines (out : string) : list string := split nl (strip out).

End Migration.

(** ** The consistency check of [expand_ext4]: its log records *)

Module Fsck.
Import Text Run Preload.

Definition msg_ok : event := Log INFO "e2fsck: File system OK" [].
Definition msg_corrected : event := Log WARNING "e2fsck: File system errors corrected" [].
Definition msg_fatal : event :=
  Log ERROR "e2fsck: File system errors could not be corrected" [].

(** The events of [expand_ext4] up to the end of [e2fsck], after the loop
    device was bound in a state with trace [before]. *)
Definition began (before : list event) (dev : string) (c : Z) : list event :=
  (before ++ [Log INFO "Using {}" [AStr dev]; Log INFO "Resizing filesystem" [];
              Exec (e2fsck dev) c])%list.

(** [preload] gets to the [expand_ext4] of partition 6 in state [st]. *)
Definition reaches_expand_ext4 (w : world) (image : string) (additional_space : Z)
    (s0 st : state) : Prop :=
  exists s1 sa sv v,
    expand_image image additional_space w s0 = (s1, Return tt)
    /\ expand_partitions image w s1 = (sa, Return tt)
    /\ get_resin_os_version image w sa = (sv, Return v)
    /\ Version.version_ge_2 v = Ok true
    /\ st = record (Log INFO "Expanding ext filesystem" []) sv.

End Fsck.

(** ** The readiness loop of [start_docker_daemon]: its queries *)

Module Readiness.
Import Text Run Preload.

(** The exit code of the [i]-th status query of a loop entered in state [st]. *)
Definition poll_code (w : world) (st : state) (socket : string) (i : nat) : Z :=
  fst (exec_reply w (length (trace st) + i) (docker_version socket)).

Definition polls (w : world) (st : state) (socket : string) (n : nat) : list event :=
  map (fun i => Exec (docker_version socket) (poll_code w st socket i)) (seq 0 n).

End Readiness.

(** ** Dumps of [sfdisk] *)

Module LayoutExamples.
Import Text Layout.

(** A dump for a DOS label: four header lines and an empty line. *)
Definition resin_header : list string :=
  ["label: dos"; "label-id: 0x4e1a3c7b"; "device: /img/resin.img";
   "unit: sectors"; ""].

Definition resin_entries : list entry :=
  [ Entry "/img/resin.img1 : " "        " 8192 " " "       " 81920 " type=c, bootable";
    Entry "/img/resin.img2 : " "       " 90112 " " "      " 638976 " type=83";
    Entry "/img/resin.img3 : " "      " 729088 " " "      " 638976 " type=83";
    Entry "/img/resin.img4 : " "     " 1368064 " " "     " 2000000 " type=f";
    Entry "/img/resin.img5 : " "     " 1376256 " " "       " 40960 " type=83";
    Entry "/img/resin.img6 : " "     " 1425408 " " "     " 1942656 " type=83" ].

Definition resin_dump : description := Description resin_header resin_entries.

(** The same table as a later [sfdisk] dumps it, with a [sector-size] line. *)
Definition later_header : list string :=
  ["label: dos"; "label-id: 0x4e1a3c7b"; "device: /img/resin.img";
   "unit: sectors"; "sector-size: 512"; ""].

Definition later_dump : description := Description later_header resin_entries.

(** Output of the dump command in which the second partition line carries no
    [size=] field and the third no [start=] field. *)
Definition malformed_line2 : string :=
  "/img/resin.img2 : start=       90112, sectors=      638976, type=83".

Definition malformed_line3 : string :=
  "/img/resin.img3 : offset=      729088, size=      638976, type=83".

Definition malformed_stdout : string :=
  join NL (resin_header ++
           ["/img/resin.img1 : start=        8192, size=       81920, type=c, bootable";
            malformed_line2; malformed_line3]) ++ NL.

End LayoutExamples.

(** ** A world to run the program in *)

Module Demo.
Import Text Run Preload.

Definition parted_sectors : string :=
  join NL ["BYT;";
           "/img/resin.img:3368064s:file:512:512:msdos::;";
           "1:8192s:90111s:81920s:fat16::boot, lba;";
           "2:90112s:729087s:638976s:ext4::;";
           "3:729088s:1368063s:638976s:ext4::;";
           "4:1368064s:3368063s:2000000s:::lba;";
           "5:1376256s:1417215s:40960s:ext4::;";
           "6:1425408s:3368063s:1942656s:ext4::;"; ""].

Definition parted_bytes : string :=
  join NL ["BYT;";
           "/img/resin.img:1724448768B:file:512:512:msdos::;";
           "1:4194304B:46137343B:41943040B:fat16::boot, lba;";
           "2:46137344B:373293055B:327155712B:ext4::;";
           "3:373293056B:700448767B:327155712B:ext4::;";
           "4:700448768B:1724448767B:1024000000B:::lba;";
           "5:704643072B:725614591B:20971520B:ext4::;";
           "6:729808896B:1724448767B:994639872B:ext4::;"; ""].

(** The text of [/etc/os-release] for a version. *)
Definition os_release (version : string) : string :=
  "NAME=Resin OS" ++ NL ++ "VERSION=" ++ String dquote version ++ String dquote NL.

(** What a command prints. *)
Definition stdout_of (c : command) : string :=
  match prog c, args c with
  | "parted", [_; _; _; VStr "unit"; VStr unit; VStr "p"] =>
      if String.eqb unit "s" then parted_sectors else parted_bytes
  | "sfdisk", [VStr "-d"; _] => Layout.dump LayoutExamples.resin_dump
  | "losetup", [VStr "-f"] => "/dev/loop0" ++ NL
  | _, _ => EmptyString
  end.

Definition is_status_query (c : command) : bool :=
  match prog c, args c with
  | "docker", [_; _; VStr "version"] => true
  | _, _ => false
  end.

(** Every command exits with 0, except [e2fsck], which exits with [fsck], and
    the status queries of [docker] before time [ready_at], which exit with 1. *)
Definition world_of (fsck : Z) (ready_at : nat) (os_release_text : string) : world :=
  World
    (fun t c =>
       (if String.eqb (prog c) "e2fsck" then fsck
        else if is_status_query c && Nat.ltb t ready_at then 1
        else 0,
        stdout_of c))
    (fun t => "/tmp/tmp" ++ str_of_int (Z.of_nat t))
    (fun _ dir => dir ++ "/tmpimg")
    (fun _ _ => 1724448768)
    (fun _ _ => true)
    (fun _ _ => false)
    (fun _ path =>
       if String.eqb path "/var/run/docker.pid" then Some ("4242" ++ NL)
       else Some os_release_text).

(** The app-data dict of [get_app_data], resolved against a private registry,
    as object 0 of the store. *)
Definition app_data : gmap string pyval :=
  <["appId" := VInt 1234]> (<["name" := VStr "Sensor"]> (<["commit" := VStr "abc123"]>
  (<["imageRepo" := VStr "sensor/abc123"]>
  (<["imageId" := VStr "registry.example.com/sensor/abc123"]>
  (<["env" := VDict ∅]> (<["config" := VDict ∅]> ∅)))))).

Definition start : state := State [] (<[0%nat := app_data]> ∅).

(** The events of a list that are log records, and the commands run. *)
Definition logs (tr : list event) : list event :=
  List.filter (fun ev => match ev with Log _ _ _ => true | _ => false end) tr.

Definition is_exec_of (p : string) (ev : event) : bool :=
  match ev with
  | Exec c _ => String.eqb (prog c) p
  | _ => false
  end.

(** The table [parted] prints in sectors, parsed. *)
Definition demo_table : list (Z * Z) :=
  [(8192, 81920); (90112, 638976); (729088, 638976); (1368064, 2000000);
   (1376256, 40960); (1425408, 1942656)].

(** A world in which the daemon answers the first status query with exit code
    1 and every later one with exit code 0. *)
Definition slow_daemon : world :=
  World (fun t _ => (if Nat.eqb t 0 then 1 else 0, EmptyString))
        (fun _ => "/tmp/tmpq0") (fun _ dir => dir ++ "/tmpq1") (fun _ _ => 0)
        (fun _ _ => false) (fun _ _ => false) (fun _ _ => None).

Definition idle : state := State [] ∅.

End Demo.

(** ** What [parted -s -m IMAGE unit U p] prints *)

Module Parted.
Import Text.

(** One partition line, [number:startU:endU:sizeU:rest]: the one-letter unit
    [U] follows each of the three numbers, and [rest] holds the filesystem,
    the name and the flags. *)
Record row := Row {
  number : Z;
  first : Z;
  last : Z;
  extent : Z;
  rest : string
}.

Definition field (unit : ascii) (n : Z) : string :=
  str_of_int n ++ String unit EmptyString.

Definition render_row (unit : ascii) (r : row) : string :=
  str_of_int (number r) ++ ":" ++ field unit (first r) ++ ":" ++ field unit (last r)
  ++ ":" ++ field unit (extent r) ++ ":" ++ rest r.

(** The offsets and sizes of the rows. *)
Definition table (rows : list row) : list (Z * Z) :=
  map (fun r => (first r, extent r)) rows.

(** A line that is not taken for a partition line: it is not empty and its
    first character is no digit. *)
Definition is_header (line : string) : bool :=
  match line with
  | EmptyString => false
  | String c _ => negb (str_isdigit c)
  end.

Definition not_char (x c : ascii) : bool := negb (Ascii.eqb c x).

End Parted.

(** ** Occurrences of a key in a text *)

Module Occurrence.
Import Text.

Definition found (o : option string) : bool :=
  match o with Some _ => true | None => false end.

Definition not_digit (c : ascii) : bool := negb (isdigit c).

End Occurrence.

(** ** The lines of [/etc/os-release] *)

Module OsRelease.
Import Text Run Preload.

(** The command of [umount(mountpoint)]. *)
Definition umount (mountpoint : string) : command :=
  Command "umount" [Str mountpoint] None.

(** A line [key=value] whose key is not [VERSION]. *)
Definition other_key (line : string) : bool :=
  match split_once "=" line with
  | Some (key, _) => negb (String.eqb key "VERSION")
  | None => false
  end.

(** The characters that [value.strip] removes in [get_resin_os_version]. *)
Definition quote_or_nl (c : ascii) : bool := Ascii.eqb c dquote || Ascii.eqb c nl.

(** The line [VERSION="version"] with its newline. *)
Definition version_line (version : string) : string :=
  "VERSION=" ++ String dquote version ++ String dquote NL.

End OsRelease.

(** ** The events of [start_docker_daemon] *)

Module Daemon.
Import Text Run Preload.

(** The command of the first loop. *)
Definition inotifywait (socket : string) : command :=
  Command "inotifywait" [Str "-t"; VInt 1; Str "-e"; Str "create"; Str (dirname socket)]
          None.

(** What [fix_rce_docker] does on [mountpoint]: tests of directories, and the
    removal of [mountpoint/rce]. *)
Definition probe (mountpoint : string) (ev : event) : Prop :=
  match ev with
  | IsDir _ _ => True
  | Rmtree path => path = mountpoint ++ "/rce"
  | _ => False
  end.

(** A round of the first loop: the socket path is a regular file, and
    [inotifywait] exits with 0. *)
Definition waiting (socket : string) (ev : event) : Prop :=
  ev = IsFile socket true \/ ev = Exec (inotifywait socket) 0.

(** A status query answered with exit code 1. *)
Definition not_ready (socket : string) (ev : event) : Prop :=
  ev = Exec (docker_version socket) 1.

End Daemon.

(** ** The innermost block of [resize_fs_copy_splash_image_and_pull] *)

Module Pull.
Import Text Run Preload.

(** [[
        with docker_context_manager(driver, mountpoint, docker_sock):
            write_apps_json(app_data, mountpoint + "/apps.json")
            docker_pull(docker_sock, app_data["imageId"])
]] *)
Definition pull_block (fuel : nat) (driver mountpoint docker_sock : string)
    (app_data : nat) : M unit :=
  with_ (docker_context_manager fuel driver mountpoint docker_sock) (fun _ =>
    write_apps_json app_data (mountpoint ++ "/apps.json") ;;;
    image_id <- getitem app_data "imageId" ;;
    docker_pull docker_sock image_id).

Definition docker_pull_command (docker_sock : string) (image_id : pyval) : command :=
  Command "docker" [Str "-H"; Str ("unix://" ++ docker_sock); Str "pull"; image_id] None.

Definition docker_images_command (docker_sock : string) : command :=
  Command "docker" [Str "-H"; Str ("unix://" ++ docker_sock); Str "images"; Str "--all"]
          None.

Definition kill_command (pid : string) : command := Command "kill" [Str pid] None.

(** The dict that [write_apps_json] dumps for the dict [d] with the
    repository path [repo]. *)
Definition dumped (d : gmap string pyval) (repo : string) : gmap string pyval :=
  delete "imageRepo" (<["imageId" := VStr ("registry2.resin.io/" ++ repo)]> d).

(** The exception of [write_apps_json] for the value of [imageRepo]. *)
Definition repo_error (v : option pyval) : option exn :=
  match v with
  | None => Some (KeyError "imageRepo")
  | Some (VStr _) => None
  | Some _ => Some TypeError
  end.

End Pull.

(** ** Worlds in which something fails *)

Module Failing.
Import Text Run Preload.

(** A state whose dict 0 has an image id and no repository path. *)
Definition no_repo : state :=
  State [] (<[0%nat := <["imageId" := VStr "registry.example.com/sensor/abc123"]> ∅]> ∅).

(** A world in which a regular file lies at every path and [inotifywait]
    exits with 2. *)
Definition stale_socket : world :=
  World (fun _ c => (if String.eqb (prog c) "inotifywait" then 2 else 0, EmptyString))
        (fun _ => "/tmp/tmpq0") (fun _ dir => dir ++ "/tmpq1") (fun _ _ => 0)
        (fun _ _ => false) (fun _ _ => true) (fun _ _ => None).

(** A world in which [mount] exits with 32 and every other command with 0;
    [parted] prints the table of the demonstration image. *)
Definition failing_mount : world :=
  World (fun _ c => (if String.eqb (prog c) "mount" then 32 else 0, Demo.stdout_of c))
        (fun _ => "/tmp/tmpq0") (fun _ dir => dir ++ "/tmpq1") (fun _ _ => 0)
        (fun _ _ => false) (fun _ _ => false) (fun _ _ => None).

(** A world in which [parted resizepart] fails: every [parted] exits with
    1. *)
Definition failing_parted : world :=
  World (fun _ c => (if String.eqb (prog c) "parted" then 1 else 0, EmptyString))
        (fun _ => "/tmp/tmpq0") (fun _ dir => dir ++ "/tmpq1") (fun _ _ => 1724448768)
        (fun _ _ => false) (fun _ _ => false) (fun _ _ => None).

(** A world in which [docker pull] exits with 1 and every other command with
    0. *)
Definition failing_pull : world :=
  World (fun _ c =>
           (match args c with
            | [_; _; VStr "pull"; _] => 1
            | _ => 0
            end, EmptyString))
        (fun _ => "/tmp/tmpq0") (fun _ dir => dir ++ "/tmpq1") (fun _ _ => 0)
        (fun _ _ => false) (fun _ _ => false)
        (fun _ _ => Some ("4242" ++ NL)).

End Failing.

(** ** Events that change an image *)

Module Untouched.
Import Text Run Preload.

Definition names (path : string) (a : pyval) : bool :=
  match a with
  | VStr s => String.eqb s path
  | _ => false
  end.

(** The events by which this program changes the file [image], named as
    such: a truncation, a [dd] with the operand [of=image], an [sfdisk] that
    applies a script to it, and a [losetup] that binds it to a loop device
    (for [e2fsck] and [resize2fs]). *)
Definition touches (image : string) (ev : event) : bool :=
  match ev with
  | Truncate path _ => String.eqb path image
  | Exec c _ =>
      if String.eqb (prog c) "dd" then existsb (names ("of=" ++ image)) (args c)
      else if String.eqb (prog c) "sfdisk" then
        match args c, stdin c with
        | [a], Some _ => names image a
        | _, _ => false
        end
      else if String.eqb (prog c) "losetup" then
        match args c with
        | [_; _; _; _; _; a] => names image a
        | _ => false
        end
      else false
  | _ => false
  end.

Definition untouched (image : string) (ev : event) : Prop := touches image ev = false.

(** Every run of [m] adds events that satisfy [P], except that a run which
    gets to the end adds the command [c] as its last event, and returns if [c]
    exits with 0. *)
Definition ends_by (P : event -> Prop) (c : command) (m : M unit) : Prop :=
  forall w st, exists evs,
    trace (fst (m w st)) = (trace st ++ evs)%list
    /\ ((Forall P evs /\ snd (m w st) <> Return tt)
        \/ exists before code,
             evs = (before ++ [Exec c code])%list
             /\ Forall P before
             /\ snd (m w st) = if code =? 0 then Return tt
                                else Raised (ErrorReturnCode (prog c) code)).

End Untouched.

(** ** The type of a number *)

Module Numbers.
Import Sector.

(** [isinstance(v, float)] *)
Definition is_float (v : pynum) : bool :=
  match v with
  | PyFloat _ => true
  | PyInt _ => false
  end.

End Numbers.

(** ** Sizes in log records: [human_size] *)

Module HumanSize.
Import Text Sector.

Definition suffixes : list string := [""; "Ki"; "Mi"; "Gi"; "Ti"].

(** [size >= 1024]: Python compares an [int] and a [float] exactly. *)
Definition ge_1024 (size : pynum) : bool :=
  match size with
  | PyInt n => 1024 <=? n
  | PyFloat (Finite m e) =>
      if 0 <=? e then 1024 <=? m * 2 ^ e else 1024 * 2 ^ (- e) <=? m
  | PyFloat (Inf negative) => negb negative
  end.

(** [size / 1024]: true division of an [int], division of a [float] by
    [2^10]. *)
Definition div_1024 (size : pynum) : result pynum :=
  match size with
  | PyInt n =>
      match int_truediv_pow2 n 10 with
      | Ok x => Ok (PyFloat x)
      | Raise e => Raise e
      end
  | PyFloat x => Ok (PyFloat (float_div_pow2 x 10))
  end.

(** [[
    while idx < 4 and size >= 1024:
        idx += 1
        size /= 1024
]]
    [left] is [4 - idx]. *)
Fixpoint scale (left : nat) (idx : nat) (size : pynum) : result (nat * pynum) :=
  match left with
  | O => Ok (idx, size)
  | S left' =>
      if ge_1024 size then
        match div_1024 size with
        | Ok size' => scale left' (S idx) size'
        | Raise e => Raise e
        end
      else Ok (idx, size)
  end.

Definition two_digits (n : Z) : string :=
  String (digit_char (n / 10)) (String (digit_char (n mod 10)) EmptyString).

(** The decimal writing of a [float] with two digits after the point,
    correctly rounded (ties to even), as the format [.2f] gives it. *)
Definition fixed_2 (x : pyfloat) : string :=
  match x with
  | Finite m e =>
      let a := Z.abs m in
      let h := if 0 <=? e then a * 2 ^ e * 100 else round_half_even (a * 100) (- e) in
      (if m <? 0 then "-" else "") ++ digits (h / 100) ++ "." ++ two_digits (h mod 100)
  | Inf negative => if negative then "-inf" else "inf"
  end.

(** [format(size, ".2f")]: an [int] is converted to a [float] first. *)
Definition format_2f (size : pynum) : result string :=
  match size with
  | PyInt n =>
      match int_truediv_pow2 n 0 with
      | Ok x => Ok (fixed_2 x)
      | Raise e => Raise e
      end
  | PyFloat x => Ok (fixed_2 x)
  end.

Definition is_char (x c : ascii) : bool := Ascii.eqb c x.

(** [text.rstrip("0").rstrip(".")] *)
Definition trim (text : string) : string :=
  rstrip_by (is_char ".") (rstrip_by (is_char "0") text).

(** [[
def human_size(size, precision=2):
    suffixes = ['', 'Ki', 'Mi', 'Gi', 'Ti']
    idx = 0
    while idx < 4 and size >= 1024:
        idx += 1
        size /= 1024
    result = "{:.{}f}".format(size, precision).rstrip("0").rstrip(".")
    return "{} {}B".format(result, suffixes[idx])
]]
    with the default [precision], which is what every call in the program
    uses. *)
Definition human_size (size : pynum) : result string :=
  match scale 4 0 size with
  | Raise e => Raise e
  | Ok (idx, size') =>
      match format_2f size' with
      | Raise e => Raise e
      | Ok text =>
          let result := trim text in
          match suffixes !! idx with
          | Some suffix => Ok (result ++ " " ++ suffix ++ "B")
          | None => Raise IndexError
          end
      end
  end.

End HumanSize.

(** ** The commands of [mount_partition], [expand_ext4] and [expand_partitions] *)

Module Commands.
Import Text Run Preload.

Definition mount_command (image mountpoint : string) (offset size : Z)
    (extra_options : string) : command :=
  Command "mount" [Str "-o"; Str (mount_options offset size extra_options);
                   Str image; Str mountpoint] None.

Definition losetup_find : command := Command "losetup" [Str "-f"] None.

Definition losetup_bind (image device : string) (offset size : Z) : command :=
  Command "losetup" [Str "-o"; VInt offset; Str "--sizelimit"; VInt size;
                     Str device; Str image] None.

Definition losetup_detach (device : string) : command :=
  Command "losetup" [Str "-d"; Str device] None.

Definition resizepart (image : string) : command :=
  Command "parted" [Str "-s"; Str image; Str "resizepart"; VInt 4; Str "100%";
                    Str "resizepart"; VInt 6; Str "100%"] None.

(** The log record of [e2fsck] for an exit code it accepts. *)
Definition fsck_record (code : Z) : event :=
  if code =? 0 then Fsck.msg_ok else Fsck.msg_corrected.

End Commands.

(** ** Runs in which everything succeeds *)

Module Success.
Import Text Run Preload.

(** [st'] is [st] with more events, and with the dict objects of [st] as
    they were. *)
Definition later (st st' : state) : Prop :=
  (exists evs, trace st' = (trace st ++ evs)%list) /\ store st ⊆ store st'.

(** [st'] is [st] with more events, the last of which are [last]. *)
Definition ends (st st' : state) (last : list event) : Prop :=
  exists evs, trace st' = (trace st ++ evs ++ last)%list.

(** [m] returns [a] from [st], in a later state. *)
Definition returns {A} (m : M A) (w : world) (st : state) (a : A) : Prop :=
  exists st', m w st = (st', Return a) /\ later st st'.

End Success.

(** * Properties *)

(** ** Facts about the string operations *)

Module TextFacts.
Import Text.

Lemma sapp_cons c s t : String c s ++ t = String c (s ++ t).
Proof. reflexivity. Qed.

Lemma sapp_nil_l s : EmptyString ++ s = s.
Proof. reflexivity. Qed.

Lemma sapp_nil_r s : s ++ EmptyString = s.
Proof. induction s as [|c s IH]; [reflexivity|]. now rewrite sapp_cons, IH. Qed.

Lemma sapp_assoc s t u : (s ++ t) ++ u = s ++ t ++ u.
Proof. induction s as [|c s IH]; [reflexivity|]. now rewrite !sapp_cons, IH. Qed.

Lemma int_acc_app a s t : int_acc a (s ++ t) = int_acc (int_acc a s) t.
Proof.
  revert a. induction s as [|c s IH]; intros a; [reflexivity|].
  rewrite sapp_cons. simpl. apply IH.
Qed.

Lemma digits_acc_app fuel : forall n acc,
  digits_acc fuel n acc = digits_acc fuel n EmptyString ++ acc.
Proof.
  induction fuel as [|fuel IH]; intros n acc; [reflexivity|].
  simpl. destruct (n <? 10); [reflexivity|].
  rewrite IH, (IH _ (String _ EmptyString)), sapp_assoc. reflexivity.
Qed.

Lemma code_digit_char d : 0 <= d < 10 -> code (digit_char d) = 48 + d.
Proof.
  intros H.
  assert (d = 0 \/ d = 1 \/ d = 2 \/ d = 3 \/ d = 4 \/ d = 5 \/ d = 6
          \/ d = 7 \/ d = 8 \/ d = 9) as Hd by lia.
  repeat (destruct Hd as [-> | Hd]; [reflexivity|]). now subst.
Qed.

Lemma isdigit_digit_char d : 0 <= d < 10 -> isdigit (digit_char d) = true.
Proof.
  intros H. unfold isdigit. rewrite code_digit_char by assumption.
  apply andb_true_intro; split; apply Z.leb_le; lia.
Qed.

Lemma all_chars_app p s t :
  all_chars p s = true -> all_chars p t = true -> all_chars p (s ++ t) = true.
Proof.
  induction s as [|c s IH]; intros Hs Ht; [exact Ht|].
  rewrite sapp_cons. simpl in *. apply andb_prop in Hs as [-> Hs]. now apply IH.
Qed.

Lemma is_empty_app s t : is_empty (s ++ t) = is_empty s && is_empty t.
Proof. destruct s; reflexivity. Qed.

Lemma digits_acc_spec f : forall n,
  0 <= n < 10 ^ Z.of_nat (S f) ->
  let s := digits_acc (S f) n EmptyString in
  int_acc 0 s = n /\ all_chars isdigit s = true /\ is_empty s = false.
Proof.
  induction f as [|f IH]; intros n Hn s; subst s.
  - change (10 ^ Z.of_nat 1) with 10 in Hn.
    simpl. destruct (Z.ltb_spec n 10) as [_|?]; [|lia].
    rewrite Z.mod_small by lia. simpl.
    rewrite code_digit_char, isdigit_digit_char by lia. repeat split. lia.
  - remember (S f) as f'. simpl.
    assert (Hd : 0 <= n mod 10 < 10) by (apply Z.mod_pos_bound; lia).
    destruct (Z.ltb_spec n 10) as [Hlt|Hge].
    + rewrite Z.mod_small by lia. simpl.
      rewrite code_digit_char, isdigit_digit_char by lia. repeat split. lia.
    + rewrite digits_acc_app.
      assert (Hq : 0 <= n / 10 < 10 ^ Z.of_nat f').
      { split; [apply Z.div_pos; lia|].
        apply Z.div_lt_upper_bound; [lia|].
        rewrite Nat2Z.inj_succ, Z.pow_succ_r in Hn by lia. lia. }
      subst f'. destruct (IH _ Hq) as (Hi & Ha & He).
      repeat split.
      * rewrite int_acc_app, Hi. simpl. rewrite code_digit_char by lia.
        pose proof (Z.div_mod n 10). lia.
      * apply all_chars_app; [exact Ha|]. simpl.
        now rewrite isdigit_digit_char.
      * rewrite is_empty_app, He. reflexivity.
Qed.

Lemma digits_spec n : 0 <= n ->
  int_of_digits (digits n) = n /\ all_chars isdigit (digits n) = true
  /\ is_empty (digits n) = false.
Proof.
  intros Hn. unfold digits, int_of_digits. apply digits_acc_spec.
  split; [exact Hn|].
  rewrite Nat2Z.inj_succ, Z2Nat.id by apply Z.log2_nonneg.
  destruct (Z.eq_dec n 0) as [->|Hne]; [reflexivity|].
  apply Z.lt_le_trans with (2 ^ Z.succ (Z.log2 n)).
  - apply Z.log2_spec. lia.
  - apply Z.pow_le_mono_l. pose proof (Z.log2_nonneg n). lia.
Qed.

Lemma str_of_int_nonneg n : 0 <= n -> str_of_int n = digits n.
Proof.
  intros Hn. unfold str_of_int. now destruct (Z.ltb_spec n 0); [lia|].
Qed.

Lemma span_app p s t :
  all_chars p s = true ->
  match t with EmptyString => True | String c _ => p c = false end ->
  span p (s ++ t) = (s, t).
Proof.
  intros Hs Ht. induction s as [|c s IH].
  - rewrite sapp_nil_l. destruct t as [|c t]; [reflexivity|]. simpl. now rewrite Ht.
  - simpl in Hs. apply andb_prop in Hs as [Hc Hs].
    rewrite sapp_cons. simpl. now rewrite Hc, IH.
Qed.

Lemma strip_prefix_app key s : strip_prefix key (key ++ s) = Some s.
Proof.
  induction key as [|c key IH]; [now destruct s|].
  rewrite sapp_cons. simpl. now rewrite Ascii.eqb_refl.
Qed.

End TextFacts.

(** ** Facts about the Layout Rewriter *)

Module LayoutFacts.
Import Text TextFacts Layout.

Lemma all_chars_impl (p q : ascii -> bool) s :
  (forall c, p c = true -> q c = true) ->
  all_chars p s = true -> all_chars q s = true.
Proof.
  intros Hpq. induction s as [|c s IH]; [reflexivity|].
  simpl. intros [Hc Hs]%andb_prop. now rewrite (Hpq _ Hc), IH.
Qed.

(** No match starts inside a stretch of text without the first letter of
    the key. *)
Lemma search_none_skip k0 key' u rest :
  all_chars (fun c => negb (Ascii.eqb k0 c)) u = true ->
  search (String k0 key') rest = None ->
  search (String k0 key') (u ++ rest) = None.
Proof.
  intros Hu Hrest. induction u as [|c u IH]; [exact Hrest|].
  simpl in Hu. apply andb_prop in Hu as [Hc Hu].
  rewrite sapp_cons. simpl. rewrite (IH Hu).
  unfold match_here. simpl.
  now destruct (Ascii.eqb k0 c).
Qed.

Lemma contains_false_search key s :
  contains key s = false -> search key s = None.
Proof.
  induction s as [|c s IH]; simpl; unfold match_here.
  - now destruct (strip_prefix key EmptyString).
  - destruct (strip_prefix key (String c s)); [discriminate|].
    intros H. now rewrite (IH H).
Qed.

(** A match that no later match overrides is found behind any prefix. *)
Lemma search_app_match key pre c s g1 g2 g3 :
  match_here key (String c s) = Some (g1, g2, g3) ->
  search key s = None ->
  search key (pre ++ String c s) = Some (pre ++ g1, g2, g3).
Proof.
  intros Hm Hs. induction pre as [|a pre IH].
  - rewrite !sapp_nil_l. simpl. now rewrite Hs.
  - rewrite !sapp_cons. simpl. now rewrite IH.
Qed.

Section Field.
Variables (k0 : ascii) (key' : string).
Let key := String k0 key'.
Hypothesis key'_free : all_chars (fun c => negb (Ascii.eqb k0 c)) key' = true.
Hypothesis k0_not_space : isspace k0 = false.
Hypothesis k0_not_digit : isdigit k0 = false.
Hypothesis k0_not_comma : Ascii.eqb k0 "," = false.

Lemma differs_from_k0 (p : ascii -> bool) s :
  p k0 = false -> all_chars p s = true ->
  all_chars (fun c => negb (Ascii.eqb k0 c)) s = true.
Proof.
  intros Hk. apply all_chars_impl. intros c Hc.
  destruct (Ascii.eqb_spec k0 c) as [<-|]; [congruence|reflexivity].
Qed.

(** The number field [key pad v ,] of a line whose remainder holds no
    further [key] is the one the substitution edits. *)
Lemma sub_field pre pad v rest n :
  all_chars isspace pad = true -> 0 <= v ->
  contains key rest = false ->
  sub_add_size key n (pre ++ key ++ pad ++ str_of_int v ++ "," ++ rest)
  = pre ++ key ++ pad ++ str_of_int (v + n) ++ "," ++ rest.
Proof.
  intros Hpad Hv Hrest.
  rewrite (str_of_int_nonneg v Hv).
  destruct (digits_spec v Hv) as (Hint & Hdig & Hne).
  remember (digits v) as D eqn:HD. clear HD.
  destruct D as [|d D']; [discriminate|].
  assert (Hd : isdigit d = true).
  { simpl in Hdig. now apply andb_prop in Hdig. }
  assert (Hds : isspace d = false).
  { revert Hd. clear. destruct d as [[] [] [] [] [] [] [] []]; vm_compute; congruence. }
  assert (Hm : match_here key (key ++ pad ++ String d D' ++ "," ++ rest)
               = Some (key ++ pad, String d D', "," ++ rest)).
  { unfold match_here. rewrite strip_prefix_app.
    rewrite (span_app isspace pad) by (try assumption; exact Hds).
    rewrite (span_app isdigit (String d D')) by (try assumption; reflexivity).
    reflexivity. }
  assert (Hlater : search key (key' ++ pad ++ String d D' ++ "," ++ rest) = None).
  { rewrite <- !sapp_assoc. apply search_none_skip.
    - rewrite !sapp_assoc.
      repeat apply all_chars_app.
      + exact key'_free.
      + now apply (differs_from_k0 isspace).
      + now apply (differs_from_k0 isdigit).
      + simpl. now rewrite k0_not_comma.
    - now apply contains_false_search. }
  unfold sub_add_size.
  change (key ++ pad ++ String d D' ++ "," ++ rest)
    with (String k0 (key' ++ pad ++ String d D' ++ "," ++ rest)) in Hm |- *.
  rewrite (search_app_match key pre _ _ _ _ _ Hm Hlater).
  unfold add_size. rewrite Hint.
  rewrite !sapp_assoc. reflexivity.
Qed.
End Field.

Lemma sub_size_render n e :
  valid_entry e = true ->
  sub_add_size "size=" n (render e) = render (grow n e).
Proof.
  unfold valid_entry. rewrite !andb_true_iff, !negb_true_iff, !Z.leb_le.
  intros ((((((((_ & _) & _) & _) & Hpad) & Hsz) & _) & _) & Htail).
  unfold render, after_start. cbn [head start_pad start mid size_pad size tail grow].
  pose (pre := head e ++ "start=" ++ start_pad e ++ str_of_int (start e) ++ "," ++ mid e).
  assert (Hre : forall x, head e ++ "start=" ++ start_pad e ++ str_of_int (start e)
                            ++ "," ++ mid e ++ x = pre ++ x).
  { intros x. unfold pre. now rewrite !sapp_assoc. }
  rewrite !Hre.
  apply (sub_field "s" "ize="); try reflexivity; try assumption.
  revert Hpad. apply all_chars_impl. now intros c [? _]%andb_prop.
Qed.

Lemma sub_start_render n e :
  valid_entry e = true ->
  sub_add_size "start=" n (render e) = render (shift n e).
Proof.
  unfold valid_entry. rewrite !andb_true_iff, !negb_true_iff, !Z.leb_le.
  intros ((((((((_ & Hpad) & Hst) & _) & _) & _) & _) & Hafter) & _).
  unfold render.
  change (after_start (shift n e)) with (after_start e).
  cbn [head start_pad start shift].
  apply (sub_field "s" "tart="); try reflexivity; try assumption.
  revert Hpad. apply all_chars_impl. now intros c [? _]%andb_prop.
Qed.

(** *** [strip], [split] and [join] on a dump *)

Lemma rstrip_app_nl s : rstrip_by isspace (s ++ NL) = rstrip_by isspace s.
Proof.
  induction s as [|c s IH]; [reflexivity|].
  rewrite sapp_cons. simpl. now rewrite IH.
Qed.

Lemma rstrip_clean s : ends_clean s = true -> rstrip_by isspace s = s.
Proof.
  induction s as [|c s IH]; [reflexivity|].
  simpl. destruct s as [|c' s'].
  - simpl. intros ->%negb_true_iff. reflexivity.
  - intros H. rewrite (IH H). reflexivity.
Qed.

Lemma strip_dump s :
  starts_clean s = true -> ends_clean s = true -> strip (s ++ NL) = s.
Proof.
  intros Hs He. unfold strip. destruct s as [|c s]; [reflexivity|].
  simpl in Hs. apply negb_true_iff in Hs.
  rewrite sapp_cons. cbn [lstrip_by]. rewrite Hs, <- sapp_cons.
  rewrite rstrip_app_nl. now apply rstrip_clean.
Qed.

Lemma split_app_nl l r :
  no_nl l = true -> split nl (l ++ String nl r) = l :: split nl r.
Proof.
  induction l as [|c l IH]; intros Hl.
  - reflexivity.
  - simpl in Hl. apply andb_prop in Hl as [Hc Hl]. apply negb_true_iff in Hc.
    rewrite sapp_cons. simpl. now rewrite Hc, (IH Hl).
Qed.

Lemma split_one l : no_nl l = true -> split nl l = [l].
Proof.
  induction l as [|c l IH]; intros Hl; [reflexivity|].
  simpl in Hl. apply andb_prop in Hl as [Hc Hl]. apply negb_true_iff in Hc.
  simpl. now rewrite Hc, (IH Hl).
Qed.

Lemma split_join ls :
  ls <> [] -> forallb no_nl ls = true -> split nl (join NL ls) = ls.
Proof.
  induction ls as [|l ls IH]; [congruence|]. intros _ Hall.
  simpl in Hall. apply andb_prop in Hall as [Hl Hls].
  destruct ls as [|l2 ls].
  - simpl. now apply split_one.
  - change (join NL (l :: l2 :: ls)) with (l ++ String nl (join NL (l2 :: ls))).
    rewrite (split_app_nl _ _ Hl), IH; [reflexivity|congruence|exact Hls].
Qed.

(** The loop over [range(first, len(lines))] edits every line from
    [first] on and no other. *)
Lemma shift_from_spec n : forall (k : nat) (first : nat) (ls : list string),
  length ls = (first + k)%nat ->
  fold_left
    (fun ls i =>
       match ls !! i with
       | Some l => <[i := sub_add_size "start=" n l]> ls
       | None => ls
       end)
    (seq first k) ls
  = (take first ls ++ map (sub_add_size "start=" n) (drop first ls))%list.
Proof.
  induction k as [|k IH]; intros first ls Hlen.
  - simpl. rewrite drop_ge, take_ge by lia. now rewrite List.app_nil_r.
  - simpl. destruct (ls !! first) as [l|] eqn:Hl.
    2:{ apply lookup_ge_None in Hl. lia. }
    rewrite IH by (rewrite length_insert; lia).
    rewrite (drop_S ls l first Hl). simpl.
    rewrite drop_insert_lt by lia.
    rewrite (take_S_r (<[first:=_]> ls) first (sub_add_size "start=" n l)).
    2:{ apply list_lookup_insert_eq. apply lookup_lt_Some in Hl. lia. }
    rewrite take_insert_ge by lia.
    now rewrite <- List.app_assoc.
Qed.

Lemma shift_from_app n pre ls :
  shift_from n (length pre) (pre ++ ls)%list
  = (pre ++ map (sub_add_size "start=" n) ls)%list.
Proof.
  unfold shift_from. rewrite shift_from_spec.
  - now rewrite take_app_length, drop_app_length.
  - rewrite length_app. lia.
Qed.

Lemma rewrite_from_later growIndex n es : forall idx,
  (growIndex < idx)%nat -> rewrite_from idx growIndex n es = map (shift n) es.
Proof.
  induction es as [|e es IH]; intros idx Hlt; [reflexivity|].
  simpl. rewrite IH by lia.
  destruct (Nat.eqb_spec idx growIndex); [lia|].
  now destruct (Nat.ltb_spec growIndex idx); [|lia].
Qed.

Lemma forallb_map_ext {A B} (p : A -> bool) (f g : A -> B) l :
  forallb p l = true -> (forall a, p a = true -> f a = g a) -> map f l = map g l.
Proof.
  intros Hall Hfg. induction l as [|a l IH]; [reflexivity|].
  simpl in Hall. apply andb_prop in Hall as [Ha Hl].
  simpl. now rewrite (Hfg a Ha), IH.
Qed.

Lemma forallb_app_true {A} (p : A -> bool) l k :
  forallb p l = true -> forallb p k = true -> forallb p (l ++ k)%list = true.
Proof.
  intros Hl Hk. induction l as [|a l IH]; [exact Hk|].
  simpl in *. apply andb_prop in Hl as [-> Hl]. now apply IH.
Qed.

Lemma no_nl_app s t : no_nl s = true -> no_nl t = true -> no_nl (s ++ t) = true.
Proof. apply all_chars_app. Qed.

Lemma is_pad_no_nl s : is_pad s = true -> no_nl s = true.
Proof. apply all_chars_impl. now intros c [_ ?]%andb_prop. Qed.

Lemma no_nl_digits n : 0 <= n -> no_nl (str_of_int n) = true.
Proof.
  intros Hn. rewrite str_of_int_nonneg by assumption.
  destruct (digits_spec n Hn) as (_ & Hd & _). revert Hd.
  apply all_chars_impl. intros c. clear.
  destruct c as [[] [] [] [] [] [] [] []]; vm_compute; congruence.
Qed.

Lemma no_nl_render e : valid_entry e = true -> no_nl (render e) = true.
Proof.
  unfold valid_entry. rewrite !andb_true_iff, !Z.leb_le.
  intros ((((((((Hh & Hsp) & Hst) & Hm) & Hzp) & Hsz) & Ht) & _) & _).
  unfold render, after_start.
  repeat (apply no_nl_app; [first [assumption | reflexivity
    | now apply is_pad_no_nl | now apply no_nl_digits]|]).
  assumption.
Qed.

Lemma no_nl_lines d :
  forallb no_nl (header d) = true -> forallb valid_entry (entries d) = true ->
  forallb no_nl (header d ++ map render (entries d))%list = true.
Proof.
  intros Hh He. apply forallb_app_true; [exact Hh|].
  induction (entries d) as [|e es IH]; [reflexivity|].
  simpl in He. apply andb_prop in He as [He Hes].
  simpl. now rewrite (no_nl_render e He), IH.
Qed.

End LayoutFacts.

(** ** The Layout Rewriter against the table it is given *)

Module LayoutTheorems.
Import Text TextFacts Layout LayoutFacts LayoutExamples.




Lemma edit_lines_later n ls : forall i,
  (7 <= i)%nat -> edit_lines n i ls = map (sub_add_size "start=" n) ls.
Proof.
  induction ls as [|l ls IH]; intros i Hi; [reflexivity|].
  simpl. rewrite IH by lia. f_equal.
  unfold edit_line, expected_key.
  destruct (Nat.ltb_spec i 6); [lia|].
  now destruct (Nat.eqb_spec i 6); [lia|].
Qed.

(** C6 (as amended): the rewriter has one failure, the [IndexError] of a
    layout of fewer than seven lines; otherwise it returns every line, edited
    by [sub], and [sub] returns a line without a match as it is: such a line
    is in the output unchanged. *)
Theorem rewrite_layout_never_rejects (stdout : string) (n : Z) :
  let lines := split nl (strip stdout) in
  rewrite_layout stdout n
  = (if Nat.ltb (length lines) 7 then Raise IndexError
     else Ok (join NL (edit_lines n 0 lines)))
  /\ (forall i key l, expected_key i = Some key -> search key l = None ->
                     edit_line n i l = l).
Proof.
  intros lines. split.
  - unfold rewrite_layout. fold lines.
    destruct lines as [|l0 [|l1 [|l2 [|l3 [|l4 [|l5 [|l6 rest]]]]]]];
      try reflexivity.
    cbn [lookup list_lookup insert list_insert].
    change (l0 :: l1 :: l2 :: l3 :: l4 :: l5 :: sub_add_size "size=" n l6 :: rest)
      with ([l0; l1; l2; l3; l4; l5; sub_add_size "size=" n l6] ++ rest)%list.
    change 7%nat with (length [l0; l1; l2; l3; l4; l5; sub_add_size "size=" n l6]) at 1.
    rewrite shift_from_app.
    cbn [edit_lines]. rewrite edit_lines_later by lia. reflexivity.
  - intros i key l Hkey Hnone. unfold edit_line, sub_add_size.
    now rewrite Hkey, Hnone.
Qed.

Lemma rewrite_layout_never_rejects_witness :
  rewrite_layout malformed_stdout 4096 = Ok (strip malformed_stdout)
  /\ edit_line 4096 6 malformed_line2 = malformed_line2.
Proof.
  destruct (rewrite_layout_never_rejects malformed_stdout 4096) as [Hrun Hskip].
  split.
  - rewrite Hrun. vm_compute. reflexivity.
  - apply (Hskip 6%nat "size="); reflexivity.
Defined.

(** C6 (as stated) fails: the second partition line has no [size=] field and the
    third no [start=] field, yet the rewrite succeeds and returns the text
    with both lines as they were. *)
Lemma rewrite_layout_skips_malformed_lines :
  search "size=" malformed_line2 = None /\
  search "start=" malformed_line3 = None /\
  split nl (strip malformed_stdout) !! 6%nat = Some malformed_line2 /\
  split nl (strip malformed_stdout) !! 7%nat = Some malformed_line3 /\
  rewrite_layout malformed_stdout 4096 = Ok (strip malformed_stdout).
Proof. repeat split; vm_compute; reflexivity. Qed.

End LayoutTheorems.

(** ** [round_to_sector_size] against [roundUpToSector] *)

Module SectorTheorems.
Import Sector.

Lemma roundUpToSector_least (x : Z) :
  roundUpToSector x mod SECTOR_SIZE = 0
  /\ x <= roundUpToSector x
  /\ forall m, m mod SECTOR_SIZE = 0 -> x <= m -> roundUpToSector x <= m.
Proof.
  unfold roundUpToSector, SECTOR_SIZE. repeat split.
  - apply Z.mod_mul. lia.
  - pose proof (Z.div_mod (x + 512 - 1) 512 ltac:(lia)).
    pose proof (Z.mod_pos_bound (x + 512 - 1) 512 ltac:(lia)). lia.
  - intros m Hm Hle.
    pose proof (Z.div_mod m 512 ltac:(lia)) as Hdm. rewrite Hm in Hdm.
    assert ((x + 512 - 1) / 512 < m / 512 + 1); [|lia].
    apply Z.div_lt_upper_bound; lia.
Qed.

Lemma roundUpToSector_cases (x : Z) :
  roundUpToSector x = if x mod 512 =? 0 then x else (x / 512 + 1) * 512.
Proof.
  unfold roundUpToSector, SECTOR_SIZE.
  pose proof (Z.div_mod x 512 ltac:(lia)). pose proof (Z.mod_pos_bound x 512 ltac:(lia)).
  destruct (Z.eqb_spec (x mod 512) 0) as [Hz|Hz].
  - replace (x + 512 - 1) with (x / 512 * 512 + 511) by lia.
    rewrite Z.div_add_l by lia. change (511 / 512) with 0. lia.
  - replace (x + 512 - 1) with ((x / 512 + 1) * 512 + (x mod 512 - 1)) by lia.
    rewrite Z.div_add_l by lia. rewrite (Z.div_small (x mod 512 - 1)) by lia. lia.
Qed.

(** Below [2^53] the division is exact and the code returns the smallest
    multiple of 512 that is at least [x]: an [int] when it had to round up, a
    [float] when [x] was a multiple already. *)
Lemma round_to_sector_size_value (x : Z) :
  0 <= x < 2 ^ 53 ->
  round_to_sector_size (PyInt x)
  = Ok (if x mod 512 =? 0 then PyFloat (Finite x 0) else PyInt ((x / 512 + 1) * 512)).
Proof.
  intros Hx.
  assert (Hbig : 2 ^ 53 <= 2 ^ 1024) by (vm_compute; discriminate).
  assert (Hbig' : 2 ^ 53 <= 2 ^ 1024 * 512) by (vm_compute; discriminate).
  unfold round_to_sector_size, truediv_sector, int_truediv_pow2, nearest_quotient.
  destruct (Z.leb_spec 0 x) as [_|?]; [|lia].
  destruct (Z.ltb_spec x (2 ^ 53)) as [_|?]; [|lia].
  change (Z.opp 9) with (-9).
  assert (Hsmall : too_large x (-9) = false).
  { unfold too_large. change (0 <=? -9) with false. cbv iota.
    change (2 ^ (- -9)) with 512.
    apply Z.leb_gt. rewrite Z.abs_eq by lia. lia. }
  rewrite Hsmall. unfold is_integer, floor, float_mul_pow2.
  change (0 <=? -9) with false. cbv iota.
  change (2 ^ (- -9)) with 512. change (-9 + 9) with 0.
  assert (Hfits : too_large x 0 = false).
  { unfold too_large. change (0 <=? 0) with true. cbv iota.
    apply Z.leb_gt. rewrite Z.abs_eq by lia. change (2 ^ 0) with 1. lia. }
  rewrite Hfits.
  now destruct (x mod 512 =? 0).
Qed.

Lemma round_to_sector_size_exact (x : Z) :
  0 <= x < 2 ^ 53 ->
  exists v, round_to_sector_size (PyInt x) = Ok v
            /\ int_value v = Some (roundUpToSector x).
Proof.
  intros Hx. rewrite (round_to_sector_size_value x Hx), roundUpToSector_cases.
  eexists. split; [reflexivity|].
  destruct (x mod 512 =? 0); [|reflexivity].
  cbn [int_value]. change (0 <=? 0) with true. cbv iota.
  f_equal. change (2 ^ 0) with 1. lia.
Qed.

(** Below [2^53] a second application returns a number equal to the first
    result: a [float] this time, whatever the first result was. *)
Lemma round_to_sector_size_idempotent (x : Z) :
  0 <= x -> roundUpToSector x < 2 ^ 53 ->
  exists v v', round_to_sector_size (PyInt x) = Ok v
               /\ round_to_sector_size v = Ok v'
               /\ num_eqb v' v = true.
Proof.
  intros Hx Hr.
  assert (Hx' : 0 <= x < 2 ^ 53).
  { destruct (roundUpToSector_least x) as (_ & Hle & _). lia. }
  rewrite (round_to_sector_size_value x Hx').
  rewrite roundUpToSector_cases in Hr.
  assert (Hbig : 2 ^ 53 <= 2 ^ 1024) by (vm_compute; discriminate).
  destruct (Z.eqb_spec (x mod 512) 0) as [Hz|Hz].
  - exists (PyFloat (Finite x 0)), (PyFloat (Finite x 0)). split; [reflexivity|].
    split.
    + unfold round_to_sector_size, truediv_sector, float_div_pow2, is_integer.
      change (0 - 9) with (-9). change (0 <=? -9) with false. cbv iota.
      change (2 ^ (- -9)) with 512. rewrite Hz. cbn [Z.eqb negb].
      unfold float_mul_pow2. change (-9 + 9) with 0.
      assert (Hfits : too_large x 0 = false).
      { unfold too_large. change (0 <=? 0) with true. cbv iota.
        apply Z.leb_gt. rewrite Z.abs_eq by lia. change (2 ^ 0) with 1. lia. }
      now rewrite Hfits.
    + unfold num_eqb, int_value. change (0 <=? 0) with true. cbv iota.
      apply Z.eqb_refl.
  - set (n := (x / 512 + 1) * 512) in *.
    assert (Hn : 0 <= n < 2 ^ 53).
    { split; [|exact Hr]. unfold n.
      pose proof (Z.div_pos x 512 ltac:(lia) ltac:(lia)). lia. }
    assert (Hnz : n mod 512 = 0) by (unfold n; apply Z.mod_mul; lia).
    exists (PyInt n), (PyFloat (Finite n 0)). split; [reflexivity|]. split.
    + rewrite (round_to_sector_size_value n Hn), Hnz. reflexivity.
    + unfold num_eqb, int_value. change (0 <=? 0) with true. cbv iota.
      change (2 ^ 0) with 1. rewrite Z.mul_1_r. apply Z.eqb_refl.
Qed.


End SectorTheorems.

(** ** Running a computation step by step *)

Module RunFacts.
Import Text Run Preload.

Lemma run_bind {A B} (m : M A) (k : A -> M B) w st :
  bind m k w st
  = match m w st with
    | (st', Return a) => k a w st'
    | (st', Raised e) => (st', Raised e)
    | (st', Spinning) => (st', Spinning)
    end.
Proof. reflexivity. Qed.

Lemma run_log lvl fmt fmt_args w st :
  log lvl fmt fmt_args w st = (record (Log lvl fmt fmt_args) st, Return tt).
Proof. reflexivity. Qed.

Lemma run_sh_ok ok cmd w st :
  sh_ok ok cmd w st
  = (record (Exec cmd (fst (exec_reply w (length (trace st)) cmd))) st,
     if existsb (Z.eqb (fst (exec_reply w (length (trace st)) cmd))) ok
     then Return (exec_reply w (length (trace st)) cmd)
     else Raised (ErrorReturnCode (prog cmd) (fst (exec_reply w (length (trace st)) cmd)))).
Proof.
  unfold sh_ok. destruct (exec_reply w (length (trace st)) cmd) as [code out].
  cbn [fst]. now destruct (existsb (Z.eqb code) ok).
Qed.

Lemma record_length ev st : length (trace (record ev st)) = S (length (trace st)).
Proof. unfold record. cbn [trace]. rewrite length_app. cbn [length]. lia. Qed.

Lemma record_trace ev st : trace (record ev st) = (trace st ++ [ev])%list.
Proof. reflexivity. Qed.

Lemma record_store ev st : store (record ev st) = store st.
Proof. reflexivity. Qed.

Lemma state_eta st : State (trace st) (store st) = st.
Proof. now destruct st. Qed.

Lemma run_ret {A} (a : A) w st : ret a w st = (st, Return a).
Proof. reflexivity. Qed.

Lemma run_emit ev w st : emit ev w st = (record ev st, Return tt).
Proof. reflexivity. Qed.

Lemma run_ask {A} (reply : world -> nat -> A) ev w st :
  ask reply ev w st
  = (record (ev (reply w (length (trace st)))) st, Return (reply w (length (trace st)))).
Proof. reflexivity. Qed.

Lemma run_lift_Ok {A} (a : A) w st : lift (Ok a) w st = (st, Return a).
Proof. reflexivity. Qed.

End RunFacts.

(** ** The metadata file and the dict it is made from *)

Module AppsJson.
Import Text Run Preload.

(** C9: for an app-data dict whose [imageRepo] is a string, [write_apps_json]
    returns after one write: [json.dump] is given a list of one dict, in which
    [imageId] is [registry2.resin.io/] followed by the repository path,
    whichever [imageId] (and so whichever registry host) the input carried. *)
Theorem write_apps_json_image_id (w : world) (st : state) (data : nat)
    (output : string) (d : gmap string pyval) (repo : string) :
  store st !! data = Some d ->
  d !! "imageRepo" = Some (VStr repo) ->
  exists (st' : state) (d' : gmap string pyval),
    write_apps_json data output w st = (st', Return tt)
    /\ trace st' = (trace st ++ [JsonDump output (VList [VDict d'])])%list
    /\ d' !! "imageId" = Some (VStr ("registry2.resin.io/" ++ repo))
    /\ d' !! "imageRepo" = None
    /\ (forall k, k <> "imageId" -> k <> "imageRepo" -> d' !! k = d !! k).
Proof.
  intros Hd Hrepo.
  set (l := fresh (dom (store st))).
  assert (Hl : store st !! l = None).
  { apply not_elem_of_dom. apply is_fresh. }
  exists (State (trace st ++ [JsonDump output (VList [VDict
            (delete "imageRepo" (<["imageId" := VStr ("registry2.resin.io/" ++ repo)]> d))])])
            (<[l := delete "imageRepo" (<["imageId" := VStr ("registry2.resin.io/" ++ repo)]> d)]>
               (<[l := <["imageId" := VStr ("registry2.resin.io/" ++ repo)]> d]>
                  (<[l := d]> (store st))))).
  exists (delete "imageRepo" (<["imageId" := VStr ("registry2.resin.io/" ++ repo)]> d)).
  split; [|split; [reflexivity|split; [|split]]].
  - unfold write_apps_json, bind, dict_copy, getitem, str_add, setitem, delitem,
      json_dump_list_of, emit, record, ret. cbn [store trace]. fold l.
    rewrite Hd. cbn [store trace].
    repeat first
      [ rewrite lookup_insert_eq
      | rewrite Hrepo
      | rewrite (lookup_insert_ne d "imageId" "imageRepo") by done
      | progress cbn [store trace] ].
    reflexivity.
  - rewrite lookup_delete_ne by done. apply lookup_insert_eq.
  - apply lookup_delete_eq.
  - intros k H1 H2. rewrite lookup_delete_ne by congruence.
    apply lookup_insert_ne. congruence.
Qed.

Lemma insert_fresh_lookup (m : gmap nat (gmap string pyval)) l i x d :
  m !! l = None -> m !! i = Some x -> <[l := d]> m !! i = Some x.
Proof.
  intros Hl Hi. rewrite lookup_insert_ne; [exact Hi|]. congruence.
Qed.

(** The store after [write_apps_json] extends the store before it: the only
    object written is the copy. *)
Lemma write_apps_json_store (w : world) (st : state) (data : nat) (output : string) :
  store st ⊆ store (fst (write_apps_json data output w st)).
Proof.
  apply map_subseteq_spec. intros i x Hi.
  pose proof (is_fresh (dom (store st))) as Hfresh.
  apply not_elem_of_dom in Hfresh.
  set (l := fresh (dom (store st))) in *.
  assert (Hne : l <> i) by congruence.
  unfold write_apps_json, bind, dict_copy, getitem, str_add, setitem, delitem,
    json_dump_list_of, emit, record, ret, raise. cbn [store trace]. fold l.
  destruct (store st !! data) as [d|]; [|exact Hi]. cbn [store trace].
  rewrite lookup_insert_eq.
  destruct (d !! "imageRepo") as [v|]; cbn [fst store trace].
  2:{ now rewrite lookup_insert_ne. }
  destruct v; cbn [fst store trace]; try (now rewrite lookup_insert_ne).
  rewrite !lookup_insert_eq. cbn [fst store trace].
  rewrite !lookup_insert_eq.
  destruct (<["imageId":=_]> d !! "imageRepo"); cbn [fst store trace].
  - rewrite !lookup_insert_eq. cbn [fst store trace].
    now rewrite !lookup_insert_ne.
  - now rewrite !lookup_insert_ne.
Qed.

(** C10: [write_apps_json] changes no dict object that existed before the
    call, on any path, and the [docker pull] that follows it in
    [resize_fs_copy_splash_image_and_pull] is given the [imageId] the caller's
    dict had before the call. *)
Theorem write_apps_json_frame (w : world) (st : state) (data : nat)
    (output sock : string) (d : gmap string pyval) (id : pyval) :
  store st !! data = Some d ->
  d !! "imageId" = Some id ->
  store (fst (write_apps_json data output w st)) !! data = Some d
  /\ (forall l x, store st !! l = Some x ->
          store (fst (write_apps_json data output w st)) !! l = Some x)
  /\ (write_apps_json data output ;;;
       image_id <- getitem data "imageId" ;; docker_pull sock image_id) w st
     = (write_apps_json data output ;;; docker_pull sock id) w st.
Proof.
  intros Hd Hid.
  pose proof (write_apps_json_store w st data output) as Hsub.
  rewrite map_subseteq_spec in Hsub.
  split; [now apply Hsub|]. split; [exact Hsub|].
  unfold bind at 1 3.
  destruct (write_apps_json data output w st) as [st' o] eqn:Hrun.
  destruct o; try reflexivity.
  unfold bind, getitem. cbn [fst] in Hsub.
  now rewrite (Hsub _ _ Hd), Hid.
Qed.

Lemma write_apps_json_image_id_witness :
  exists (st' : state) (d' : gmap string pyval),
    write_apps_json 0 "/tmp/tmp23/apps.json" (Demo.world_of 0 0 EmptyString) Demo.start
      = (st', Return tt)
    /\ trace st'
       = (trace Demo.start ++ [JsonDump "/tmp/tmp23/apps.json" (VList [VDict d'])])%list
    /\ d' !! "imageId" = Some (VStr ("registry2.resin.io/" ++ "sensor/abc123"))
    /\ d' !! "imageRepo" = None
    /\ (forall k, k <> "imageId" -> k <> "imageRepo" -> d' !! k = Demo.app_data !! k).
Proof.
  apply (write_apps_json_image_id (Demo.world_of 0 0 EmptyString) Demo.start 0
           "/tmp/tmp23/apps.json" Demo.app_data "sensor/abc123"); reflexivity.
Defined.

Lemma write_apps_json_frame_witness :
  store (fst (write_apps_json 0 "/tmp/tmp23/apps.json"
                (Demo.world_of 0 0 EmptyString) Demo.start)) !! 0%nat
  = Some Demo.app_data
  /\ (write_apps_json 0 "/tmp/tmp23/apps.json" ;;;
       image_id <- getitem 0 "imageId" ;; docker_pull "/tmp/tmp21/docker.sock" image_id)
        (Demo.world_of 0 0 EmptyString) Demo.start
     = (write_apps_json 0 "/tmp/tmp23/apps.json" ;;;
        docker_pull "/tmp/tmp21/docker.sock" (VStr "registry.example.com/sensor/abc123"))
         (Demo.world_of 0 0 EmptyString) Demo.start.
Proof.
  destruct (write_apps_json_frame (Demo.world_of 0 0 EmptyString) Demo.start 0
              "/tmp/tmp23/apps.json" "/tmp/tmp21/docker.sock" Demo.app_data
              (VStr "registry.example.com/sensor/abc123") eq_refl eq_refl)
    as (Hsame & _ & Hpull).
  split; [exact Hsame | exact Hpull].
Defined.

End AppsJson.

(** ** The readiness loop of [start_docker_daemon] *)

Module ReadinessTheorems.
Import Text Run Preload Readiness RunFacts.

Lemma poll_code_S w st socket ev i :
  poll_code w (record ev st) socket i = poll_code w st socket (S i).
Proof.
  unfold poll_code, record. cbn [trace]. rewrite length_app. cbn [length].
  do 2 f_equal. lia.
Qed.

Lemma polls_S w st socket ev n :
  polls w st socket (S n)
  = Exec (docker_version socket) (poll_code w st socket 0)
      :: polls w (record ev st) socket n.
Proof.
  unfold polls. cbn [seq map]. f_equal.
  rewrite <- seq_shift, map_map. apply map_ext. intros i.
  now rewrite poll_code_S.
Qed.

Lemma wait_until_ok_step fuel socket w st :
  wait_until_ok (S fuel) socket w st
  = let c := poll_code w st socket 0 in
    let st' := record (Exec (docker_version socket) c) st in
    if c =? 0 then (st', Return tt)
    else if c =? 1 then wait_until_ok fuel socket w st'
    else (st', Raised (ErrorReturnCode "docker" c)).
Proof.
  cbn [wait_until_ok]. unfold bind, sh_ok, poll_code.
  rewrite Nat.add_0_r.
  destruct (exec_reply w (length (trace st)) (docker_version socket)) as [c out].
  cbn [fst existsb prog docker_version].
  destruct (c =? 0) eqn:H0; cbn [orb fst]; [unfold ret; now rewrite H0|].
  destruct (c =? 1) eqn:H1; cbn [orb fst]; [now rewrite H0|reflexivity].
Qed.

Lemma leaves_at_first_other_code (n : nat) : forall (fuel : nat) (w : world) (st : state)
    (socket : string),
  (forall i, (i < n)%nat -> poll_code w st socket i = 1) ->
  (n < fuel)%nat ->
  poll_code w st socket n <> 1 ->
  wait_until_ok fuel socket w st
  = (State (trace st ++ polls w st socket (S n)) (store st),
     if poll_code w st socket n =? 0 then Return tt
     else Raised (ErrorReturnCode "docker" (poll_code w st socket n))).
Proof.
  induction n as [|n IH]; intros fuel w st socket Hones Hfuel Hlast;
    (destruct fuel as [|fuel]; [lia|]); rewrite wait_until_ok_step; cbv zeta.
  - destruct (Z.eqb_spec (poll_code w st socket 0) 0) as [H0|H0]; [reflexivity|].
    destruct (Z.eqb_spec (poll_code w st socket 0) 1) as [H1|H1]; [contradiction|].
    reflexivity.
  - rewrite (Hones 0%nat) by lia. cbn [Z.eqb Pos.eqb].
    set (ev := Exec (docker_version socket) 1).
    rewrite (IH fuel w (record ev st) socket).
    + rewrite (polls_S w st socket ev (S n)), (Hones 0%nat) by lia.
      rewrite !poll_code_S.
      unfold record. cbn [trace store]. now rewrite <- List.app_assoc.
    + intros i Hi. rewrite poll_code_S. apply Hones. lia.
    + lia.
    + now rewrite poll_code_S.
Qed.

Lemma keeps_polling_on_code_1 (fuel : nat) : forall (w : world) (st : state)
    (socket : string),
  (forall i, (i < fuel)%nat -> poll_code w st socket i = 1) ->
  wait_until_ok fuel socket w st
  = (State (trace st ++ polls w st socket fuel) (store st), Spinning).
Proof.
  induction fuel as [|fuel IH]; intros w st socket Hones.
  - cbn [wait_until_ok]. unfold spin, polls. cbn [seq map].
    now rewrite List.app_nil_r, state_eta.
  - rewrite wait_until_ok_step. cbv zeta.
    rewrite (Hones 0%nat) by lia. cbn [Z.eqb Pos.eqb].
    set (ev := Exec (docker_version socket) 1).
    rewrite (IH w (record ev st) socket).
    + rewrite (polls_S w st socket ev fuel), (Hones 0%nat) by lia.
      unfold record. cbn [trace store]. now rewrite <- List.app_assoc.
    + intros i Hi. rewrite poll_code_S. apply Hones. lia.
Qed.

(** C8 (as amended): the loop is left as ready exactly at the first status
    query that exits with code 0.  A query that exits with code 1 raises no
    error but is followed by another query, for as long as the answers are 1;
    any other exit code raises [ErrorReturnCode]. *)
Theorem readiness_loop (w : world) (st : state) (socket : string) (fuel n : nat) :
  (forall i, (i < n)%nat -> poll_code w st socket i = 1) ->
  ((n < fuel)%nat -> poll_code w st socket n <> 1 ->
   wait_until_ok fuel socket w st
   = (State (trace st ++ polls w st socket (S n)) (store st),
      if poll_code w st socket n =? 0 then Return tt
      else Raised (ErrorReturnCode "docker" (poll_code w st socket n))))
  /\ (n = fuel ->
      wait_until_ok fuel socket w st
      = (State (trace st ++ polls w st socket fuel) (store st), Spinning)).
Proof.
  intros Hones. split.
  - intros Hfuel Hlast. now apply leaves_at_first_other_code.
  - intros ->. now apply keeps_polling_on_code_1.
Qed.

Lemma readiness_loop_witness :
  wait_until_ok 5 "/tmp/tmpq0/docker.sock" Demo.slow_daemon Demo.idle
  = (State ([] ++ polls Demo.slow_daemon Demo.idle "/tmp/tmpq0/docker.sock" 2) ∅, Return tt)
  /\ wait_until_ok 1 "/tmp/tmpq0/docker.sock" Demo.slow_daemon Demo.idle
     = (State ([] ++ polls Demo.slow_daemon Demo.idle "/tmp/tmpq0/docker.sock" 1) ∅, Spinning).
Proof.
  assert (Hones : forall i, (i < 1)%nat ->
            poll_code Demo.slow_daemon Demo.idle "/tmp/tmpq0/docker.sock" i = 1).
  { intros i Hi. assert (i = 0%nat) as -> by lia. reflexivity. }
  split.
  - apply (readiness_loop Demo.slow_daemon Demo.idle "/tmp/tmpq0/docker.sock" 5 1 Hones).
    + lia.
    + discriminate.
  - now apply (readiness_loop Demo.slow_daemon Demo.idle "/tmp/tmpq0/docker.sock" 1 1 Hones).
Defined.

(** C8 (as stated) fails: after a status query that exits with code 1 the
    loop is not left; it queries again, and is left after the query that
    exits with code 0. *)
Lemma readiness_not_on_exit_code_1 :
  wait_until_ok 1 "/tmp/tmpq0/docker.sock" Demo.slow_daemon Demo.idle
  = (State [Exec (docker_version "/tmp/tmpq0/docker.sock") 1] ∅, Spinning)
  /\ wait_until_ok 2 "/tmp/tmpq0/docker.sock" Demo.slow_daemon Demo.idle
     = (State [Exec (docker_version "/tmp/tmpq0/docker.sock") 1;
               Exec (docker_version "/tmp/tmpq0/docker.sock") 0] ∅, Return tt).
Proof. split; reflexivity. Qed.

End ReadinessTheorems.

(** ** The consistency check of [expand_ext4] *)

Module FsckFacts.
Import Text Run Preload Fsck RunFacts.

Section Outcomes.
Variables (w : world) (st st1 : state) (image dev : string) (partition : Z).
Hypothesis bound : losetup_partition image partition w st = (st1, Return dev).

Let c : Z := fst (exec_reply w (length (trace st1) + 2) (e2fsck dev)).
Let r : Z := fst (exec_reply w (length (trace st1) + 4) (resize2fs dev)).

Lemma expand_ext4_accepted lvl msg :
  (c = 0 /\ Log lvl msg [] = msg_ok) \/ ((c = 1 \/ c = 2) /\ Log lvl msg [] = msg_corrected) ->
  exists rest,
    trace (fst (expand_ext4 image partition w st))
    = (began (trace st1) dev c ++ [Log lvl msg []; Exec (resize2fs dev) r] ++ rest)%list.
Proof.
  intros Hc.
  unfold expand_ext4, with_. rewrite run_bind. cbn [enter losetup_context_manager].
  rewrite bound.
  rewrite run_bind, run_log, run_bind, run_log, run_bind.
  unfold try_except_ErrorReturnCode. rewrite run_bind, run_sh_ok.
  rewrite !record_length.
  replace (S (S (length (trace st1)))) with (length (trace st1) + 2)%nat by lia.
  fold c.
  assert (Hok : existsb (Z.eqb c) [0; 1; 2] = true).
  { destruct Hc as [[-> _]|[[->| ->] _]]; reflexivity. }
  rewrite Hok. fold c.
  assert (Hlog : (if c =? 0 then log INFO "e2fsck: File system OK" []
                  else log WARNING "e2fsck: File system errors corrected" [])
                 = log lvl msg []).
  { unfold msg_ok, msg_corrected in Hc.
    destruct Hc as [[-> Hm]|[[->| ->] Hm]]; injection Hm as -> ->; reflexivity. }
  rewrite Hlog, run_log.
  rewrite run_bind, run_sh_ok. rewrite !record_length.
  replace (S (S (S (S (length (trace st1)))))) with (length (trace st1) + 4)%nat by lia.
  fold r.
  destruct (existsb (Z.eqb r) [0]).
  - unfold ret at 1. rewrite run_bind. cbn [resume losetup_context_manager].
    rewrite run_bind. unfold sh. rewrite run_sh_ok.
    match goal with |- context [if ?b then _ else _] => destruct b end;
      unfold ret, began, record; cbn [fst trace];
      eexists; rewrite <- !List.app_assoc; cbn [app]; reflexivity.
  - unfold began, record. cbn [fst trace].
    exists []. rewrite <- !List.app_assoc. reflexivity.
Qed.

Lemma expand_ext4_fatal :
  c <> 0 -> c <> 1 -> c <> 2 ->
  expand_ext4 image partition w st
  = (State (began (trace st1) dev c ++ [msg_fatal]) (store st1), Raised (SystemExit 1)).
Proof.
  intros H0 H1 H2.
  unfold expand_ext4, with_. rewrite run_bind. cbn [enter losetup_context_manager].
  rewrite bound.
  rewrite run_bind, run_log, run_bind, run_log, run_bind.
  unfold try_except_ErrorReturnCode. rewrite run_bind, run_sh_ok.
  rewrite !record_length.
  replace (S (S (length (trace st1)))) with (length (trace st1) + 2)%nat by lia.
  fold c.
  assert (Hok : existsb (Z.eqb c) [0; 1; 2] = false).
  { cbn [existsb]. rewrite !orb_false_iff, !Z.eqb_neq. auto. }
  rewrite Hok. rewrite run_bind, run_log.
  unfold raise, record, began, msg_fatal. cbn [trace store].
  rewrite <- !List.app_assoc. reflexivity.
Qed.
End Outcomes.

End FsckFacts.

Module FsckTheorems.
Import Text Run Preload Fsck RunFacts FsckFacts.

Lemma preload_propagates fuel image additional_space app w s0 st st' e :
  reaches_expand_ext4 w image additional_space s0 st ->
  expand_ext4 image 6 w st = (st', Raised e) ->
  preload fuel image additional_space app w s0 = (st', Raised e).
Proof.
  intros (s1 & sa & sv & v & Himg & Hparts & Hver & Hge & ->) Hraise.
  unfold preload. rewrite run_bind, Himg, run_bind, Hparts.
  unfold resize_fs_copy_splash_image_and_pull.
  rewrite run_bind, Hver, run_bind, Hge. cbn [lift]. unfold ret at 1.
  rewrite run_bind, run_bind, run_log, run_bind, Hraise. reflexivity.
Qed.

(** C3 (as amended): once the loop device is bound, the exit code [c] of
    [e2fsck] decides.  With code 0 the run logs, at level INFO, that the file
    system is OK and runs [resize2fs]; with code 1 or 2 it logs, in both cases
    with the same record at level WARNING, that errors were corrected, and runs
    [resize2fs]; with any other code it logs at level ERROR and raises
    [SystemExit(1)] with no [resize2fs] run, and a [preload] that got to this
    point ends there with that exception. *)
Theorem e2fsck_exit_code_decides (w : world) (st st1 : state) (image dev : string)
    (partition : Z) :
  losetup_partition image partition w st = (st1, Return dev) ->
  let c := fst (exec_reply w (length (trace st1) + 2) (e2fsck dev)) in
  let r := fst (exec_reply w (length (trace st1) + 4) (resize2fs dev)) in
  let run := expand_ext4 image partition w st in
  (c = 0 -> exists rest,
     trace (fst run) = (began (trace st1) dev c ++ [msg_ok; Exec (resize2fs dev) r] ++ rest)%list)
  /\ (c = 1 \/ c = 2 -> exists rest,
     trace (fst run)
     = (began (trace st1) dev c ++ [msg_corrected; Exec (resize2fs dev) r] ++ rest)%list)
  /\ (c <> 0 -> c <> 1 -> c <> 2 ->
      run = (State (began (trace st1) dev c ++ [msg_fatal]) (store st1),
             Raised (SystemExit 1))
      /\ forall fuel additional_space app s0,
           partition = 6 ->
           reaches_expand_ext4 w image additional_space s0 st ->
           preload fuel image additional_space app w s0
           = (State (began (trace st1) dev c ++ [msg_fatal]) (store st1),
              Raised (SystemExit 1))).
Proof.
  intros Hbound c r run. repeat split.
  - intros Hc. apply (expand_ext4_accepted w st st1 image dev partition Hbound INFO).
    left. now split.
  - intros Hc. apply (expand_ext4_accepted w st st1 image dev partition Hbound WARNING).
    right. now split.
  - now apply expand_ext4_fatal.
  - intros fuel additional_space app s0 -> Hreach.
    apply (preload_propagates _ _ _ _ _ _ _ _ _ Hreach).
    now apply expand_ext4_fatal.
Qed.

Lemma e2fsck_exit_code_decides_witness :
  expand_ext4 "/img/resin.img" 6 (Demo.world_of 3 0 (Demo.os_release "2.3.0")) Demo.start
  = (State (began (trace (fst (losetup_partition "/img/resin.img" 6
                                 (Demo.world_of 3 0 (Demo.os_release "2.3.0")) Demo.start)))
                  "/dev/loop0" 3 ++ [msg_fatal])
           (store Demo.start),
     Raised (SystemExit 1)).
Proof.
  pose (w := Demo.world_of 3 0 (Demo.os_release "2.3.0")).
  pose (st1 := fst (losetup_partition "/img/resin.img" 6 w Demo.start)).
  assert (Hbound : losetup_partition "/img/resin.img" 6 w Demo.start
                   = (st1, Return "/dev/loop0")) by (vm_compute; reflexivity).
  destruct (e2fsck_exit_code_decides w Demo.start st1 "/img/resin.img" "/dev/loop0" 6 Hbound)
    as (_ & _ & Hfatal).
  destruct Hfatal as [Hrun _]; [vm_compute; discriminate ..|].
  exact Hrun.
Defined.

(** C3 (as stated) fails on "at different severities": a check that exits
    with code 1 and a check that exits with code 2 leave the same log records,
    the last one at level WARNING in both runs. *)
Lemma fsck_codes_1_and_2_logged_alike :
  Demo.logs (trace (fst (expand_ext4 "/img/resin.img" 6
                           (Demo.world_of 1 0 (Demo.os_release "2.3.0")) Demo.start)))
  = [Log INFO "Using {}" [AStr "/dev/loop0"]; Log INFO "Resizing filesystem" [];
     Log WARNING "e2fsck: File system errors corrected" []]
  /\ Demo.logs (trace (fst (expand_ext4 "/img/resin.img" 6
                              (Demo.world_of 2 0 (Demo.os_release "2.3.0")) Demo.start)))
     = [Log INFO "Using {}" [AStr "/dev/loop0"]; Log INFO "Resizing filesystem" [];
        Log WARNING "e2fsck: File system errors corrected" []].
Proof. split; vm_compute; reflexivity. Qed.

End FsckTheorems.

(** ** The scoped resources: [with] and the two context managers *)

Module Scoped.
Import Text Run Preload.

(** When the body returns, the code after the [yield] runs. *)
Lemma with_returns {R A} (cm : context_manager R) (body : R -> M A) w st st1 st2 r a :
  enter cm w st = (st1, Return r) ->
  body r w st1 = (st2, Return a) ->
  with_ cm body w st = (resume cm r ;;; ret a) w st2.
Proof.
  intros He Hb. unfold with_. rewrite RunFacts.run_bind, He, Hb. reflexivity.
Qed.

(** When the body raises, the run ends in the state of the raise: the code
    after the [yield] does not run. *)
Lemma with_raises {R A} (cm : context_manager R) (body : R -> M A) w st st1 st2 r e :
  enter cm w st = (st1, Return r) ->
  body r w st1 = (st2, Raised e) ->
  with_ cm body w st = (st2, Raised e).
Proof.
  intros He Hb. unfold with_. rewrite RunFacts.run_bind, He, Hb. reflexivity.
Qed.

(** C7 fails on the code.  A check that exits with code 3 makes the body of
    [with losetup_context_manager] raise: the run ends with the loop device
    bound and no [losetup -d].  A line of [/etc/os-release] without [=] makes
    the body of [with mount_context_manager] raise: the run ends with the
    partition mounted and neither [umount] nor [rmdir]. *)
Theorem release_skipped_when_body_raises :
  let run := expand_ext4 "/img/resin.img" 6
               (Demo.world_of 3 0 (Demo.os_release "2.3.0")) Demo.start in
  let run' := get_resin_os_version "/img/resin.img"
                (Demo.world_of 0 0 ("Resin OS" ++ NL)) Demo.start in
  snd run = Raised (SystemExit 1)
  /\ List.filter (Demo.is_exec_of "losetup") (trace (fst run))
     = [Exec (Command "losetup" [VStr "-f"] None) 0;
        Exec (Command "losetup" [VStr "-o"; VInt 729808896; VStr "--sizelimit";
                                 VInt 994639872; VStr "/dev/loop0";
                                 VStr "/img/resin.img"] None) 0]
  /\ snd run' = Raised ValueError
  /\ trace (fst run')
     = [Exec (parted_print "/img/resin.img" "B") 0;
        Mkdtemp "/tmp/tmp1";
        Exec (Command "mount" [VStr "-o"; VStr "offset=46137344,sizelimit=327155712";
                               VStr "/img/resin.img"; VStr "/tmp/tmp1"] None) 0;
        Read "/tmp/tmp1/etc/os-release" (Some ("Resin OS" ++ NL))].
Proof. repeat split; vm_compute; reflexivity. Qed.

End Scoped.

(** ** What a computation adds to the trace *)

Module Appends.
Import Text Run Preload.

Lemma appends_silent {A} P (m : M A) :
  (forall w st, trace (fst (m w st)) = trace st) -> appends P m.
Proof.
  intros H w st. exists []. rewrite H, List.app_nil_r. now split.
Qed.

Lemma appends_ret {A} P (a : A) : appends P (ret a).
Proof. now apply appends_silent. Qed.

Lemma appends_raise {A} P e : appends P (@raise A e).
Proof. now apply appends_silent. Qed.

Lemma appends_spin {A} P : appends P (@spin A).
Proof. now apply appends_silent. Qed.

Lemma appends_lift {A} P (r : result A) : appends P (lift r).
Proof. destruct r; [apply appends_ret | apply appends_raise]. Qed.

Lemma appends_emit P ev : P ev -> appends P (emit ev).
Proof. intros H w st. exists [ev]. split; [reflexivity|]. now constructor. Qed.

Lemma appends_log P lvl fmt a : P (Log lvl fmt a) -> appends P (log lvl fmt a).
Proof. apply appends_emit. Qed.

Lemma appends_ask {A} P (reply : world -> nat -> A) ev :
  (forall a, P (ev a)) -> appends P (ask reply ev).
Proof. intros H w st. eexists [_]. split; [reflexivity|]. constructor; auto. Qed.

Lemma appends_sh_ok P ok c :
  (forall code, P (Exec c code)) -> appends P (sh_ok ok c).
Proof.
  intros H w st. rewrite RunFacts.run_sh_ok. eexists [_].
  split; [reflexivity|]. constructor; auto.
Qed.

Lemma appends_bind {A B} P (m : M A) (k : A -> M B) :
  appends P m -> (forall a, appends P (k a)) -> appends P (bind m k).
Proof.
  intros Hm Hk w st. rewrite RunFacts.run_bind.
  destruct (Hm w st) as (evs & Ht & Hp).
  destruct (m w st) as [st' [a| e|]]; cbn [fst] in *.
  - destruct (Hk a w st') as (evs' & Ht' & Hp').
    exists (evs ++ evs')%list. rewrite Ht', Ht, List.app_assoc.
    split; [reflexivity|]. now apply Forall_app.
  - now exists evs.
  - now exists evs.
Qed.

Lemma appends_with {R A} P (cm : context_manager R) (body : R -> M A) :
  appends P (enter cm) -> (forall r, appends P (body r)) ->
  (forall r, appends P (resume cm r)) -> appends P (with_ cm body).
Proof.
  intros He Hb Hr. unfold with_. apply appends_bind; [exact He|].
  intros r w st.
  destruct (Hb r w st) as (evs & Ht & Hp).
  destruct (body r w st) as [st' [a| e|]]; cbn [fst] in *.
  - assert (Hfin : appends P (resume cm r ;;; ret a)).
    { apply appends_bind; [apply Hr|]. intros _. apply appends_ret. }
    destruct (Hfin w st') as (evs' & Ht' & Hp').
    exists (evs ++ evs')%list. rewrite Ht', Ht, List.app_assoc.
    split; [reflexivity|]. now apply Forall_app.
  - now exists evs.
  - now exists evs.
Qed.

Lemma appends_try {A} P (body handler : M A) :
  appends P body -> appends P handler ->
  appends P (try_except_ErrorReturnCode body handler).
Proof.
  intros Hb Hh w st. unfold try_except_ErrorReturnCode.
  destruct (Hb w st) as (evs & Ht & Hp).
  destruct (body w st) as [st' [a| e|]]; cbn [fst] in *; try (now exists evs).
  destruct e; try (now exists evs).
  destruct (Hh w st') as (evs' & Ht' & Hp').
  exists (evs ++ evs')%list. rewrite Ht', Ht, List.app_assoc.
  split; [reflexivity|]. now apply Forall_app.
Qed.

Lemma appends_for_each {A} P (l : list A) (body : A -> M unit) :
  (forall a, appends P (body a)) -> appends P (for_each l body).
Proof.
  intros Hb. induction l as [|a l IH]; cbn [for_each].
  - apply appends_ret.
  - apply appends_bind; [apply Hb|]. intros _. exact IH.
Qed.

Lemma appends_if {A} P (b : bool) (m1 m2 : M A) :
  appends P m1 -> appends P m2 -> appends P (if b then m1 else m2).
Proof. now destruct b. Qed.

Lemma appends_dict_copy P l : appends P (dict_copy l).
Proof.
  apply appends_silent. intros w st. unfold dict_copy.
  now destruct (store st !! l).
Qed.

Lemma appends_getitem P l k : appends P (getitem l k).
Proof.
  apply appends_silent. intros w st. unfold getitem.
  destruct (store st !! l) as [d|]; [|reflexivity]. now destruct (d !! k).
Qed.

Lemma appends_setitem P l k v : appends P (setitem l k v).
Proof.
  apply appends_silent. intros w st. unfold setitem.
  now destruct (store st !! l).
Qed.

Lemma appends_delitem P l k : appends P (delitem l k).
Proof.
  apply appends_silent. intros w st. unfold delitem.
  destruct (store st !! l) as [d|]; [|reflexivity]. now destruct (d !! k).
Qed.

Lemma appends_str_add P s v : appends P (str_add s v).
Proof. destruct v; first [apply appends_ret | apply appends_raise]. Qed.

Lemma appends_json_dump P l output :
  (forall obj, P (JsonDump output obj)) -> appends P (json_dump_list_of l output).
Proof.
  intros H w st. unfold json_dump_list_of.
  destruct (store st !! l) as [d|].
  - eexists [_]. split; [reflexivity|]. constructor; auto.
  - exists []. rewrite List.app_nil_r. now split.
Qed.

End Appends.

(** ** The events of the two filesystem variants *)

Module VariantFacts.
Import Text Run Preload Appends Variants.

Section Policy.
Variables (driver : string) (bad : list string).
Hypothesis parted_ok : is_bad bad "parted" = false.
Hypothesis mount_ok : is_bad bad "mount" = false.
Hypothesis umount_ok : is_bad bad "umount" = false.
Hypothesis docker_ok : is_bad bad "docker" = false.
Hypothesis inotifywait_ok : is_bad bad "inotifywait" = false.
Hypothesis kill_ok : is_bad bad "kill" = false.

Let P := allowed driver bad.

Ltac run :=
  repeat first
    [ assumption
    | apply appends_ret | apply appends_raise | apply appends_spin
    | apply appends_lift
    | apply appends_log; exact I
    | apply appends_emit; exact I
    | apply appends_ask; intros; exact I
    | apply appends_sh_ok; intros; assumption
    | apply appends_dict_copy | apply appends_getitem | apply appends_setitem
    | apply appends_delitem | apply appends_str_add
    | apply appends_json_dump; intros; exact I
    | apply appends_bind; [|intros ?]
    | apply appends_if ].

Lemma appends_get_offset_and_size image partition :
  appends P (get_offset_and_size image partition).
Proof. unfold get_offset_and_size, get_offsets_and_sizes. run. Qed.

Lemma appends_mount_context_manager image partition extra {A} (body : string -> M A) :
  (forall r, appends P (body r)) ->
  appends P (with_ (mount_context_manager image partition extra) body).
Proof.
  intros Hb. pose proof (appends_get_offset_and_size image partition).
  apply appends_with; [| exact Hb | intros r];
    cbn [enter resume mount_context_manager]; unfold mount_partition, sh; run.
Qed.

Lemma appends_open_read path : appends P (open_read path).
Proof. unfold open_read. run. destruct a; run. Qed.

Lemma appends_get_resin_os_version image : appends P (get_resin_os_version image).
Proof.
  unfold get_resin_os_version. apply appends_mount_context_manager. intros r.
  pose proof (appends_open_read (path_join r "etc/os-release")). run.
Qed.

Lemma appends_fix_rce_docker mountpoint : appends P (fix_rce_docker mountpoint).
Proof. unfold fix_rce_docker, isdir. run. Qed.

Lemma appends_wait_while_isfile fuel socket : appends P (wait_while_isfile fuel socket).
Proof.
  induction fuel as [|fuel IH]; cbn [wait_while_isfile]; unfold isfile, sh; run.
Qed.

Lemma appends_wait_until_ok fuel socket : appends P (wait_until_ok fuel socket).
Proof.
  induction fuel as [|fuel IH]; cbn [wait_until_ok]; run.
Qed.

Lemma appends_start_docker_daemon fuel mountpoint socket :
  appends P (start_docker_daemon fuel driver mountpoint socket).
Proof.
  unfold start_docker_daemon.
  pose proof (appends_fix_rce_docker mountpoint).
  pose proof (appends_wait_while_isfile fuel socket).
  pose proof (appends_wait_until_ok fuel socket).
  run. apply appends_emit. cbn. eauto.
Qed.

Lemma appends_write_apps_json data output : appends P (write_apps_json data output).
Proof. unfold write_apps_json. run. Qed.

Lemma appends_docker_pull sock image_id : appends P (docker_pull sock image_id).
Proof. unfold docker_pull, sh. run. Qed.

Lemma appends_pull_into fuel image app_data extra prepare :
  (forall mountpoint, appends P (prepare mountpoint)) ->
  appends P (pull_into fuel image app_data extra driver prepare).
Proof.
  intros Hprep. unfold pull_into. apply appends_bind; [run|]. intros tmpdir.
  apply appends_mount_context_manager. intros mountpoint.
  apply appends_bind; [apply Hprep|]. intros _.
  apply appends_with; cbn [enter resume docker_context_manager].
  - apply appends_start_docker_daemon.
  - intros _.
    pose proof (appends_write_apps_json app_data (mountpoint ++ "/apps.json")).
    run.
  - intros _. pose proof (appends_open_read "/var/run/docker.pid").
    unfold sh. run.
Qed.

Lemma appends_expand_ext4 image partition :
  is_bad bad "losetup" = false -> is_bad bad "e2fsck" = false ->
  is_bad bad "resize2fs" = false ->
  appends P (expand_ext4 image partition).
Proof.
  intros Hl He Hr. unfold expand_ext4.
  pose proof (appends_get_offset_and_size image partition).
  apply appends_with; [|intros r|intros r];
    cbn [enter resume losetup_context_manager]; unfold losetup_partition, sh.
  - run.
  - run. apply appends_try; run.
  - run.
Qed.

Lemma appends_expand_btrfs mountpoint :
  is_bad bad "btrfs" = false -> appends P (expand_btrfs mountpoint).
Proof. intros Hb. unfold expand_btrfs, sh. run. Qed.

End Policy.

End VariantFacts.

(** ** The choice of the filesystem variant *)

Module VersionTheorems.
Import Text Run Preload Appends Variants VariantFacts Version.

Lemma ge_numeric_triple v a b c rest :
  parse v = CInt a :: CInt b :: CInt c :: rest ->
  version_ge_2 (Some v) = Ok (at_least_2_0_0 a b c).
Proof.
  intros Hp. destruct v as [|ch v]; [discriminate|].
  unfold version_ge_2, ge, _cmp, LooseVersion. rewrite Hp.
  change (parse "2.0.0") with [CInt 2; CInt 0; CInt 0].
  unfold at_least_2_0_0. cbn [list_compare item_compare].
  rewrite (Z.ltb_compare 2 a), (Z.eqb_compare a 2), (Z.compare_antisym a 2).
  destruct (a ?= 2); cbn [CompOpp orb andb]; try reflexivity.
  rewrite (Z.ltb_compare 0 b), (Z.eqb_compare b 0), (Z.compare_antisym b 0).
  destruct (b ?= 0); cbn [CompOpp orb andb]; try reflexivity.
  rewrite (Z.leb_compare 0 c), (Z.compare_antisym c 0).
  destruct (c ?= 0); cbn [CompOpp]; try reflexivity.
  now destruct rest.
Qed.

Lemma ge_short_prefix v :
  parse v = [CInt 2] \/ parse v = [CInt 2; CInt 0] ->
  version_ge_2 (Some v) = Ok false.
Proof.
  intros Hp. destruct v as [|ch v]; [now destruct Hp|].
  unfold version_ge_2, ge, _cmp, LooseVersion.
  now destruct Hp as [-> | ->].
Qed.

Lemma with_ext {R A} (cm : context_manager R) (b1 b2 : R -> M A) w st :
  (forall r w' st', b1 r w' st' = b2 r w' st') ->
  with_ cm b1 w st = with_ cm b2 w st.
Proof.
  intros H. unfold with_. rewrite !RunFacts.run_bind.
  destruct (enter cm w st) as [s [r|e|]]; try reflexivity.
  now rewrite H.
Qed.

Lemma selection fuel image app_data w st :
  resize_fs_copy_splash_image_and_pull fuel image app_data w st
  = (version <- get_resin_os_version image ;;
     match version_ge_2 version with
     | Ok true => ext4_variant fuel image app_data
     | Ok false => btrfs_variant fuel image app_data
     | Raise e => raise e
     end) w st.
Proof.
  unfold resize_fs_copy_splash_image_and_pull. rewrite !(RunFacts.run_bind (get_resin_os_version image)).
  destruct (get_resin_os_version image w st) as [s1 [v|e|]]; try reflexivity.
  rewrite RunFacts.run_bind.
  destruct (version_ge_2 v) as [[|]|e]; cbn [lift]; try reflexivity.
  - unfold ret at 1. unfold ext4_variant.
    rewrite !(RunFacts.run_bind (log INFO "Expanding ext filesystem" [] ;;; _)).
    rewrite !(RunFacts.run_bind (log INFO "Expanding ext filesystem" [])).
    rewrite RunFacts.run_log.
    rewrite !(RunFacts.run_bind (expand_ext4 image 6)).
    destruct (expand_ext4 image 6 w _) as [s2 [[]|e|]]; reflexivity.
  - unfold ret at 1. unfold btrfs_variant, pull_into.
    rewrite (RunFacts.run_bind (ret _)). unfold ret at 1. cbv iota beta.
    rewrite !(RunFacts.run_bind (ask mkdtemp_reply Mkdtemp)).
    unfold ask. cbv iota beta.
    apply with_ext. intros mountpoint w' st'.
    rewrite !(RunFacts.run_bind (log INFO "Expanding btrfs filesystem" [] ;;; _)).
    rewrite !(RunFacts.run_bind (log INFO "Expanding btrfs filesystem" [])).
    rewrite RunFacts.run_log.
    rewrite ?(RunFacts.run_bind (expand_btrfs mountpoint)).
    destruct (expand_btrfs mountpoint w' _) as [s3 [[]|e|]]; reflexivity.
Qed.

(** C4 (as amended): the filesystem is chosen once, by
    [LooseVersion(version) >= LooseVersion("2.0.0")].  The components are
    compared left to right and a version that is a proper prefix of the other
    is the smaller one (no padding with zeros): ["2.0.0"] is at least
    ["2.0.0"], ["1.9.5"] is not, ["2.0.0-beta.1"] is; a version that starts
    with three numbers is compared by these three whatever follows; ["2"] and
    ["2.0"] are below the threshold.  A true comparison selects the ext4 variant
    (unmounted check and resize, daemon started with [aufs], no [btrfs]
    command), a false one the btrfs variant (mounted online resize, daemon
    started with [btrfs], no [e2fsck], [resize2fs] or [losetup]). *)
Theorem filesystem_selected_by_LooseVersion :
  version_ge_2 (Some "2.0.0") = Ok true
  /\ version_ge_2 (Some "1.9.5") = Ok false
  /\ version_ge_2 (Some "2.0.0-beta.1") = Ok true
  /\ (forall v a b c rest,
        parse v = CInt a :: CInt b :: CInt c :: rest ->
        version_ge_2 (Some v) = Ok (at_least_2_0_0 a b c))
  /\ (forall v, parse v = [CInt 2] \/ parse v = [CInt 2; CInt 0] ->
                version_ge_2 (Some v) = Ok false)
  /\ (forall fuel image app_data w st,
        resize_fs_copy_splash_image_and_pull fuel image app_data w st
        = (version <- get_resin_os_version image ;;
           match version_ge_2 version with
           | Ok true => ext4_variant fuel image app_data
           | Ok false => btrfs_variant fuel image app_data
           | Raise e => raise e
           end) w st)
  /\ (forall fuel image app_data,
        appends (allowed "aufs" ["btrfs"]) (ext4_variant fuel image app_data)
        /\ appends (allowed "btrfs" ["e2fsck"; "resize2fs"; "losetup"])
             (btrfs_variant fuel image app_data)).
Proof.
  split; [reflexivity|]. split; [reflexivity|]. split; [reflexivity|].
  split; [exact ge_numeric_triple|]. split; [exact ge_short_prefix|].
  split; [exact selection|].
  intros fuel image app_data. split.
  - unfold ext4_variant.
    apply appends_bind; [apply appends_log; exact I|]. intros _.
    apply appends_bind; [now apply appends_expand_ext4|]. intros _.
    apply appends_pull_into; try reflexivity. intros _. apply appends_ret.
  - unfold btrfs_variant. apply appends_pull_into; try reflexivity.
    intros mountpoint.
    apply appends_bind; [apply appends_log; exact I|]. intros _.
    now apply appends_expand_btrfs.
Qed.

Lemma filesystem_selected_by_LooseVersion_witness :
  version_ge_2 (Some "2.3.0+rev1") = Ok true
  /\ version_ge_2 (Some "2.0") = Ok false.
Proof.
  destruct filesystem_selected_by_LooseVersion as (_ & _ & _ & Htriple & Hshort & _).
  split.
  - apply (Htriple "2.3.0+rev1" 2 3 0 [CStr "+"; CStr "rev"; CInt 1]). reflexivity.
  - apply (Hshort "2.0"). right. reflexivity.
Defined.

(** C4 (as stated) fails at the version ["2.0"]: compared numerically with
    the shorter sequence padded with zeros it is at least ["2.0.0"], but
    [LooseVersion] puts it below, and the run takes the btrfs variant. *)
Lemma version_2_0_is_not_padded :
  dotted_numeric_ge "2.0" "2.0.0" = true
  /\ version_ge_2 (Some "2.0") = Ok false
  /\ spawned (trace (fst (resize_fs_copy_splash_image_and_pull 5 "/img/resin.img" 0
                            (Demo.world_of 0 0 (Demo.os_release "2.0")) Demo.start)))
     = [dockerd "btrfs" "/tmp/tmp8/docker" "/tmp/tmp6/docker.sock"].
Proof. repeat split; vm_compute; reflexivity. Qed.

End VersionTheorems.

(** ** The Block Migrator: [resize_rootfs] *)

Module MigrationFacts.
Import Text Run Preload RunFacts Appends Migration.

Lemma size_after_copies_fits src dst shift (table : list (Z * Z)) : forall idx,
  0 <= shift -> src + shift * 512 <= dst ->
  Forall (fun e => 0 <= fst e) table ->
  size_after_copies src dst (planned_copies idx 2 shift table) = dst.
Proof.
  induction table as [|[offset size] rest IH]; intros idx Hs Hd Hall; [reflexivity|].
  inversion Hall as [|? ? Ho Hrest]; subst. cbn [fst] in Ho.
  cbn [planned_copies]. unfold size_after_copies in *. cbn [fold_left].
  replace (size_after_copy src dst _) with dst; [now apply IH|].
  unfold size_after_copy, copied_bytes. cbn [op_skip op_seek op_count].
  destruct (Z.eqb_spec (Z.max 0 (Z.min (size * 512) (src - offset * 512))) 0); [reflexivity|].
  destruct (Nat.leb idx 2); lia.
Qed.

Lemma dd_commands_app a b : dd_commands (a ++ b) = (dd_commands a ++ dd_commands b)%list.
Proof. unfold dd_commands. apply flat_map_app. Qed.

Lemma dd_commands_none bad driver evs :
  Variants.is_bad bad "dd" = true ->
  Forall (Variants.allowed driver bad) evs -> dd_commands evs = [].
Proof.
  intros Hbad Hall. induction Hall as [|ev evs Hev _ IH]; [reflexivity|].
  cbn [dd_commands flat_map]. fold (dd_commands evs). rewrite IH, List.app_nil_r.
  destruct ev; try reflexivity. cbn in Hev.
  destruct (String.eqb_spec (prog c) "dd") as [Heq|]; [|reflexivity].
  rewrite Heq in Hev. congruence.
Qed.

Lemma sh_ok_zero w st c :
  cooperative w -> String.eqb (prog c) "e2fsck" = false ->
  sh_ok [0] c w st
  = (record (Exec c 0) st, Return (0, snd (exec_reply w (length (trace st)) c))).
Proof.
  intros Hw Hc. rewrite RunFacts.run_sh_ok.
  specialize (Hw (length (trace st)) c). rewrite Hc in Hw.
  destruct (exec_reply w (length (trace st)) c) as [code out].
  cbn [fst snd] in *. subst code. reflexivity.
Qed.

Lemma run_copies w image tmp (seek_of : Z -> Z) (l : list (Z * Z)) : forall st,
  cooperative w ->
  for_each l (fun '(offset, size) => copy image tmp offset (seek_of offset) size) w st
  = (State (trace st
            ++ map (fun e => Exec (dd_copy image tmp
                                     (CopyOp (fst e) (seek_of (fst e)) (snd e))) 0) l)
           (store st),
     Return tt).
Proof.
  intros st Hw. revert st.
  induction l as [|[offset size] l IH]; intros st.
  - cbn [for_each map]. unfold ret. now rewrite List.app_nil_r, state_eta.
  - cbn [for_each]. rewrite RunFacts.run_bind.
    unfold copy at 1, ddd, sh. rewrite RunFacts.run_bind.
    rewrite (sh_ok_zero w st _ Hw) by reflexivity.
    unfold ret at 1. rewrite IH.
    rewrite record_trace, record_store. cbn [map fst snd].
    rewrite <- List.app_assoc. reflexivity.
Qed.

(** In a cooperative world the dump command returns, and the script is the
    rewrite of what it printed. *)
Lemma resize_rootfs_get_sfdisk_script_run w st image n :
  cooperative w ->
  resize_rootfs_get_sfdisk_script image n w st
  = lift (Layout.rewrite_layout
            (snd (exec_reply w (length (trace st)) (sfdisk_dump image))) n)
         w (record (Exec (sfdisk_dump image) 0) st).
Proof.
  intros Hw. unfold resize_rootfs_get_sfdisk_script, sh.
  rewrite RunFacts.run_bind, (sh_ok_zero w st _ Hw) by reflexivity.
  reflexivity.
Qed.

Ltac go Hw :=
  repeat first
    [ rewrite RunFacts.run_bind
    | rewrite (sh_ok_zero _ _ _ Hw) by reflexivity
    | rewrite run_ret | rewrite RunFacts.run_log | rewrite run_lift_Ok
    | rewrite run_emit | rewrite run_ask ].

Lemma expand_ext4_returns w tmp st :
  cooperative w ->
  (forall t, exists tb ext,
      parse_parted (parted_lines (snd (exec_reply w t (parted_print tmp "B")))) = Ok tb
      /\ py_index tb 1 = Ok ext) ->
  exists evs,
    expand_ext4 tmp 2 w st = (State (trace st ++ evs) (store st), Return tt)
    /\ dd_commands evs = [].
Proof.
  intros Hw Htmp.
  unfold expand_ext4, with_. cbn [enter resume losetup_context_manager].
  unfold losetup_partition, get_offset_and_size, get_offsets_and_sizes, sh.
  go Hw. cbn [snd].
  destruct (Htmp (length (trace st))) as (tb & ext & Hp & Hi).
  unfold parted_lines in Hp. rewrite Hp, run_lift_Ok.
  change (2 - 1) with 1. rewrite Hi.
  go Hw.
  unfold try_except_ErrorReturnCode.
  go Hw.
  rewrite RunFacts.run_sh_ok.
  match goal with |- context [exec_reply w ?t (e2fsck ?d)] =>
    pose proof (Hw t (e2fsck d)) as Hfsck; cbn [prog e2fsck] in Hfsck;
    change (String.eqb "e2fsck" "e2fsck") with true in Hfsck; cbv iota in Hfsck;
    destruct (exec_reply w t (e2fsck d)) as [code out] eqn:Hreply
  end.
  cbn [fst] in *.
  assert (Hok : existsb (Z.eqb code) [0; 1; 2] = true).
  { destruct Hfsck as [<-|[<-|[<-|[]]]]; reflexivity. }
  rewrite Hok. cbn [fst].
  assert (Hlog : exists lvl msg,
             (if code =? 0 then log INFO "e2fsck: File system OK" []
              else log WARNING "e2fsck: File system errors corrected" [])
             = log lvl msg []).
  { destruct (code =? 0); eauto. }
  destruct Hlog as (lvl & msg & ->).
  go Hw.
  eexists. split.
  - unfold record. cbn [trace store]. rewrite <- !List.app_assoc. cbn [app].
    reflexivity.
  - reflexivity.
Qed.

Lemma dd_commands_copies image tmp (f : Z * Z -> copy_op) (l : list (Z * Z)) :
  dd_commands (map (fun e => Exec (dd_copy image tmp (f e)) 0) l)
  = map (fun e => dd_copy image tmp (f e)) l.
Proof.
  induction l as [|e l IH]; [reflexivity|].
  cbn [map dd_commands flat_map]. fold (dd_commands (map (fun e => Exec (dd_copy image tmp (f e)) 0) l)).
  now rewrite IH.
Qed.

Lemma dd_commands_cons ev l :
  dd_commands (ev :: l) = (dd_commands [ev] ++ dd_commands l)%list.
Proof. apply (dd_commands_app [ev] l). Qed.

Lemma planned_copies_later shift (l : list (Z * Z)) : forall idx,
  (2 < idx)%nat ->
  planned_copies idx 2 shift l
  = map (fun e => CopyOp (fst e) (fst e + shift) (snd e)) l.
Proof.
  induction l as [|[offset size] l IH]; intros idx Hidx; [reflexivity|].
  cbn [planned_copies map fst snd]. rewrite IH by lia.
  now destruct (Nat.leb_spec idx 2); [lia|].
Qed.

Lemma planned_copies_split shift (table : list (Z * Z)) :
  planned_copies 1 2 shift table
  = (map (fun e => CopyOp (fst e) (fst e) (snd e)) (take 2 table)
     ++ map (fun e => CopyOp (fst e) (fst e + shift) (snd e)) (drop 2 table))%list.
Proof.
  destruct table as [|[o1 s1] [|[o2 s2] rest]]; try reflexivity.
  cbn [planned_copies take drop map app fst snd Nat.leb].
  now rewrite planned_copies_later by lia.
Qed.

End MigrationFacts.

Module MigrationTheorems.
Import Text Run Preload RunFacts Appends Migration MigrationFacts.


Lemma demo_cooperative fsck text :
  In fsck [0; 1; 2] -> cooperative (Demo.world_of fsck 0 text).
Proof.
  intros Hf t c. cbn [exec_reply Demo.world_of fst].
  replace (Nat.ltb t 0) with false by (symmetry; apply Nat.ltb_ge; lia).
  rewrite andb_false_r.
  now destruct (String.eqb (prog c) "e2fsck").
Qed.


End MigrationTheorems.

(** ** More on the substitution of the Layout Rewriter *)

Module SubstitutionFacts.
Import Text TextFacts Layout LayoutFacts.

Lemma span_spec p s a b :
  span p s = (a, b) -> s = a ++ b /\ all_chars p a = true.
Proof.
  revert a b. induction s as [|c s IH]; intros a b; cbn [span].
  - intros [= <- <-]. now split.
  - destruct (p c) eqn:Hc.
    + destruct (span p s) as [a' b'] eqn:Hs. intros [= <- <-].
      destruct (IH a' b' eq_refl) as [-> Ha]. split; [reflexivity|].
      cbn [all_chars]. now rewrite Hc.
    + intros [= <- <-]. now split.
Qed.

Lemma strip_prefix_spec pre : forall s r,
  strip_prefix pre s = Some r -> s = pre ++ r.
Proof.
  induction pre as [|a pre IH]; intros s r; cbn [strip_prefix].
  - destruct s; now intros [= <-].
  - destruct s as [|b s]; [discriminate|].
    destruct (Ascii.eqb_spec a b) as [<-|]; [|discriminate].
    intros H. now rewrite (IH _ _ H).
Qed.

Lemma match_here_spec key s g1 g2 g3 :
  match_here key s = Some (g1, g2, g3) ->
  s = g1 ++ g2 ++ g3
  /\ is_empty g2 = false /\ all_chars isdigit g2 = true
  /\ exists ws rest, g1 = key ++ ws /\ all_chars isspace ws = true
                     /\ g3 = String "," rest.
Proof.
  unfold match_here.
  destruct (strip_prefix key s) as [s1|] eqn:Hp; [|discriminate].
  apply strip_prefix_spec in Hp.
  destruct (span isspace s1) as [ws s2] eqn:Hws.
  destruct (span isdigit s2) as [ds s3] eqn:Hds.
  apply span_spec in Hws as [-> Hws]. apply span_spec in Hds as [-> Hds].
  destruct ds as [|d ds]; [discriminate|].
  destruct s3 as [|c s3]; [discriminate|].
  destruct (Ascii.eqb_spec c ",") as [->|]; [|discriminate].
  intros [= <- <- <-]. subst s.
  repeat split; try assumption.
  - now rewrite !sapp_assoc.
  - now exists ws, s3.
Qed.

(** The groups of a match cut the line in three: text, a run of digits, and
    text that starts with a comma. *)
Lemma search_spec key : forall s g1 g2 g3,
  search key s = Some (g1, g2, g3) ->
  s = g1 ++ g2 ++ g3
  /\ is_empty g2 = false /\ all_chars isdigit g2 = true
  /\ exists rest, g3 = String "," rest.
Proof.
  induction s as [|c s IH]; intros g1 g2 g3; cbn [search].
  - intros H. apply match_here_spec in H as (Hs & Hne & Hd & ws & rest & _ & _ & Hg3).
    repeat split; eauto.
  - destruct (search key s) as [[[h1 h2] h3]|] eqn:Hs.
    + intros [= <- <- <-]. destruct (IH _ _ _ eq_refl) as (-> & Hne & Hd & Hr).
      repeat split; assumption.
    + intros H. apply match_here_spec in H as (Hl & Hne & Hd & ws & rest & _ & _ & Hg3).
      repeat split; eauto.
Qed.

(** X1: whatever the line, the key and the number to add, the substitution
    either returns the line as it is, or replaces one run of digits that is
    followed by a comma by the decimal writing of its value plus the number,
    and keeps the text before and after it. *)
Theorem sub_changes_one_number (key : string) (n : Z) (line : string) :
  sub_add_size key n line = line
  \/ exists before digits_run after,
       line = before ++ digits_run ++ String "," after
       /\ is_empty digits_run = false
       /\ all_chars isdigit digits_run = true
       /\ sub_add_size key n line
          = before ++ str_of_int (int_of_digits digits_run + n) ++ String "," after.
Proof.
  unfold sub_add_size.
  destruct (search key line) as [[[g1 g2] g3]|] eqn:Hs; [|now left].
  right. apply search_spec in Hs as (-> & Hne & Hd & rest & ->).
  exists g1, g2, rest. repeat split; assumption.
Qed.

End SubstitutionFacts.

(** ** The Layout Rewriter on arbitrary text, and applied twice *)

Module RewriterFacts.
Import Text TextFacts Layout LayoutFacts SubstitutionFacts.

Lemma all_chars_app_eq p s t :
  all_chars p (s ++ t) = all_chars p s && all_chars p t.
Proof.
  induction s as [|c s IH]; [reflexivity|].
  rewrite sapp_cons. simpl. now rewrite IH, andb_assoc.
Qed.

Lemma no_nl_str_of_int n : no_nl (str_of_int n) = true.
Proof.
  destruct (Z.ltb_spec n 0) as [Hneg|Hpos].
  - unfold str_of_int. destruct (Z.ltb_spec n 0) as [_|?]; [|lia].
    assert (H : no_nl (str_of_int (- n)) = true) by (apply no_nl_digits; lia).
    rewrite str_of_int_nonneg in H by lia.
    unfold no_nl in *. simpl. exact H.
  - now apply no_nl_digits.
Qed.

(** The substitution keeps a line a line. *)
Lemma no_nl_sub key n line :
  no_nl line = true -> no_nl (sub_add_size key n line) = true.
Proof.
  intros Hl. unfold sub_add_size.
  destruct (search key line) as [[[g1 g2] g3]|] eqn:Hs; [|exact Hl].
  apply search_spec in Hs as (-> & _).
  unfold no_nl in Hl. rewrite !all_chars_app_eq in Hl.
  apply andb_prop in Hl as [H1 [_ H3]%andb_prop].
  unfold add_size.
  apply no_nl_app; [exact H1|]. apply no_nl_app; [apply no_nl_str_of_int|exact H3].
Qed.

Lemma split_no_nl s : forallb no_nl (split nl s) = true.
Proof.
  induction s as [|c s IH]; [reflexivity|].
  simpl. destruct (Ascii.eqb c nl) eqn:Hc.
  - simpl. exact IH.
  - destruct (split nl s) as [|l ls]; unfold no_nl in *;
      cbn [forallb all_chars] in *; rewrite Hc; [reflexivity|exact IH].
Qed.

Lemma split_not_nil sep s : split sep s <> [].
Proof.
  destruct s as [|c s]; simpl; [discriminate|].
  destruct (Ascii.eqb c sep); [discriminate|].
  destruct (split sep s); discriminate.
Qed.

Lemma edit_lines_length n ls : forall i, length (edit_lines n i ls) = length ls.
Proof.
  induction ls as [|l ls IH]; intros i; [reflexivity|].
  simpl. now rewrite IH.
Qed.

Lemma edit_lines_no_nl n ls : forall i,
  forallb no_nl ls = true -> forallb no_nl (edit_lines n i ls) = true.
Proof.
  induction ls as [|l ls IH]; intros i H; [reflexivity|].
  simpl in H. apply andb_prop in H as [Hl Hls].
  simpl. rewrite (IH _ Hls), andb_true_r.
  unfold edit_line. destruct (expected_key i); [now apply no_nl_sub|exact Hl].
Qed.

Lemma edit_lines_lookup n ls : forall i j,
  edit_lines n i ls !! j = edit_line n (i + j) <$> ls !! j.
Proof.
  induction ls as [|l ls IH]; intros i j; [reflexivity|].
  destruct j as [|j]; simpl.
  - now rewrite Nat.add_0_r.
  - rewrite IH. now rewrite Nat.add_succ_r.
Qed.

Lemma edit_lines_from_7 n ls : forall i,
  (7 <= i)%nat -> edit_lines n i ls = map (sub_add_size "start=" n) ls.
Proof.
  induction ls as [|l ls IH]; intros i Hi; [reflexivity|].
  simpl. rewrite IH by lia. f_equal.
  unfold edit_line, expected_key.
  destruct (Nat.ltb_spec i 6); [lia|].
  now destruct (Nat.eqb_spec i 6); [lia|].
Qed.

(** The two loops of the rewriter, line by line. *)
Lemma rewrite_layout_by_lines stdout n :
  rewrite_layout stdout n
  = (if Nat.ltb (length (split nl (strip stdout))) 7 then Raise IndexError
     else Ok (join NL (edit_lines n 0 (split nl (strip stdout))))).
Proof.
  unfold rewrite_layout.
  destruct (split nl (strip stdout))
    as [|l0 [|l1 [|l2 [|l3 [|l4 [|l5 [|l6 rest]]]]]]]; try reflexivity.
  cbn [lookup list_lookup insert list_insert].
  change (l0 :: l1 :: l2 :: l3 :: l4 :: l5 :: sub_add_size "size=" n l6 :: rest)
    with ([l0; l1; l2; l3; l4; l5; sub_add_size "size=" n l6] ++ rest)%list.
  change 7%nat with (length [l0; l1; l2; l3; l4; l5; sub_add_size "size=" n l6]) at 1.
  rewrite shift_from_app.
  cbn [edit_lines]. rewrite edit_lines_from_7 by lia. reflexivity.
Qed.

(** X2: whatever [sfdisk] printed, when the rewriter returns a text, that
    text has as many lines as the stripped input, its lines are the input
    lines edited one by one, and its first six lines are the first six input
    lines, unchanged. *)
Theorem rewrite_layout_keeps_lines (stdout : string) (n : Z) (out : string) :
  rewrite_layout stdout n = Ok out ->
  split nl out = edit_lines n 0 (split nl (strip stdout))
  /\ length (split nl out) = length (split nl (strip stdout))
  /\ forall i, (i < 6)%nat -> split nl out !! i = split nl (strip stdout) !! i.
Proof.
  rewrite rewrite_layout_by_lines.
  destruct (Nat.ltb _ 7); [discriminate|]. intros [= <-].
  assert (Hs : split nl (join NL (edit_lines n 0 (split nl (strip stdout))))
               = edit_lines n 0 (split nl (strip stdout))).
  { apply split_join.
    - intros H. apply (f_equal (@length _)) in H.
      rewrite edit_lines_length in H.
      destruct (split nl (strip stdout)) eqn:E; [now apply split_not_nil in E|discriminate].
    - apply edit_lines_no_nl, split_no_nl. }
  rewrite Hs. split; [reflexivity|]. split; [apply edit_lines_length|].
  intros i Hi. rewrite edit_lines_lookup.
  destruct (split nl (strip stdout) !! i) as [l|]; [|reflexivity].
  simpl. unfold edit_line, expected_key.
  now destruct (Nat.ltb_spec i 6); [|lia].
Qed.

Lemma rewrite_layout_keeps_lines_witness :
  let stdout := LayoutExamples.malformed_stdout in
  let out := strip LayoutExamples.malformed_stdout in
  rewrite_layout stdout 4096 = Ok out
  /\ split nl out = edit_lines 4096 0 (split nl (strip stdout))
  /\ length (split nl out) = length (split nl (strip stdout))
  /\ forall i, (i < 6)%nat -> split nl out !! i = split nl (strip stdout) !! i.
Proof.
  intros stdout out.
  assert (H : rewrite_layout stdout 4096 = Ok out) by (vm_compute; reflexivity).
  split; [exact H|]. exact (rewrite_layout_keeps_lines stdout 4096 out H).
Defined.

End RewriterFacts.

Module RewriterClosure.
Import Text TextFacts Layout LayoutFacts SubstitutionFacts RewriterFacts Occurrence.

(** A key without digits cannot start on a digit, nor run over one: whether
    it is a prefix of a text does not depend on the digits of a number in
    that text. *)
Lemma strip_prefix_digit_blind key : forall X d D d' D' Y,
  all_chars not_digit key = true ->
  isdigit d = true -> isdigit d' = true ->
  found (strip_prefix key (X ++ String d D ++ Y))
  = found (strip_prefix key (X ++ String d' D' ++ Y)).
Proof.
  induction key as [|a key IH]; intros X d D d' D' Y Hk Hd Hd'.
  - simpl. now destruct (X ++ String d D ++ Y), (X ++ String d' D' ++ Y).
  - simpl in Hk. apply andb_prop in Hk as [Ha Hk].
    assert (Hne : forall x, isdigit x = true -> Ascii.eqb a x = false).
    { intros x Hx. destruct (Ascii.eqb_spec a x) as [->|]; [|reflexivity].
      unfold not_digit in Ha. now rewrite Hx in Ha. }
    destruct X as [|c X].
    + rewrite !sapp_nil_l, !sapp_cons. simpl.
      now rewrite (Hne d Hd), (Hne d' Hd').
    + rewrite !sapp_cons. simpl. destruct (Ascii.eqb a c); [|reflexivity].
      now apply IH.
Qed.

Lemma contains_unfold key c s :
  contains key (String c s) = found (strip_prefix key (String c s)) || contains key s.
Proof. simpl. now destruct (strip_prefix key (String c s)). Qed.

Lemma contains_skip_digits a key D Y :
  isdigit a = false -> all_chars isdigit D = true ->
  contains (String a key) (D ++ Y) = contains (String a key) Y.
Proof.
  intros Ha. induction D as [|d D IH]; intros HD; [reflexivity|].
  simpl in HD. apply andb_prop in HD as [Hd HD].
  rewrite sapp_cons, contains_unfold, (IH HD). simpl.
  destruct (Ascii.eqb_spec a d) as [->|]; [congruence|reflexivity].
Qed.

(** Whether a key without digits occurs in a text does not depend on the
    digits of a number in that text. *)
Lemma contains_digit_blind a key X D D' Y :
  all_chars not_digit (String a key) = true ->
  all_chars isdigit D = true -> is_empty D = false ->
  all_chars isdigit D' = true -> is_empty D' = false ->
  contains (String a key) (X ++ D ++ Y) = contains (String a key) (X ++ D' ++ Y).
Proof.
  intros Hk HD HDe HD' HDe'.
  assert (Ha : isdigit a = false).
  { simpl in Hk. apply andb_prop in Hk as [Ha _]. now apply negb_true_iff in Ha. }
  induction X as [|c X IH].
  - rewrite !sapp_nil_l. now rewrite !contains_skip_digits.
  - rewrite !sapp_cons, !contains_unfold, IH. f_equal.
    destruct D as [|d D]; [discriminate|]. destruct D' as [|d' D']; [discriminate|].
    simpl in HD, HD'. apply andb_prop in HD as [Hd _]. apply andb_prop in HD' as [Hd' _].
    change (String c (X ++ String d D ++ Y)) with (String c X ++ String d D ++ Y).
    change (String c (X ++ String d' D' ++ Y)) with (String c X ++ String d' D' ++ Y).
    now apply strip_prefix_digit_blind.
Qed.

Lemma valid_entry_shift n e :
  0 <= n -> valid_entry e = true -> valid_entry (shift n e) = true.
Proof.
  intros Hn. unfold valid_entry.
  change (after_start (shift n e)) with (after_start e).
  cbn [head start_pad start mid size_pad size tail shift].
  rewrite !andb_true_iff, !Z.leb_le. intuition lia.
Qed.

Lemma valid_entry_grow n e :
  0 <= n -> valid_entry e = true -> valid_entry (grow n e) = true.
Proof.
  intros Hn. unfold valid_entry, after_start.
  cbn [head start_pad start mid size_pad size tail grow].
  rewrite !andb_true_iff, !negb_true_iff, !Z.leb_le.
  intros ((((((((Hh & Hsp) & Hst) & Hm) & Hzp) & Hsz) & Ht) & Hafter) & Htail).
  repeat split; try assumption; try lia.
  destruct (digits_spec (size e) Hsz) as (_ & Hd & Hne).
  destruct (digits_spec (size e + n) ltac:(lia)) as (_ & Hd' & Hne').
  rewrite str_of_int_nonneg in Hafter |- * by lia.
  rewrite <- !(sapp_assoc (mid e)), <- !(sapp_assoc (mid e ++ "size=")) in Hafter |- *.
  etransitivity; [|exact Hafter].
  apply (contains_digit_blind "s" "tart="); try assumption. reflexivity.
Qed.

Lemma valid_rewrite_from g n es : forall idx,
  0 <= n -> forallb valid_entry es = true ->
  forallb valid_entry (rewrite_from idx g n es) = true.
Proof.
  induction es as [|e es IH]; intros idx Hn H; [reflexivity|].
  simpl in H. apply andb_prop in H as [He Hes].
  simpl. rewrite (IH _ Hn Hes), andb_true_r.
  destruct (Nat.eqb idx g); [now apply valid_entry_grow|].
  destruct (Nat.ltb g idx); [now apply valid_entry_shift|exact He].
Qed.

Lemma rewrite_from_length g n es : forall idx,
  length (rewrite_from idx g n es) = length es.
Proof. induction es as [|e es IH]; intros idx; [reflexivity|]. simpl. now rewrite IH. Qed.

Lemma rewrite_from_snoc g n es e : forall idx,
  exists e', rewrite_from idx g n (es ++ [e])%list
             = (rewrite_from idx g n es ++ [e'])%list
             /\ tail e' = tail e.
Proof.
  induction es as [|e0 es IH]; intros idx.
  - simpl. eexists. split; [reflexivity|].
    destruct (Nat.eqb idx g); [reflexivity|]. now destruct (Nat.ltb g idx).
  - destruct (IH (S idx)) as (e' & Heq & Ht). exists e'. split; [|exact Ht].
    simpl. now rewrite Heq.
Qed.

Lemma ends_clean_app s t : is_empty t = false -> ends_clean (s ++ t) = ends_clean t.
Proof.
  intros Ht. induction s as [|c s IH]; [reflexivity|].
  rewrite sapp_cons. simpl. now rewrite is_empty_app, Ht, andb_false_r.
Qed.

Lemma join_last pre x : exists P, join NL (pre ++ [x])%list = P ++ x.
Proof.
  induction pre as [|l pre IH].
  - now exists EmptyString.
  - destruct IH as (P & HP). exists (l ++ NL ++ P).
    change ((l :: pre) ++ [x])%list with (l :: (pre ++ [x]))%list.
    destruct (pre ++ [x])%list as [|y ys] eqn:E.
    + now destruct pre.
    + change (join NL (l :: y :: ys)) with (l ++ NL ++ join NL (y :: ys)).
      now rewrite HP, !sapp_assoc.
Qed.

Lemma ends_clean_last_entry pre e :
  ends_clean (join NL (pre ++ [render e])%list) = ends_clean (String "," (tail e)).
Proof.
  destruct (join_last pre (render e)) as (P & ->).
  unfold render, after_start.
  rewrite <- !sapp_assoc. rewrite (sapp_assoc _ "," (tail e)).
  now apply ends_clean_app.
Qed.

Lemma starts_clean_first_line h rest rest' :
  rest <> [] -> rest' <> [] ->
  starts_clean (join NL (h :: rest)) = starts_clean (join NL (h :: rest')).
Proof.
  intros Hr Hr'. destruct rest as [|r rs]; [congruence|].
  destruct rest' as [|r' rs']; [congruence|].
  change (join NL (h :: r :: rs)) with (h ++ NL ++ join NL (r :: rs)).
  change (join NL (h :: r' :: rs')) with (h ++ NL ++ join NL (r' :: rs')).
  now destruct h.
Qed.

Lemma grow_grow a b e : grow b (grow a e) = grow (a + b) e.
Proof. unfold grow. cbn. now rewrite Z.add_assoc. Qed.

Lemma shift_shift a b e : shift b (shift a e) = shift (a + b) e.
Proof. unfold shift. cbn. now rewrite Z.add_assoc. Qed.

Lemma rewrite_from_twice g a b es : forall idx,
  rewrite_from idx g b (rewrite_from idx g a es) = rewrite_from idx g (a + b) es.
Proof.
  induction es as [|e es IH]; intros idx; [reflexivity|].
  simpl. rewrite IH. f_equal.
  destruct (Nat.eqb idx g); [apply grow_grow|].
  destruct (Nat.ltb g idx); [apply shift_shift|reflexivity].
Qed.

Lemma rewrite_from_zero g es : forall idx, rewrite_from idx g 0 es = es.
Proof.
  induction es as [|e es IH]; intros idx; [reflexivity|].
  simpl. rewrite IH. f_equal.
  destruct e as [h sp st m zp sz t].
  destruct (Nat.eqb idx g); [|destruct (Nat.ltb g idx)];
    unfold grow, shift; cbn; now rewrite ?Z.add_0_r.
Qed.

(** The rewrite of a valid dump is a valid dump. *)
Lemma valid_spec_rewrite g n d :
  valid_description d = true ->
  header d <> [] -> entries d <> [] ->
  0 <= n ->
  valid_description (spec_rewrite g n d) = true.
Proof.
  intros Hvalid Hhdr Hes Hn.
  unfold valid_description in *. rewrite !andb_true_iff in *.
  destruct Hvalid as (((Hh & He) & Hs) & Hc).
  destruct d as [hdr es]. unfold spec_rewrite.
  unfold render_description in *. cbn [header entries] in *.
  repeat split.
  - exact Hh.
  - now apply valid_rewrite_from.
  - rewrite <- Hs. destruct hdr as [|h hdr]; [congruence|].
    rewrite <- !app_comm_cons. apply starts_clean_first_line.
    + destruct es; [congruence|]. simpl. intros [_ [=]]%app_eq_nil.
    + destruct es; [congruence|]. intros [_ [=]]%app_eq_nil.
  - destruct (exists_last Hes) as (es0 & e & Heq). subst es.
    destruct (rewrite_from_snoc g n es0 e 1) as (e' & Hrw & Ht).
    unfold spec_rewrite. cbn [header entries]. rewrite Hrw.
    rewrite map_app, List.app_assoc in Hc |- *. cbn [map] in Hc |- *.
    rewrite ends_clean_last_entry in Hc |- *. now rewrite Ht.
Qed.

(** The two loops on a valid dump with a header of five lines. *)
Lemma rewrite_layout_on_valid_dump d n :
  valid_description d = true ->
  length (header d) = 5%nat ->
  (2 <= length (entries d))%nat ->
  0 <= n ->
  rewrite_layout (dump d) n = Ok (render_description (spec_rewrite 2 n d)).
Proof.
  intros Hvalid Hhdr Hlen Hn.
  unfold valid_description in Hvalid. rewrite !andb_true_iff in Hvalid.
  destruct Hvalid as (((Hh & He) & Hs) & Hc).
  pose proof (no_nl_lines d Hh He) as Hlines.
  rewrite rewrite_layout_by_lines. unfold dump. rewrite (strip_dump _ Hs Hc).
  unfold render_description in *.
  destruct d as [hdr es]. cbn [header entries spec_rewrite] in *.
  destruct hdr as [|h0 [|h1 [|h2 [|h3 [|h4 [|h5 hdr]]]]]]; try discriminate.
  destruct es as [|e1 [|e2 es]]; simpl in Hlen; try lia.
  rewrite split_join; [|discriminate|exact Hlines].
  simpl in He. apply andb_prop in He as [He1 He]. apply andb_prop in He as [He2 He].
  cbn [app map length Nat.ltb Nat.leb edit_lines].
  rewrite edit_lines_from_7 by lia.
  unfold edit_line. cbn [expected_key Nat.ltb Nat.leb Nat.eqb].
  rewrite (sub_size_render n e2 He2).
  cbn [rewrite_from Nat.eqb Nat.ltb Nat.leb].
  rewrite rewrite_from_later by lia.
  cbn [app map]. rewrite !map_map.
  rewrite (forallb_map_ext valid_entry
             (fun x => sub_add_size "start=" n (render x))
             (fun x => render (shift n x)) es He); [reflexivity|].
  intros e. apply sub_start_render.
Qed.

(** X3: the rewriter maps valid dumps to valid dumps.  For a valid dump with a
    header of five lines and at least two partitions, and for [0 <= n], the
    text it returns, ended by a newline, is the dump of a valid description
    with the same header and as many partitions. *)
Theorem rewrite_layout_returns_a_valid_dump (d : description) (n : Z) :
  valid_description d = true ->
  length (header d) = 5%nat ->
  (2 <= length (entries d))%nat ->
  0 <= n ->
  exists d',
    rewrite_layout (dump d) n = Ok (render_description d')
    /\ valid_description d' = true
    /\ header d' = header d
    /\ length (entries d') = length (entries d).
Proof.
  intros Hvalid Hhdr Hlen Hn. exists (spec_rewrite 2 n d).
  split; [now apply rewrite_layout_on_valid_dump|].
  split; [|split; [reflexivity|apply rewrite_from_length]].
  apply valid_spec_rewrite; try assumption.
  - destruct (header d); [discriminate|congruence].
  - destruct (entries d); [simpl in Hlen; lia|congruence].
Qed.

Lemma rewrite_layout_returns_a_valid_dump_witness :
  exists d',
    rewrite_layout (dump LayoutExamples.resin_dump) 4096 = Ok (render_description d')
    /\ valid_description d' = true
    /\ header d' = header LayoutExamples.resin_dump
    /\ length (entries d') = length (entries LayoutExamples.resin_dump).
Proof.
  apply rewrite_layout_returns_a_valid_dump;
    [reflexivity | reflexivity | simpl; lia | lia].
Defined.

(** X4: rewrites compose, and adding no sector changes nothing.  On a valid
    dump with a header of five lines and at least two partitions, rewriting
    by [a] sectors and then rewriting the result (as [sfdisk] would print it,
    ended by a newline) by [b] sectors gives the same text as rewriting once
    by [a + b] sectors; and rewriting by 0 sectors returns the text of the
    dump, without its final newline. *)
Theorem rewrite_layout_composes (d : description) (a b : Z) :
  valid_description d = true ->
  length (header d) = 5%nat ->
  (2 <= length (entries d))%nat ->
  0 <= a -> 0 <= b ->
  (exists out,
      rewrite_layout (dump d) a = Ok out
      /\ rewrite_layout (out ++ NL) b = rewrite_layout (dump d) (a + b))
  /\ rewrite_layout (dump d) 0 = Ok (render_description d).
Proof.
  intros Hvalid Hhdr Hlen Ha Hb. split.
  - exists (render_description (spec_rewrite 2 a d)).
    split; [now apply rewrite_layout_on_valid_dump|].
    change (render_description (spec_rewrite 2 a d) ++ NL)
      with (dump (spec_rewrite 2 a d)).
    assert (Hv : valid_description (spec_rewrite 2 a d) = true).
    { apply valid_spec_rewrite; try assumption.
      - destruct (header d); [discriminate|congruence].
      - destruct (entries d); [simpl in Hlen; lia|congruence]. }
    assert (Hl : (2 <= length (entries (spec_rewrite 2 a d)))%nat).
    { unfold spec_rewrite. cbn [entries]. now rewrite rewrite_from_length. }
    rewrite (rewrite_layout_on_valid_dump (spec_rewrite 2 a d) b Hv Hhdr Hl Hb).
    rewrite (rewrite_layout_on_valid_dump d (a + b) Hvalid Hhdr Hlen ltac:(lia)).
    unfold spec_rewrite. cbn [header entries]. now rewrite rewrite_from_twice.
  - rewrite rewrite_layout_on_valid_dump by (try assumption; lia).
    unfold spec_rewrite. rewrite rewrite_from_zero. now destruct d.
Qed.

Lemma rewrite_layout_composes_witness :
  (exists out,
      rewrite_layout (dump LayoutExamples.resin_dump) 4096 = Ok out
      /\ rewrite_layout (out ++ NL) 2048
         = rewrite_layout (dump LayoutExamples.resin_dump) (4096 + 2048))
  /\ rewrite_layout (dump LayoutExamples.resin_dump) 0
     = Ok (render_description LayoutExamples.resin_dump).
Proof.
  apply rewrite_layout_composes;
    [reflexivity | reflexivity | simpl; lia | lia | lia].
Defined.

End RewriterClosure.

(** ** Reading the partition table that [parted] prints *)

Module PartedFacts.
Import Text TextFacts Run RunFacts Preload Parted.

Lemma all_digits_no_space s :
  all_chars isdigit s = true -> all_chars (fun c => negb (isspace c)) s = true.
Proof.
  apply LayoutFacts.all_chars_impl. intros c. clear.
  destruct c as [[] [] [] [] [] [] [] []]; vm_compute; congruence.
Qed.

Lemma lstrip_no_space s :
  all_chars (fun c => negb (isspace c)) s = true -> lstrip_by isspace s = s.
Proof.
  destruct s as [|c s]; [reflexivity|]. simpl.
  intros [Hc _]%andb_prop. apply negb_true_iff in Hc. now rewrite Hc.
Qed.

Lemma rstrip_no_space s :
  all_chars (fun c => negb (isspace c)) s = true -> rstrip_by isspace s = s.
Proof.
  induction s as [|c s IH]; [reflexivity|]. simpl.
  intros [Hc Hs]%andb_prop. apply negb_true_iff in Hc.
  now rewrite (IH Hs), Hc, andb_false_r.
Qed.

Lemma strip_no_space s :
  all_chars (fun c => negb (isspace c)) s = true -> strip s = s.
Proof.
  intros H. unfold strip. now rewrite (lstrip_no_space s H), (rstrip_no_space s H).
Qed.

Lemma int_body_digits s : all_chars isdigit s = true -> int_body true s = true.
Proof.
  induction s as [|c s IH]; [reflexivity|]. simpl.
  intros [Hc Hs]%andb_prop. now rewrite Hc, IH.
Qed.

Lemma remove_underscore_digits s :
  all_chars isdigit s = true -> remove_char "_" s = s.
Proof.
  induction s as [|c s IH]; [reflexivity|]. simpl.
  intros [Hc Hs]%andb_prop. rewrite (IH Hs).
  destruct (Ascii.eqb_spec c "_") as [->|]; [discriminate|reflexivity].
Qed.

Lemma sign_of_digit d s :
  isdigit d = true ->
  match String d s with
  | String "-" r => (true, r)
  | String "+" r => (false, r)
  | _ => (false, String d s)
  end = (false, String d s).
Proof.
  intros Hd.
  destruct d as [[] [] [] [] [] [] [] []]; try reflexivity;
    vm_compute in Hd; discriminate.
Qed.

Lemma py_int_digits s :
  all_chars isdigit s = true -> is_empty s = false ->
  py_int s = Ok (int_of_digits s).
Proof.
  intros Hd Hne. unfold py_int.
  rewrite (strip_no_space s (all_digits_no_space s Hd)).
  destruct s as [|d s]; [discriminate|].
  pose proof Hd as Hd0. simpl in Hd0. apply andb_prop in Hd0 as [Hd0 Hs].
  rewrite (sign_of_digit d s Hd0).
  assert (Hbody : int_body false (String d s) = true).
  { simpl. rewrite Hd0. now apply int_body_digits. }
  now rewrite Hbody, (remove_underscore_digits _ Hd).
Qed.

(** [int(str(n)) == n] *)
Lemma py_int_str_of_int n : py_int (str_of_int n) = Ok n.
Proof.
  destruct (Z.ltb_spec n 0) as [Hneg|Hpos].
  - unfold str_of_int. destruct (Z.ltb_spec n 0) as [_|?]; [|lia].
    destruct (digits_spec (- n) ltac:(lia)) as (Hi & Hd & Hne).
    unfold py_int.
    rewrite strip_no_space by (simpl; now apply all_digits_no_space).
    cbn iota.
    destruct (digits (- n)) as [|d ds] eqn:E; [discriminate|].
    pose proof Hd as Hd0. simpl in Hd0. apply andb_prop in Hd0 as [Hd0 Hs].
    assert (Hbody : int_body false (String d ds) = true).
    { simpl. rewrite Hd0. now apply int_body_digits. }
    rewrite Hbody, (remove_underscore_digits _ Hd). 
    unfold int_of_digits in *. rewrite Hi. f_equal. lia.
  - rewrite str_of_int_nonneg by assumption.
    destruct (digits_spec n Hpos) as (Hi & Hd & Hne).
    now rewrite py_int_digits, Hi.
Qed.

Lemma split_app_sep sep l r :
  all_chars (not_char sep) l = true ->
  split sep (l ++ String sep r) = l :: split sep r.
Proof.
  induction l as [|c l IH]; intros Hl.
  - simpl. now rewrite Ascii.eqb_refl.
  - simpl in Hl. apply andb_prop in Hl as [Hc Hl]. apply negb_true_iff in Hc.
    rewrite sapp_cons. simpl. now rewrite Hc, (IH Hl).
Qed.

Lemma no_colon_str_of_int n : all_chars (not_char ":") (str_of_int n) = true.
Proof.
  assert (H : forall m, 0 <= m -> all_chars (not_char ":") (digits m) = true).
  { intros m Hm. destruct (digits_spec m Hm) as (_ & Hd & _). revert Hd.
    apply LayoutFacts.all_chars_impl. intros c. clear.
    destruct c as [[] [] [] [] [] [] [] []]; vm_compute; congruence. }
  unfold str_of_int. destruct (Z.ltb_spec n 0).
  - simpl. apply H. lia.
  - now apply H.
Qed.

Lemma no_colon_field u n :
  u <> ":"%char -> all_chars (not_char ":") (field u n) = true.
Proof.
  intros Hu. unfold field. apply all_chars_app; [apply no_colon_str_of_int|].
  simpl. unfold not_char. now destruct (Ascii.eqb_spec u ":").
Qed.

Lemma drop_last_snoc s c : drop_last (s ++ String c EmptyString) = s.
Proof.
  induction s as [|a s IH]; [reflexivity|].
  rewrite sapp_cons. simpl. rewrite IH. now destruct s.
Qed.

Lemma py_index_lookup {A} (l : list A) (k : nat) (x : A) :
  l !! k = Some x -> py_index l (Z.of_nat k) = Ok x.
Proof.
  intros Hk. pose proof (lookup_lt_Some _ _ _ Hk) as Hlt.
  unfold py_index.
  destruct (Z.ltb_spec (Z.of_nat k) 0); [lia|].
  destruct (Z.leb_spec 0 (Z.of_nat k)); [|lia].
  destruct (Z.ltb_spec (Z.of_nat k) (Z.of_nat (length l))); [|lia].
  simpl. now rewrite Nat2Z.id, Hk.
Qed.

Lemma split_render_row u r :
  u <> ":"%char ->
  split ":" (render_row u r)
  = str_of_int (number r) :: field u (first r) :: field u (last r)
    :: field u (extent r) :: split ":" (rest r).
Proof.
  intros Hu. unfold render_row.
  rewrite !(sapp_cons ":" EmptyString), !sapp_nil_l.
  rewrite (split_app_sep ":") by apply no_colon_str_of_int.
  now rewrite !(split_app_sep ":") by now apply no_colon_field.
Qed.

Lemma parted_field_field u n data k :
  data !! k = Some (field u n) -> parted_field data (Z.of_nat k) = Ok n.
Proof.
  intros Hk. unfold parted_field. rewrite (py_index_lookup _ _ _ Hk).
  unfold field. rewrite drop_last_snoc. apply py_int_str_of_int.
Qed.

Lemma parse_parted_header hdr lines :
  forallb is_header hdr = true ->
  parse_parted (hdr ++ lines) = parse_parted lines.
Proof.
  induction hdr as [|h hdr IH]; [reflexivity|].
  simpl. intros [Hh Hhdr]%andb_prop.
  destruct h as [|c h]; [discriminate|]. simpl in Hh.
  apply negb_true_iff in Hh. now rewrite Hh, IH.
Qed.

Lemma parse_parted_rows u rows :
  u <> ":"%char ->
  Forall (fun r => 0 <= number r) rows ->
  parse_parted (map (render_row u) rows) = Ok (table rows).
Proof.
  intros Hu. induction 1 as [|r rows Hr Hrows IH]; [reflexivity|].
  cbn [map parse_parted table].
  pose proof (split_render_row u r Hu) as Hsplit.
  remember (render_row u r) as line eqn:Hline.
  assert (Hfirst : exists c rest, line = String c rest /\ str_isdigit c = true).
  { subst line. unfold render_row. rewrite str_of_int_nonneg by assumption.
    destruct (digits_spec (number r) Hr) as (_ & Hd & Hne).
    destruct (digits (number r)) as [|c ds]; [discriminate|].
    simpl in Hd. apply andb_prop in Hd as [Hc _].
    exists c. eexists. split; [reflexivity|]. unfold str_isdigit. now rewrite Hc. }
  destruct Hfirst as (c & rest & -> & Hc). rewrite Hc, Hsplit.
  rewrite (parted_field_field u (first r) _ 1) by reflexivity.
  rewrite (parted_field_field u (extent r) _ 3) by reflexivity.
  fold (table rows). unfold table in IH |- *. now rewrite IH.
Qed.

End PartedFacts.

Module PartedTheorems.
Import Text TextFacts Run RunFacts Preload Parted PartedFacts.

Lemma get_offsets_and_sizes_run image unit w st :
  fst (exec_reply w (length (trace st)) (parted_print image unit)) = 0 ->
  get_offsets_and_sizes image unit w st
  = lift (parse_parted
            (split nl (strip (snd (exec_reply w (length (trace st))
                                     (parted_print image unit))))))
         w (record (Exec (parted_print image unit) 0) st).
Proof.
  intros Hcode. unfold get_offsets_and_sizes.
  rewrite run_bind, run_sh_ok, Hcode. reflexivity.
Qed.

Lemma forallb_Forall_number rows :
  forallb (fun r => 0 <=? number r) rows = true ->
  Forall (fun r => 0 <= number r) rows.
Proof.
  induction rows as [|r rows IH]; [constructor|].
  simpl. intros [Hr Hrows]%andb_prop. constructor; [now apply Z.leb_le|now apply IH].
Qed.

(** X5: reading back what [parted] prints.  When [parted -s -m IMAGE unit U p]
    exits with 0 and its output, stripped, is some header lines that do not
    start with a digit followed by the partition lines
    [number:startU:endU:sizeU:...] of a table, [get_offsets_and_sizes]
    returns the start and the size of every row, in order, having run that one
    command. *)
Theorem get_offsets_and_sizes_reads_table
    (w : world) (st : state) (image : string) (u : ascii)
    (hdr : list string) (rows : list row) :
  let cmd := parted_print image (String u EmptyString) in
  fst (exec_reply w (length (trace st)) cmd) = 0 ->
  split nl (strip (snd (exec_reply w (length (trace st)) cmd)))
    = (hdr ++ map (render_row u) rows)%list ->
  forallb is_header hdr = true ->
  forallb (fun r => 0 <=? number r) rows = true ->
  Ascii.eqb u ":" = false ->
  get_offsets_and_sizes image (String u EmptyString) w st
  = (record (Exec cmd 0) st, Return (table rows)).
Proof.
  intros cmd Hcode Hout Hhdr Hrows Hu.
  rewrite get_offsets_and_sizes_run by exact Hcode. fold cmd. rewrite Hout.
  rewrite parse_parted_header by exact Hhdr.
  rewrite (parse_parted_rows u rows).
  - reflexivity.
  - intros ->. discriminate.
  - now apply forallb_Forall_number.
Qed.

Lemma get_offsets_and_sizes_reads_table_witness :
  get_offsets_and_sizes "/img/resin.img" "s"
    (Demo.world_of 0 0 (Demo.os_release "2.3.0")) Demo.start
  = (record (Exec (parted_print "/img/resin.img" "s") 0) Demo.start,
     Return (table [Row 1 8192 90111 81920 "fat16::boot, lba;";
                    Row 2 90112 729087 638976 "ext4::;";
                    Row 3 729088 1368063 638976 "ext4::;";
                    Row 4 1368064 3368063 2000000 "::lba;";
                    Row 5 1376256 1417215 40960 "ext4::;";
                    Row 6 1425408 3368063 1942656 "ext4::;"])).
Proof.
  apply (get_offsets_and_sizes_reads_table _ _ _ "s"
           ["BYT;"; "/img/resin.img:3368064s:file:512:512:msdos::;"]);
    vm_compute; reflexivity.
Defined.

Lemma parse_parted_empty_line pre post :
  exists e, parse_parted (pre ++ EmptyString :: post) = Raise e.
Proof.
  induction pre as [|l pre (e & IH)]; [now exists IndexError|].
  rewrite <- app_comm_cons. cbn [parse_parted]. rewrite IH.
  destruct l as [|c l]; [now exists IndexError|].
  destruct (str_isdigit c); [|now exists e].
  destruct (parted_field _ 1) as [?|e1]; [|now exists e1].
  destruct (parted_field _ 3) as [?|e3]; [|now exists e3].
  now exists e.
Qed.

(** X6: an empty line is fatal.  When [parted] exits with 0 and its stripped
    output has an empty line, [get_offsets_and_sizes] raises instead of
    returning a table, because [line[0]] is evaluated on every line; when the
    output is blank altogether the exception is [IndexError]. *)
Theorem get_offsets_and_sizes_empty_line
    (w : world) (st : state) (image unit : string) :
  let cmd := parted_print image unit in
  let out := snd (exec_reply w (length (trace st)) cmd) in
  fst (exec_reply w (length (trace st)) cmd) = 0 ->
  In EmptyString (split nl (strip out)) ->
  exists e,
    get_offsets_and_sizes image unit w st = (record (Exec cmd 0) st, Raised e)
    /\ (strip out = EmptyString -> e = IndexError).
Proof.
  intros cmd out Hcode Hin.
  rewrite get_offsets_and_sizes_run by exact Hcode. fold cmd out.
  destruct (in_split _ _ Hin) as (pre & post & Hsplit).
  destruct (parse_parted_empty_line pre post) as (e & He).
  exists e. rewrite Hsplit, He. split; [reflexivity|].
  intros Hblank. rewrite Hblank in Hsplit. simpl in Hsplit.
  destruct pre as [|? [|? ?]]; try discriminate.
  simpl in He. congruence.
Qed.

Lemma get_offsets_and_sizes_empty_line_witness :
  exists e,
    get_offsets_and_sizes "/img/resin.img" "B" Demo.slow_daemon
      (record (Mkdtemp "/tmp/x") Demo.idle)
    = (record (Exec (parted_print "/img/resin.img" "B") 0)
         (record (Mkdtemp "/tmp/x") Demo.idle), Raised e)
    /\ (strip EmptyString = EmptyString -> e = IndexError).
Proof.
  apply (get_offsets_and_sizes_empty_line Demo.slow_daemon
           (record (Mkdtemp "/tmp/x") Demo.idle) "/img/resin.img" "B").
  - reflexivity.
  - simpl. left. reflexivity.
Defined.

(** X7: the partition number is a Python index minus one.  After a successful
    [get_offsets_and_sizes], partition [p] with [1 <= p <= len(table)] gives
    entry [p - 1]; partition 0 gives the last entry, as index [-1] counts from
    the end; a partition beyond the table raises [IndexError]. *)
Theorem get_offset_and_size_index
    (w : world) (st st' : state) (image : string) (table : list (Z * Z)) :
  get_offsets_and_sizes image "B" w st = (st', Return table) ->
  (forall p x, 1 <= p -> table !! Z.to_nat (p - 1) = Some x ->
     get_offset_and_size image p w st = (st', Return x))
  /\ (forall x, list.last table = Some x ->
        get_offset_and_size image 0 w st = (st', Return x))
  /\ (forall p, Z.of_nat (length table) < p ->
        get_offset_and_size image p w st = (st', Raised IndexError)).
Proof.
  intros Hrun. unfold get_offset_and_size.
  split; [|split].
  - intros p x Hp Hx. rewrite run_bind, Hrun.
    replace (p - 1) with (Z.of_nat (Z.to_nat (p - 1))) by lia.
    now rewrite (py_index_lookup _ _ _ Hx).
  - intros x Hlast. rewrite run_bind, Hrun.
    assert (Hpos : (0 < length table)%nat).
    { destruct table; [discriminate|simpl; lia]. }
    assert (Hx : table !! (length table - 1)%nat = Some x).
    { rewrite last_lookup in Hlast. now replace (length table - 1)%nat
        with (Nat.pred (length table)) by lia. }
    unfold py_index, lift. cbn [Z.ltb Z.compare Z.sub Z.add Z.opp].
    change (0 - 1 <? 0) with true. cbn iota.
    destruct (Z.leb_spec 0 (0 - 1 + Z.of_nat (length table))); [|lia].
    destruct (Z.ltb_spec (0 - 1 + Z.of_nat (length table)) (Z.of_nat (length table)));
      [|lia].
    cbn [andb].
    replace (Z.to_nat (0 - 1 + Z.of_nat (length table)))
      with (length table - 1)%nat by lia.
    now rewrite Hx.
  - intros p Hp. rewrite run_bind, Hrun. unfold py_index, lift.
    destruct (Z.ltb_spec (p - 1) 0); [lia|].
    destruct (Z.ltb_spec (p - 1) (Z.of_nat (length table))); [lia|].
    now rewrite andb_false_r.
Qed.

Lemma get_offset_and_size_index_witness :
  let w := Demo.world_of 0 0 (Demo.os_release "2.3.0") in
  let st' := record (Exec (parted_print "/img/resin.img" "B") 0) Demo.start in
  get_offset_and_size "/img/resin.img" 2 w Demo.start
    = (st', Return (46137344, 327155712))
  /\ get_offset_and_size "/img/resin.img" 0 w Demo.start
     = (st', Return (729808896, 994639872))
  /\ get_offset_and_size "/img/resin.img" 7 w Demo.start = (st', Raised IndexError).
Proof.
  intros w st'.
  assert (Hrun : get_offsets_and_sizes "/img/resin.img" "B" w Demo.start
                 = (st', Return [(4194304, 41943040); (46137344, 327155712);
                                 (373293056, 327155712); (700448768, 1024000000);
                                 (704643072, 20971520); (729808896, 994639872)]))
    by (vm_compute; reflexivity).
  destruct (get_offset_and_size_index _ _ _ _ _ Hrun) as (Hin & Hzero & Hout).
  split; [|split].
  - apply Hin; [lia|reflexivity].
  - apply Hzero. reflexivity.
  - apply Hout. simpl. lia.
Defined.

End PartedTheorems.

(** ** The version lookup of [get_resin_os_version] *)

Module OsReleaseFacts.
Import Text TextFacts Run RunFacts Preload OsRelease.

Lemma find_version_skip pre lines :
  forallb other_key pre = true ->
  find_version (pre ++ lines) = find_version lines.
Proof.
  induction pre as [|l pre IH]; [reflexivity|].
  simpl. intros [Hl Hpre]%andb_prop. unfold other_key in Hl.
  destruct (split_once "=" l) as [[key value]|]; [|discriminate].
  apply negb_true_iff in Hl. now rewrite Hl, IH.
Qed.

Lemma lstrip_app_kept p v t :
  lstrip_by p v = v ->
  lstrip_by p (v ++ t) = if is_empty v then lstrip_by p t else v ++ t.
Proof.
  destruct v as [|c v]; [reflexivity|].
  rewrite sapp_cons. simpl. destruct (p c) eqn:Hc; [|reflexivity].
  intros H. exfalso.
  assert (Hlen : forall s, (String.length (lstrip_by p s) <= String.length s)%nat).
  { clear. induction s as [|a s IH]; [reflexivity|]. simpl.
    destruct (p a); simpl; lia. }
  pose proof (Hlen v) as Hv. rewrite H in Hv. simpl in Hv. lia.
Qed.

Lemma rstrip_app_all p s t :
  all_chars p t = true -> rstrip_by p (s ++ t) = rstrip_by p s.
Proof.
  intros Ht.
  assert (Hall : rstrip_by p t = EmptyString).
  { induction t as [|c t IH]; [reflexivity|]. simpl in Ht |- *.
    apply andb_prop in Ht as [Hc Ht]. now rewrite (IH Ht), Hc. }
  induction s as [|c s IH]; [exact Hall|].
  rewrite sapp_cons. simpl. now rewrite IH.
Qed.

(** [value.strip] gives back a version written between double quotes. *)
Lemma strip_quoted version :
  lstrip_by quote_or_nl version = version ->
  rstrip_by quote_or_nl version = version ->
  strip_chars quote_or_nl (String dquote version ++ String dquote NL) = version.
Proof.
  intros Hl Hr. unfold strip_chars.
  rewrite sapp_cons. cbn [lstrip_by]. change (quote_or_nl dquote) with true. cbn iota.
  rewrite (lstrip_app_kept _ _ _ Hl).
  destruct version as [|c v]; [reflexivity|]. cbn [is_empty].
  now rewrite rstrip_app_all.
Qed.

Section Mounted.
Variables (w : world) (st s1 : state) (image m text : string).
Hypothesis mounted : mount_partition image 2 EmptyString w st = (s1, Return m).
Hypothesis readable :
  read_reply w (length (trace s1)) (path_join m "etc/os-release") = Some text.

(** The lookup once partition 2 is mounted and the file is read: a version
    or [None] goes through [umount] and [rmdir], an exception does not. *)
Lemma get_resin_os_version_run :
  get_resin_os_version image w st
  = match find_version (file_lines text) with
    | Ok v =>
        (sh "umount" [Str m] ;;; emit (Rmdir m) ;;; ret v) w
          (record (Read (path_join m "etc/os-release") (Some text)) s1)
    | Raise e =>
        (record (Read (path_join m "etc/os-release") (Some text)) s1, Raised e)
    end.
Proof.
  unfold get_resin_os_version, with_. rewrite run_bind.
  cbn [enter mount_context_manager]. rewrite mounted.
  unfold open_read. rewrite (run_bind (_ <- ask _ _ ;; _)), (run_bind (ask _ _)), run_ask.
  rewrite readable. unfold ret at 1.
  destruct (find_version (file_lines text)) as [v|e]; cbn [lift].
  - unfold ret at 1. cbn [resume mount_context_manager].
    rewrite !run_bind. destruct (sh _ _ w _) as [s2 [?|?|]]; reflexivity.
  - reflexivity.
Qed.
End Mounted.

End OsReleaseFacts.

Module OsReleaseTheorems.
Import Text TextFacts Run RunFacts Preload OsRelease OsReleaseFacts.

Lemma release_run {A} (a : A) m w s :
  fst (exec_reply w (length (trace s)) (umount m)) = 0 ->
  (sh "umount" [Str m] ;;; emit (Rmdir m) ;;; ret a) w s
  = (record (Rmdir m) (record (Exec (umount m) 0) s), Return a).
Proof.
  intros Hcode. unfold sh. rewrite run_bind, run_sh_ok. fold (umount m).
  rewrite Hcode. reflexivity.
Qed.







End OsReleaseTheorems.

(** ** Versions that cannot be compared *)

Module VersionErrors.
Import Text Run RunFacts Preload Version.

Lemma version_ge_2_type_error v t rest :
  parse v = CStr t :: rest
  \/ parse v = CInt 2 :: CStr t :: rest
  \/ parse v = CInt 2 :: CInt 0 :: CStr t :: rest ->
  version_ge_2 (Some v) = Raise TypeError.
Proof.
  intros Hp.
  destruct v as [|c v]; [destruct Hp as [|[|]]; discriminate|].
  unfold version_ge_2, ge, _cmp, LooseVersion.
  destruct Hp as [-> | [-> | ->]]; reflexivity.
Qed.

(** X11: a version with text where [2.0.0] has a number cannot be compared.
    When the version of the image starts with something that is no number
    (as in [v2.0.0]), or is [2] or [2.0] followed by text (as in [2.0-beta]),
    the comparison of [LooseVersion] raises [TypeError], and
    [resize_fs_copy_splash_image_and_pull] ends there: its only events are
    those of the version lookup. *)
Theorem resize_fs_version_not_comparable
    (w : world) (st s : state) (image v t : string) (rest : list component)
    (fuel app_data : nat) :
  get_resin_os_version image w st = (s, Return (Some v)) ->
  parse v = CStr t :: rest
  \/ parse v = CInt 2 :: CStr t :: rest
  \/ parse v = CInt 2 :: CInt 0 :: CStr t :: rest ->
  version_ge_2 (Some v) = Raise TypeError
  /\ resize_fs_copy_splash_image_and_pull fuel image app_data w st
     = (s, Raised TypeError).
Proof.
  intros Hv Hp. pose proof (version_ge_2_type_error v t rest Hp) as Hge.
  split; [exact Hge|].
  rewrite VersionTheorems.selection, run_bind, Hv, Hge. reflexivity.
Qed.

Lemma resize_fs_version_not_comparable_witness :
  version_ge_2 (Some "v2.0.0") = Raise TypeError
  /\ exists s,
       resize_fs_copy_splash_image_and_pull 5 "/img/resin.img" 0
         (Demo.world_of 0 0 (Demo.os_release "v2.0.0")) Demo.start
       = (s, Raised TypeError).
Proof.
  assert (Hv : get_resin_os_version "/img/resin.img"
                 (Demo.world_of 0 0 (Demo.os_release "v2.0.0")) Demo.start
               = (fst (get_resin_os_version "/img/resin.img"
                         (Demo.world_of 0 0 (Demo.os_release "v2.0.0")) Demo.start),
                  Return (Some "v2.0.0")))
    by (vm_compute; reflexivity).
  destruct (resize_fs_version_not_comparable _ _ _ _ "v2.0.0" "v" [CInt 2; CInt 0; CInt 0]
              5%nat 0%nat Hv) as [Hge Hrun].
  - left. reflexivity.
  - split; [exact Hge|]. eexists. exact Hrun.
Defined.

End VersionErrors.

(** ** Every run of [start_docker_daemon] that returns *)

Module DaemonFacts.
Import Text Run RunFacts Preload Daemon.

Lemma fix_rce_docker_run mountpoint w st :
  exists pre dir,
    fix_rce_docker mountpoint w st = (State (trace st ++ pre) (store st), Return dir)
    /\ (dir = mountpoint ++ "/docker" \/ dir = mountpoint ++ "/rce")
    /\ Forall (probe mountpoint) pre.
Proof.
  unfold fix_rce_docker, isdir.
  cbv beta iota zeta delta [bind ask].
  destruct (isdir_reply w (length (trace st)) (mountpoint ++ "/docker")).
  - destruct (isdir_reply w _ (mountpoint ++ "/rce"));
      cbv beta iota zeta delta [emit ret]; unfold record; cbn [trace store];
      rewrite <- !List.app_assoc; cbn [app];
      (eexists; eexists; split; [reflexivity|]; split; [now left|]);
      repeat constructor.
  - cbv beta iota zeta delta [ret]. unfold record. cbn [trace store].
    eexists. eexists. split; [reflexivity|]. split; [now right|].
    repeat constructor.
Qed.

Lemma wait_while_isfile_returns socket : forall fuel w st st',
  wait_while_isfile fuel socket w st = (st', Return tt) ->
  exists waits,
    trace st' = (trace st ++ waits ++ [IsFile socket false])%list
    /\ store st' = store st
    /\ Forall (waiting socket) waits.
Proof.
  induction fuel as [|fuel IH]; intros w st st'; cbn [wait_while_isfile].
  - discriminate.
  - unfold isfile. rewrite run_bind, run_ask.
    destruct (isfile_reply w (length (trace st)) socket).
    + unfold sh. rewrite run_bind, run_sh_ok. fold (inotifywait socket).
      destruct (existsb _ [0]) eqn:Hok; [|discriminate].
      cbn [existsb] in Hok. rewrite orb_false_r in Hok. apply Z.eqb_eq in Hok.
      rewrite Hok. intros Hrun. apply IH in Hrun as (waits & Ht & Hs & Hw).
      exists (IsFile socket true :: Exec (inotifywait socket) 0 :: waits).
      split; [|split].
      * rewrite Ht. unfold record. cbn [trace]. now rewrite <- !List.app_assoc.
      * exact Hs.
      * constructor; [now left|]. constructor; [now right|exact Hw].
    + rewrite run_ret. intros [= <-]. exists [].
      split; [reflexivity|]. split; [reflexivity|constructor].
Qed.

Lemma wait_until_ok_returns socket : forall fuel w st st',
  wait_until_ok fuel socket w st = (st', Return tt) ->
  exists queries,
    trace st' = (trace st ++ queries ++ [Exec (docker_version socket) 0])%list
    /\ store st' = store st
    /\ Forall (not_ready socket) queries.
Proof.
  induction fuel as [|fuel IH]; intros w st st'.
  - discriminate.
  - rewrite ReadinessTheorems.wait_until_ok_step. cbv zeta.
    destruct (Z.eqb_spec (Readiness.poll_code w st socket 0) 0) as [H0|H0].
    + rewrite H0. intros [= <-]. exists [].
      split; [reflexivity|]. split; [reflexivity|constructor].
    + destruct (Z.eqb_spec (Readiness.poll_code w st socket 0) 1) as [H1|H1];
        [|discriminate].
      rewrite H1. intros Hrun. apply IH in Hrun as (queries & Ht & Hs & Hq).
      exists (Exec (docker_version socket) 1 :: queries).
      split; [|split].
      * rewrite Ht. unfold record. cbn [trace]. now rewrite <- !List.app_assoc.
      * exact Hs.
      * constructor; [reflexivity|exact Hq].
Qed.

End DaemonFacts.

Module DaemonTheorems.
Import Text Run RunFacts Preload Daemon DaemonFacts.

(** X12: the shape of every run of [start_docker_daemon] that returns,
    whatever the world answers.  Its events are, in this order: the tests of
    [fix_rce_docker]; one start of [dockerd], with the storage driver it was
    given and [mountpoint/docker] or [mountpoint/rce] as its directory; the
    log record of the wait; rounds of the first loop, each ended by an
    [inotifywait] that exits with 0, and the test that finds no regular file
    at the socket path; status queries that exit with 1; one status query that
    exits with 0; and the log record [Docker started].  No dict object is
    changed. *)
Theorem start_docker_daemon_returns (fuel : nat) (driver mountpoint socket : string)
    (w : world) (st st' : state) :
  start_docker_daemon fuel driver mountpoint socket w st = (st', Return tt) ->
  exists probes dir waits queries,
    trace st'
    = (trace st ++ probes
       ++ [Spawn (dockerd driver dir socket);
           Log INFO "Waiting for Docker to start..." []]
       ++ waits ++ [IsFile socket false]
       ++ queries
       ++ [Exec (docker_version socket) 0; Log INFO "Docker started" []])%list
    /\ (dir = mountpoint ++ "/docker" \/ dir = mountpoint ++ "/rce")
    /\ Forall (probe mountpoint) probes
    /\ Forall (waiting socket) waits
    /\ Forall (not_ready socket) queries
    /\ store st' = store st.
Proof.
  unfold start_docker_daemon. rewrite run_bind.
  destruct (fix_rce_docker_run mountpoint w st) as (probes & dir & -> & Hdir & Hprobes).
  rewrite run_bind, run_emit, run_bind, run_log, run_bind.
  destruct (wait_while_isfile fuel socket w _) as [s1 [[]|e|]] eqn:Hwait;
    try discriminate.
  apply wait_while_isfile_returns in Hwait as (waits & Ht1 & Hs1 & Hwaits).
  rewrite run_bind.
  destruct (wait_until_ok fuel socket w s1) as [s2 [[]|e|]] eqn:Hpoll;
    try discriminate.
  apply wait_until_ok_returns in Hpoll as (queries & Ht2 & Hs2 & Hqueries).
  rewrite run_log. intros [= <-].
  exists probes, dir, waits, queries.
  split; [|repeat split; try assumption].
  - unfold record in *. cbn [trace store] in *. rewrite Ht2, Ht1.
    rewrite <- !List.app_assoc. reflexivity.
  - unfold record in *. cbn [trace store] in *. now rewrite Hs2, Hs1.
Qed.

Lemma start_docker_daemon_returns_witness :
  exists probes dir waits queries,
    trace (fst (start_docker_daemon 5 "aufs" "/tmp/tmpq0" "/tmp/tmpq1/docker.sock"
                  Demo.slow_daemon
                  (State [Mkdtemp "/tmp/tmpq1"; Mkdtemp "/tmp/tmpq0"] ∅)))
    = ([Mkdtemp "/tmp/tmpq1"; Mkdtemp "/tmp/tmpq0"] ++ probes
       ++ [Spawn (dockerd "aufs" dir "/tmp/tmpq1/docker.sock");
           Log INFO "Waiting for Docker to start..." []]
       ++ waits ++ [IsFile "/tmp/tmpq1/docker.sock" false]
       ++ queries
       ++ [Exec (docker_version "/tmp/tmpq1/docker.sock") 0;
           Log INFO "Docker started" []])%list
    /\ (dir = "/tmp/tmpq0" ++ "/docker" \/ dir = "/tmp/tmpq0" ++ "/rce")
    /\ Forall (probe "/tmp/tmpq0") probes
    /\ Forall (waiting "/tmp/tmpq1/docker.sock") waits
    /\ Forall (not_ready "/tmp/tmpq1/docker.sock") queries
    /\ store (fst (start_docker_daemon 5 "aufs" "/tmp/tmpq0" "/tmp/tmpq1/docker.sock"
                     Demo.slow_daemon
                     (State [Mkdtemp "/tmp/tmpq1"; Mkdtemp "/tmp/tmpq0"] ∅)))
       = ∅.
Proof.
  apply (start_docker_daemon_returns 5 "aufs" "/tmp/tmpq0" "/tmp/tmpq1/docker.sock"
           Demo.slow_daemon (State [Mkdtemp "/tmp/tmpq1"; Mkdtemp "/tmp/tmpq0"] ∅)).
  vm_compute. reflexivity.
Defined.

(** X13: a failing [inotifywait] ends the start.  When, after the daemon is
    started, the socket path is a regular file and [inotifywait] exits with a
    code other than 0 (2 is its code for a timeout), [start_docker_daemon]
    raises [ErrorReturnCode]; it makes no status query and does not log
    [Docker started]. *)
Theorem start_docker_daemon_inotifywait_fails (fuel : nat)
    (driver mountpoint socket : string) (w : world) (st s1 : state)
    (dir : string) (code : Z) :
  fix_rce_docker mountpoint w st = (s1, Return dir) ->
  isfile_reply w (length (trace s1) + 2) socket = true ->
  fst (exec_reply w (length (trace s1) + 3) (inotifywait socket)) = code ->
  code <> 0 ->
  start_docker_daemon (S fuel) driver mountpoint socket w st
  = (State (trace s1 ++ [Spawn (dockerd driver dir socket);
                         Log INFO "Waiting for Docker to start..." [];
                         IsFile socket true;
                         Exec (inotifywait socket) code])
           (store s1),
     Raised (ErrorReturnCode "inotifywait" code)).
Proof.
  intros Hfix Hfile Hcode Hne.
  unfold start_docker_daemon. rewrite run_bind, Hfix.
  rewrite run_bind, run_emit, run_bind, run_log, run_bind.
  cbn [wait_while_isfile]. unfold isfile. rewrite run_bind, run_ask.
  rewrite !record_length.
  replace (S (S (length (trace s1)))) with (length (trace s1) + 2)%nat by lia.
  rewrite Hfile. unfold sh. rewrite run_bind, run_sh_ok. fold (inotifywait socket).
  rewrite !record_length.
  replace (S (S (S (length (trace s1))))) with (length (trace s1) + 3)%nat by lia.
  rewrite Hcode. cbn [existsb]. rewrite orb_false_r.
  destruct (Z.eqb_spec code 0) as [|_]; [contradiction|].
  unfold record. cbn [trace store prog inotifywait].
  now rewrite <- !List.app_assoc.
Qed.

Lemma start_docker_daemon_inotifywait_fails_witness :
  start_docker_daemon 1 "aufs" "/mnt" "/run/docker.sock" Failing.stale_socket Demo.idle
  = (State ([IsDir "/mnt/docker" false]
            ++ [Spawn (dockerd "aufs" "/mnt/rce" "/run/docker.sock");
                Log INFO "Waiting for Docker to start..." [];
                IsFile "/run/docker.sock" true;
                Exec (inotifywait "/run/docker.sock") 2])
           ∅,
     Raised (ErrorReturnCode "inotifywait" 2)).
Proof.
  apply (start_docker_daemon_inotifywait_fails 0 "aufs" "/mnt" "/run/docker.sock"
           Failing.stale_socket Demo.idle (State [IsDir "/mnt/docker" false] ∅) "/mnt/rce" 2).
  - reflexivity.
  - reflexivity.
  - reflexivity.
  - lia.
Defined.

End DaemonTheorems.

(** ** The metadata file and the pull of the image *)

Module PullFacts.
Import Text Run RunFacts Preload Pull.

(** [write_apps_json] on a dict whose [imageRepo] is a string. *)
Lemma write_apps_json_run w st data output d repo :
  store st !! data = Some d ->
  d !! "imageRepo" = Some (VStr repo) ->
  exists sto,
    write_apps_json data output w st
    = (State (trace st ++ [JsonDump output (VList [VDict (dumped d repo)])]) sto, Return tt)
    /\ sto !! data = Some d.
Proof.
  intros Hd Hrepo.
  pose proof (is_fresh (dom (store st))) as Hfresh.
  apply not_elem_of_dom in Hfresh.
  set (l := fresh (dom (store st))) in *.
  assert (Hne : l <> data) by congruence.
  exists (<[l := dumped d repo]>
            (<[l := <["imageId" := VStr ("registry2.resin.io/" ++ repo)]> d]>
               (<[l := d]> (store st)))).
  split.
  - unfold write_apps_json, bind, dict_copy, getitem, str_add, setitem, delitem,
      json_dump_list_of, emit, record, ret, dumped. cbn [store trace]. fold l.
    rewrite Hd. cbn [store trace].
    repeat first
      [ rewrite lookup_insert_eq
      | rewrite Hrepo
      | rewrite (lookup_insert_ne d "imageId" "imageRepo") by done
      | progress cbn [store trace] ].
    reflexivity.
  - now rewrite !lookup_insert_ne.
Qed.

End PullFacts.

Module PullTheorems.
Import Text Run RunFacts Preload Pull PullFacts.

(** X14: [write_apps_json] on a dict without a usable [imageRepo].  When the
    dict has no [imageRepo], the call raises [KeyError('imageRepo')]; when
    [imageRepo] is not a string, it raises [TypeError]; in both cases nothing
    is written (the output file is not even opened) and every dict object
    that existed before the call is as it was. *)
Theorem write_apps_json_needs_imageRepo (w : world) (st : state) (data : nat)
    (output : string) (d : gmap string pyval) (e : exn) :
  store st !! data = Some d ->
  repo_error (d !! "imageRepo") = Some e ->
  exists st',
    write_apps_json data output w st = (st', Raised e)
    /\ trace st' = trace st
    /\ (forall l x, store st !! l = Some x -> store st' !! l = Some x).
Proof.
  intros Hd He.
  pose proof (is_fresh (dom (store st))) as Hfresh.
  apply not_elem_of_dom in Hfresh.
  set (l := fresh (dom (store st))) in *.
  exists (State (trace st) (<[l := d]> (store st))).
  split; [|split; [reflexivity|]].
  - unfold write_apps_json, bind, dict_copy, getitem, str_add, raise.
    cbn [store trace]. fold l. rewrite Hd. cbn [store trace].
    rewrite lookup_insert_eq.
    destruct (d !! "imageRepo") as [v|]; cbn [repo_error] in He.
    + destruct v; try discriminate He; now injection He as <-.
    + now injection He as <-.
  - intros i x Hi. cbn [store]. rewrite lookup_insert_ne; [exact Hi|congruence].
Qed.

Lemma write_apps_json_needs_imageRepo_witness :
  exists st',
    write_apps_json 0 "/mnt/apps.json" Demo.slow_daemon Failing.no_repo
    = (st', Raised (KeyError "imageRepo"))
    /\ trace st' = trace Failing.no_repo
    /\ (forall l x, store Failing.no_repo !! l = Some x -> store st' !! l = Some x).
Proof.
  apply (write_apps_json_needs_imageRepo Demo.slow_daemon Failing.no_repo 0 "/mnt/apps.json"
           (<["imageId" := VStr "registry.example.com/sensor/abc123"]> ∅)
           (KeyError "imageRepo")); reflexivity.
Defined.

Section Block.
Variables (fuel : nat) (driver mountpoint docker_sock : string) (app_data : nat).
Variables (w : world) (st s1 : state) (d : gmap string pyval) (repo : string)
          (image_id : pyval).
Hypothesis started :
  start_docker_daemon fuel driver mountpoint docker_sock w st = (s1, Return tt).
Hypothesis has_dict : store s1 !! app_data = Some d.
Hypothesis has_repo : d !! "imageRepo" = Some (VStr repo).
Hypothesis has_id : d !! "imageId" = Some image_id.

Let written : event :=
  JsonDump (mountpoint ++ "/apps.json") (VList [VDict (dumped d repo)]).

(** The block up to the exit code of [docker pull]. *)
Lemma pull_block_run :
  exists sto,
    sto !! app_data = Some d
    /\ pull_block fuel driver mountpoint docker_sock app_data w st
       = match docker_pull docker_sock image_id w (State (trace s1 ++ [written]) sto) with
         | (s2, Return tt) =>
             ((pid <- open_read "/var/run/docker.pid" ;;
               sh "kill" [Str (strip pid)] ;;; ret tt) ;;; ret tt) w s2
         | (s2, Raised e) => (s2, Raised e)
         | (s2, Spinning) => (s2, Spinning)
         end.
Proof.
  destruct (write_apps_json_run w s1 app_data (mountpoint ++ "/apps.json") d repo
              has_dict has_repo) as (sto & Hwrite & Hsto).
  exists sto. split; [exact Hsto|].
  unfold pull_block, with_. rewrite run_bind.
  cbn [enter resume docker_context_manager]. rewrite started.
  rewrite run_bind, Hwrite. fold written.
  rewrite run_bind. unfold getitem at 1. cbn [store]. rewrite Hsto, has_id.
  destruct (docker_pull docker_sock image_id w _) as [s2 [[]|e|]]; reflexivity.
Qed.

(** X15: a failed pull.  When the daemon is started and the app-data dict has
    a repository path and an image id, but [docker pull] exits with a code
    other than 0, the block raises [ErrorReturnCode]: the metadata file has
    been written already, and nothing runs after the pull: no listing of
    images, no read of the pid file, no [kill] of the daemon. *)
Theorem pull_block_pull_fails (code : Z) :
  fst (exec_reply w (length (trace s1) + 2) (docker_pull_command docker_sock image_id))
    = code ->
  code <> 0 ->
  exists sto,
    pull_block fuel driver mountpoint docker_sock app_data w st
    = (State (trace s1 ++ [written; Log INFO "Pulling image..." [];
                           Exec (docker_pull_command docker_sock image_id) code]) sto,
       Raised (ErrorReturnCode "docker" code)).
Proof.
  intros Hcode Hne.
  destruct pull_block_run as (sto & _ & ->). exists sto.
  assert (Hlen : forall evs,
            length (trace s1 ++ evs) = (length (trace s1) + length evs)%nat).
  { intros evs. now rewrite length_app. }
  unfold docker_pull, sh. rewrite run_bind, run_log, run_bind, run_sh_ok.
  fold (docker_pull_command docker_sock image_id).
  unfold record. cbn [trace store]. rewrite <- !List.app_assoc. cbn [app].
  rewrite !Hlen. cbn [length]. rewrite Hcode. cbn [existsb]. rewrite orb_false_r.
  destruct (Z.eqb_spec code 0) as [|_]; [contradiction|].
  reflexivity.
Qed.

(** X16: a successful pull.  When [docker pull] and [docker images] exit with
    0, the pid file can be read and [kill] exits with 0, the block returns;
    after the daemon start its events are the write of the metadata file, the
    pull of the image id the caller's dict holds, the listing of the images,
    the read of [/var/run/docker.pid] and the [kill] of the pid in that file,
    stripped of blanks. *)
Theorem pull_block_kills_the_daemon (pid : string) :
  let t := length (trace s1) in
  fst (exec_reply w (t + 2) (docker_pull_command docker_sock image_id)) = 0 ->
  fst (exec_reply w (t + 4) (docker_images_command docker_sock)) = 0 ->
  read_reply w (t + 5) "/var/run/docker.pid" = Some pid ->
  fst (exec_reply w (t + 6) (kill_command (strip pid))) = 0 ->
  exists sto,
    pull_block fuel driver mountpoint docker_sock app_data w st
    = (State (trace s1 ++ [written; Log INFO "Pulling image..." [];
                           Exec (docker_pull_command docker_sock image_id) 0;
                           Log INFO "Docker images loaded:" [];
                           Exec (docker_images_command docker_sock) 0;
                           Read "/var/run/docker.pid" (Some pid);
                           Exec (kill_command (strip pid)) 0]) sto,
       Return tt).
Proof.
  intros t Hpull Himages Hread Hkill.
  destruct pull_block_run as (sto & _ & ->). exists sto.
  assert (Hlen : forall evs, length (trace s1 ++ evs) = (t + length evs)%nat).
  { intros evs. now rewrite length_app. }
  unfold docker_pull, sh. rewrite run_bind, run_log, run_bind, run_sh_ok.
  fold (docker_pull_command docker_sock image_id).
  unfold record at 1 2. cbn [trace store]. rewrite <- !List.app_assoc. cbn [app].
  rewrite !Hlen. cbn [length]. rewrite Hpull. cbn [existsb Z.eqb orb].
  rewrite run_bind, run_log, run_bind, run_sh_ok.
  fold (docker_images_command docker_sock).
  unfold record. cbn [trace store]. rewrite <- !List.app_assoc. cbn [app].
  rewrite !Hlen. cbn [length]. rewrite Himages. cbn [existsb Z.eqb orb].
  rewrite run_ret.
  unfold open_read. rewrite !run_bind, run_ask. cbn [trace].
  rewrite !Hlen. cbn [length]. rewrite Hread. rewrite run_ret.
  unfold sh. rewrite run_bind, run_sh_ok. fold (kill_command (strip pid)).
  unfold record. cbn [trace store]. rewrite <- !List.app_assoc. cbn [app].
  rewrite !Hlen. cbn [length]. rewrite Hkill. cbn [existsb Z.eqb orb].
  rewrite ?Hpull, ?Himages, ?Hkill. reflexivity.
Qed.
End Block.

Lemma pull_block_pull_fails_witness :
  let s1 := fst (start_docker_daemon 5 "aufs" "/mnt" "/run/docker.sock"
                   Failing.failing_pull Demo.start) in
  let id := VStr "registry.example.com/sensor/abc123" in
  exists sto,
    pull_block 5 "aufs" "/mnt" "/run/docker.sock" 0 Failing.failing_pull Demo.start
    = (State (trace s1
              ++ [JsonDump ("/mnt" ++ "/apps.json")
                    (VList [VDict (dumped Demo.app_data "sensor/abc123")]);
                  Log INFO "Pulling image..." [];
                  Exec (docker_pull_command "/run/docker.sock" id) 1]) sto,
       Raised (ErrorReturnCode "docker" 1)).
Proof.
  intros s1 id.
  apply (pull_block_pull_fails 5 "aufs" "/mnt" "/run/docker.sock" 0 Failing.failing_pull
           Demo.start s1 Demo.app_data "sensor/abc123" id).
  - reflexivity.
  - reflexivity.
  - reflexivity.
  - reflexivity.
  - reflexivity.
  - lia.
Defined.

Lemma pull_block_kills_the_daemon_witness :
  let w := Demo.world_of 0 0 EmptyString in
  let s1 := fst (start_docker_daemon 5 "aufs" "/mnt" "/run/docker.sock" w Demo.start) in
  let id := VStr "registry.example.com/sensor/abc123" in
  exists sto,
    pull_block 5 "aufs" "/mnt" "/run/docker.sock" 0 w Demo.start
    = (State (trace s1
              ++ [JsonDump ("/mnt" ++ "/apps.json")
                    (VList [VDict (dumped Demo.app_data "sensor/abc123")]);
                  Log INFO "Pulling image..." [];
                  Exec (docker_pull_command "/run/docker.sock" id) 0;
                  Log INFO "Docker images loaded:" [];
                  Exec (docker_images_command "/run/docker.sock") 0;
                  Read "/var/run/docker.pid" (Some ("4242" ++ NL));
                  Exec (kill_command (strip ("4242" ++ NL))) 0]) sto,
       Return tt).
Proof.
  intros w s1 id.
  apply (pull_block_kills_the_daemon 5 "aufs" "/mnt" "/run/docker.sock" 0 w
           Demo.start s1 Demo.app_data "sensor/abc123" id); reflexivity.
Defined.

End PullTheorems.

(** ** The original image during [resize_rootfs] *)

Module UntouchedFacts.
Import Text TextFacts Run RunFacts Preload Appends Untouched.

Lemma ends_by_bind {A} P c (m : M A) (k : A -> M unit) :
  appends P m -> (forall a, ends_by P c (k a)) -> ends_by P c (bind m k).
Proof.
  intros Hm Hk w st. rewrite run_bind.
  destruct (Hm w st) as (evs & Ht & Hp).
  destruct (m w st) as [s1 [a|e|]]; cbn [fst snd] in *.
  - destruct (Hk a w s1) as (evs' & Ht' & Hcase).
    exists (evs ++ evs')%list. split; [now rewrite Ht', Ht, List.app_assoc|].
    destruct Hcase as [[Hp' Hno]|(before & code & -> & Hb & Hout)].
    + left. split; [now apply Forall_app|exact Hno].
    + right. exists (evs ++ before)%list, code.
      split; [now rewrite List.app_assoc|]. split; [now apply Forall_app|exact Hout].
  - exists evs. split; [exact Ht|]. left. split; [exact Hp|discriminate].
  - exists evs. split; [exact Ht|]. left. split; [exact Hp|discriminate].
Qed.

Lemma ends_by_command P c : ends_by P c (sh_ok [0] c ;;; ret tt).
Proof.
  intros w st. rewrite run_bind, run_sh_ok.
  set (code := fst (exec_reply w (length (trace st)) c)).
  exists [Exec c code]. cbn [existsb]. rewrite orb_false_r.
  destruct (code =? 0) eqn:Hc; cbn [fst snd].
  - split; [reflexivity|]. right. exists [], code.
    split; [reflexivity|]. split; [constructor|]. now rewrite Hc.
  - split; [reflexivity|]. right. exists [], code.
    split; [reflexivity|]. split; [constructor|]. now rewrite Hc.
Qed.

Lemma eqb_head_diff c1 c2 a b :
  Ascii.eqb c1 c2 = false -> String.eqb (String c1 a) (String c2 b) = false.
Proof. intros H. simpl. now rewrite H. Qed.

Section Image.
Variables (image tmp : string).
Hypothesis other_file : String.eqb tmp image = false.

Let P := untouched image.

Lemma appends_get_offsets_and_sizes_of path unit :
  appends P (get_offsets_and_sizes path unit).
Proof.
  unfold get_offsets_and_sizes. apply appends_bind.
  - apply appends_sh_ok. intros code. reflexivity.
  - intros r. apply appends_lift.
Qed.

Lemma appends_sfdisk_script n : appends P (resize_rootfs_get_sfdisk_script image n).
Proof.
  unfold resize_rootfs_get_sfdisk_script, sh. apply appends_bind.
  - apply appends_sh_ok. intros code. reflexivity.
  - intros r. apply appends_lift.
Qed.

Lemma untouched_copy skip seek count code :
  P (Exec (Command "dd"
             (map dd_operand
                [("_if", KStr image); ("of", KStr tmp); ("bs", KInt Sector.SECTOR_SIZE);
                 ("conv", KStr "notrunc"); ("skip", KInt skip); ("seek", KInt seek);
                 ("count", KInt count)]) None) code).
Proof.
  unfold P, untouched, touches. cbn [prog args].
  change (String.eqb "dd" "dd") with true. cbv iota.
  change (map dd_operand _)
    with [VStr (String "i" ("f=" ++ image)); VStr (String "o" ("f=" ++ tmp));
          VStr "bs=512"; VStr "conv=notrunc";
          VStr (String "s" ("kip=" ++ str_of_int skip));
          VStr (String "s" ("eek=" ++ str_of_int seek));
          VStr (String "c" ("ount=" ++ str_of_int count))].
  change ("of=" ++ image) with (String "o" (String "f" (String "=" image))).
  cbn [existsb names].
  rewrite !(eqb_head_diff _ "o") by reflexivity.
  change ("f=" ++ tmp) with (String "f" (String "=" tmp)).
  simpl. now rewrite other_file.
Qed.

Lemma appends_copies (seek_of : Z -> Z) (l : list (Z * Z)) :
  appends P (for_each l (fun '(offset, size) =>
                           copy image tmp offset (seek_of offset) size)).
Proof.
  apply appends_for_each. intros [offset size]. unfold copy, ddd, sh.
  apply appends_bind; [|intros ?; apply appends_ret].
  apply appends_sh_ok. intros code. apply untouched_copy.
Qed.

Lemma appends_expand_ext4_of_tmp partition : appends P (expand_ext4 tmp partition).
Proof.
  unfold expand_ext4.
  apply appends_with; [|intros dev|intros dev];
    cbn [enter resume losetup_context_manager].
  - unfold losetup_partition, get_offset_and_size, sh.
    apply appends_bind.
    { apply appends_bind; [apply appends_get_offsets_and_sizes_of|].
      intros ?. apply appends_lift. }
    intros extent. apply appends_bind; [apply appends_sh_ok; reflexivity|].
    intros r. apply appends_bind; [|intros ?; apply appends_ret].
    apply appends_sh_ok. intros code.
    unfold P, untouched, touches. cbn [prog args names Str].
    change (String.eqb "losetup" "dd") with false.
    change (String.eqb "losetup" "sfdisk") with false.
    change (String.eqb "losetup" "losetup") with true. cbv iota.
    exact other_file.
  - apply appends_bind; [apply appends_log; reflexivity|]. intros _.
    apply appends_bind; [apply appends_log; reflexivity|]. intros _.
    apply appends_bind.
    { apply appends_try.
      - apply appends_bind; [apply appends_sh_ok; reflexivity|].
        intros status. apply appends_if; apply appends_log; reflexivity.
      - apply appends_bind; [apply appends_log; reflexivity|].
        intros _. apply appends_raise. }
    intros _. apply appends_bind; [apply appends_sh_ok; reflexivity|].
    intros _. apply appends_ret.
  - unfold sh. apply appends_bind; [apply appends_sh_ok; reflexivity|].
    intros _. apply appends_ret.
Qed.

(** [resize_rootfs] from the truncation of the new image on. *)
Lemma ends_by_copy_back size n :
  ends_by P (Migration.dd_back tmp image)
    (emit (Truncate tmp size) ;;;
     new_layout <- resize_rootfs_get_sfdisk_script image n ;;
     sh_ok [0] (Command "sfdisk" [Str tmp] (Some new_layout)) ;;;
     offsets_and_sizes <- get_offsets_and_sizes image "s" ;;
     for_each (take 2 offsets_and_sizes)
       (fun '(offset, size) => copy image tmp offset offset size) ;;;
     for_each (drop 2 offsets_and_sizes)
       (fun '(offset, size) => copy image tmp offset (offset + n) size) ;;;
     expand_ext4 tmp 2 ;;;
     ddd [("_if", KStr tmp); ("of", KStr image); ("bs", KInt Sector.SECTOR_SIZE)]).
Proof.
  apply ends_by_bind.
  { apply appends_emit. unfold P, untouched, touches. exact other_file. }
  intros _. apply ends_by_bind; [apply appends_sfdisk_script|].
  intros new_layout. apply ends_by_bind.
  { apply appends_sh_ok. intros code. unfold P, untouched, touches.
    cbn [prog args stdin names Str].
    change (String.eqb "sfdisk" "dd") with false.
    change (String.eqb "sfdisk" "sfdisk") with true. cbv iota.
    exact other_file. }
  intros _. apply ends_by_bind; [apply appends_get_offsets_and_sizes_of|].
  intros table. apply ends_by_bind; [apply (appends_copies (fun o => o))|].
  intros _. apply ends_by_bind; [apply (appends_copies (fun o => o + n))|].
  intros _. apply ends_by_bind; [apply appends_expand_ext4_of_tmp|].
  intros _. apply ends_by_command.
Qed.
End Image.

End UntouchedFacts.

Module UntouchedTheorems.
Import Text TextFacts Run RunFacts Preload Appends Untouched UntouchedFacts.

(** X17: the original image is changed last.  Whatever the world answers, as
    long as the temporary file is another file than the image: no event of a
    run of [resize_rootfs] truncates the image, writes to it with [dd],
    applies an [sfdisk] script to it or binds it to a loop device, except the
    last event of a run in which every step before succeeded, which is the
    copy of the new image over it; and the call returns only after that copy
    exited with 0.  A run that fails earlier leaves the image as it was. *)
Theorem resize_rootfs_changes_image_last
    (w : world) (st : state) (image : string) (additional_space : Z) :
  let tmp := tempfile_reply w (length (trace st) + 3) (dirname image) in
  let run := resize_rootfs image additional_space w st in
  String.eqb tmp image = false ->
  exists evs,
    trace (fst run) = (trace st ++ evs)%list
    /\ ((Forall (untouched image) evs /\ snd run <> Return tt)
        \/ exists before code,
             evs = (before ++ [Exec (Migration.dd_back tmp image) code])%list
             /\ Forall (untouched image) before
             /\ snd run = if code =? 0 then Return tt
                           else Raised (ErrorReturnCode "dd" code)).
Proof.
  intros tmp run Htmp. subst run.
  unfold resize_rootfs, file_size.
  rewrite run_bind, run_log, run_bind, run_ask, run_bind, run_log, run_bind, run_ask.
  rewrite !record_length.
  replace (S (S (S (length (trace st))))) with (length (trace st) + 3)%nat by lia.
  fold tmp.
  match goal with |- context [?m w (record ?e4 (record ?e3 (record ?e2 (record ?e1 st))))] =>
    destruct (ends_by_copy_back image tmp Htmp
                (tell_reply w (S (length (trace st))) image + additional_space)
                (additional_space / Sector.SECTOR_SIZE) w
                (record e4 (record e3 (record e2 (record e1 st)))))
      as (evs & Ht & Hcase);
    exists ([e1; e2; e3; e4] ++ evs)%list
  end.
  split.
  - rewrite Ht. unfold record. cbn [trace]. now rewrite <- !List.app_assoc.
  - destruct Hcase as [[Hp Hno]|(before & code & -> & Hb & Hout)].
    + left. split; [|exact Hno].
      apply Forall_app. split; [|exact Hp]. repeat constructor.
    + right. eexists (_ ++ before)%list, code.
      split; [now rewrite <- List.app_assoc|]. split; [|exact Hout].
      apply Forall_app. split; [|exact Hb]. repeat constructor.
Qed.

Lemma resize_rootfs_changes_image_last_witness :
  let w := Demo.world_of 3 0 (Demo.os_release "2.3.0") in
  let run := resize_rootfs "/img/resin.img" 4096 w Demo.start in
  exists evs,
    trace (fst run) = (trace Demo.start ++ evs)%list
    /\ ((Forall (untouched "/img/resin.img") evs /\ snd run <> Return tt)
        \/ exists before code,
             evs = (before ++ [Exec (Migration.dd_back "/img/tmpimg" "/img/resin.img") code])%list
             /\ Forall (untouched "/img/resin.img") before
             /\ snd run = if code =? 0 then Return tt
                           else Raised (ErrorReturnCode "dd" code)).
Proof.
  intros w run.
  apply (resize_rootfs_changes_image_last w Demo.start "/img/resin.img" 4096).
  reflexivity.
Defined.

End UntouchedTheorems.

(** ** [round_to_sector_size] where the division is exact *)

Module SectorExact.
Import Sector Numbers SectorTheorems.

(** The result for an [int] of magnitude below [2^53], negative or not. *)
Lemma round_to_sector_size_signed (x : Z) :
  - 2 ^ 53 < x < 2 ^ 53 ->
  round_to_sector_size (PyInt x)
  = Ok (if x mod 512 =? 0 then PyFloat (Finite x 0) else PyInt ((x / 512 + 1) * 512)).
Proof.
  intros Hx.
  destruct (Z.leb_spec 0 x) as [Hpos|Hneg];
    [apply round_to_sector_size_value; lia|].
  assert (Hbig : 2 ^ 53 <= 2 ^ 1024 * 512) by (vm_compute; discriminate).
  assert (Hbig' : 2 ^ 53 <= 2 ^ 1024) by (vm_compute; discriminate).
  unfold round_to_sector_size, truediv_sector, int_truediv_pow2, nearest_quotient.
  destruct (Z.leb_spec 0 x) as [?|_]; [lia|].
  destruct (Z.ltb_spec (- x) (2 ^ 53)) as [_|?]; [|lia].
  cbn [fneg]. rewrite Z.opp_involutive.
  change (Z.opp 9) with (-9).
  assert (Hsmall : too_large x (-9) = false).
  { unfold too_large. change (0 <=? -9) with false. cbv iota.
    change (2 ^ (- -9)) with 512.
    apply Z.leb_gt. rewrite Z.abs_neq by lia. lia. }
  rewrite Hsmall. unfold is_integer, floor, float_mul_pow2.
  change (0 <=? -9) with false. cbv iota.
  change (2 ^ (- -9)) with 512. change (-9 + 9) with 0.
  assert (Hfits : too_large x 0 = false).
  { unfold too_large. change (0 <=? 0) with true. cbv iota.
    apply Z.leb_gt. rewrite Z.abs_neq by lia. change (2 ^ 0) with 1. lia. }
  rewrite Hfits.
  now destruct (x mod 512 =? 0).
Qed.

(** X18: for an [int] of magnitude below [2^53], negative or not,
    [round_to_sector_size] returns a number that denotes the smallest
    multiple of 512 that is at least the argument; the number is a [float]
    exactly when the argument was a multiple of 512 already, and an [int]
    otherwise. *)
Theorem round_to_sector_size_below_2_53 (x : Z) :
  - 2 ^ 53 < x < 2 ^ 53 ->
  exists v,
    round_to_sector_size (PyInt x) = Ok v
    /\ int_value v = Some (roundUpToSector x)
    /\ roundUpToSector x mod SECTOR_SIZE = 0
    /\ x <= roundUpToSector x
    /\ (forall m, m mod SECTOR_SIZE = 0 -> x <= m -> roundUpToSector x <= m)
    /\ is_float v = (x mod 512 =? 0).
Proof.
  intros Hx. rewrite (round_to_sector_size_signed x Hx).
  destruct (roundUpToSector_least x) as (Hm & Hle & Hleast).
  eexists. split; [reflexivity|].
  rewrite roundUpToSector_cases in *.
  destruct (x mod 512 =? 0); cbn [int_value is_float].
  - change (0 <=? 0) with true. cbv iota. change (2 ^ 0) with 1.
    rewrite Z.mul_1_r. repeat split; assumption.
  - repeat split; assumption.
Qed.

Lemma round_to_sector_size_below_2_53_witness :
  exists v,
    round_to_sector_size (PyInt (-1)) = Ok v
    /\ int_value v = Some (roundUpToSector (-1))
    /\ roundUpToSector (-1) mod SECTOR_SIZE = 0
    /\ -1 <= roundUpToSector (-1)
    /\ (forall m, m mod SECTOR_SIZE = 0 -> -1 <= m -> roundUpToSector (-1) <= m)
    /\ is_float v = (-1 mod 512 =? 0).
Proof.
  apply (round_to_sector_size_below_2_53 (-1)). split; [reflexivity|reflexivity].
Defined.

(** X19: below [2^53] rounding twice is rounding once.  For [0 <= x] whose
    round-up is below [2^53], [round_to_sector_size] applied to its own
    result returns a number equal to that result (as Python's [==] compares
    numbers); the second result is always a [float]. *)
Theorem round_to_sector_size_twice (x : Z) :
  0 <= x -> roundUpToSector x < 2 ^ 53 ->
  exists v v',
    round_to_sector_size (PyInt x) = Ok v
    /\ round_to_sector_size v = Ok v'
    /\ num_eqb v' v = true
    /\ is_float v' = true.
Proof.
  intros Hx Hr.
  assert (Hx' : 0 <= x < 2 ^ 53).
  { destruct (roundUpToSector_least x) as (_ & Hle & _). lia. }
  rewrite (round_to_sector_size_value x Hx').
  rewrite roundUpToSector_cases in Hr.
  destruct (Z.eqb_spec (x mod 512) 0) as [Hz|Hz].
  - exists (PyFloat (Finite x 0)), (PyFloat (Finite x 0)). split; [reflexivity|].
    split; [|split; [|reflexivity]].
    + unfold round_to_sector_size, truediv_sector, float_div_pow2, is_integer.
      change (0 - 9) with (-9). change (0 <=? -9) with false. cbv iota.
      change (2 ^ (- -9)) with 512. rewrite Hz. cbn [Z.eqb negb].
      unfold float_mul_pow2. change (-9 + 9) with 0.
      assert (Hbig : 2 ^ 53 <= 2 ^ 1024) by (vm_compute; discriminate).
      assert (Hfits : too_large x 0 = false).
      { unfold too_large. change (0 <=? 0) with true. cbv iota.
        apply Z.leb_gt. rewrite Z.abs_eq by lia. change (2 ^ 0) with 1. lia. }
      now rewrite Hfits.
    + unfold num_eqb, int_value. change (0 <=? 0) with true. cbv iota.
      apply Z.eqb_refl.
  - set (n := (x / 512 + 1) * 512) in *.
    assert (Hn : 0 <= n < 2 ^ 53).
    { split; [|exact Hr]. unfold n.
      pose proof (Z.div_pos x 512 ltac:(lia) ltac:(lia)). lia. }
    assert (Hnz : n mod 512 = 0) by (unfold n; apply Z.mod_mul; lia).
    exists (PyInt n), (PyFloat (Finite n 0)). split; [reflexivity|].
    split; [|split; [|reflexivity]].
    + rewrite (round_to_sector_size_value n Hn), Hnz. reflexivity.
    + unfold num_eqb, int_value. change (0 <=? 0) with true. cbv iota.
      change (2 ^ 0) with 1. rewrite Z.mul_1_r. apply Z.eqb_refl.
Qed.

Lemma round_to_sector_size_twice_witness :
  exists v v',
    round_to_sector_size (PyInt 1000) = Ok v
    /\ round_to_sector_size v = Ok v'
    /\ num_eqb v' v = true
    /\ is_float v' = true.
Proof.
  apply (round_to_sector_size_twice 1000); [lia|reflexivity].
Defined.

End SectorExact.

(** ** [human_size] where the divisions are exact *)

Module HumanSizeFacts.
Import Text TextFacts Sector HumanSize.

Lemma int_to_float_exact n k :
  0 <= n < 2 ^ 53 -> 0 <= k <= 10 -> int_truediv_pow2 n k = Ok (Finite n (- k)).
Proof.
  intros Hn Hk. unfold int_truediv_pow2, nearest_quotient.
  destruct (Z.leb_spec 0 n) as [_|?]; [|lia].
  destruct (Z.ltb_spec n (2 ^ 53)) as [_|?]; [|lia].
  assert (Hsmall : too_large n (- k) = false).
  { unfold too_large.
    assert (Hbig : 2 ^ 53 <= 2 ^ 1024) by (vm_compute; discriminate).
    assert (Hpow : 1 <= 2 ^ (- - k)).
    { rewrite Z.opp_involutive. pose proof (Z.pow_pos_nonneg 2 k ltac:(lia) ltac:(lia)). lia. }
    rewrite Z.abs_eq by lia.
    destruct (Z.leb_spec 0 (- k)).
    - assert (k = 0) as -> by lia. change (2 ^ (- 0)) with 1. apply Z.leb_gt. lia.
    - apply Z.leb_gt. nia. }
  now rewrite Hsmall.
Qed.

Lemma scale_step_int left idx n :
  0 <= n < 2 ^ 53 ->
  scale (S left) idx (PyInt n)
  = if 1024 <=? n then scale left (S idx) (PyFloat (Finite n (- 10)))
    else Ok (idx, PyInt n).
Proof.
  intros Hn. cbn [scale ge_1024 div_1024].
  now rewrite (int_to_float_exact n 10 Hn) by lia.
Qed.

Lemma scale_step_float left idx n j :
  0 < j ->
  scale (S left) idx (PyFloat (Finite n (- j)))
  = if 1024 * 2 ^ j <=? n then scale left (S idx) (PyFloat (Finite n (- (j + 10))))
    else Ok (idx, PyFloat (Finite n (- j))).
Proof.
  intros Hj. cbn [scale ge_1024 div_1024 float_div_pow2].
  destruct (Z.leb_spec 0 (- j)) as [?|_]; [lia|].
  rewrite Z.opp_involutive.
  now replace (- j - 10) with (- (j + 10)) by lia.
Qed.

Lemma round_half_even_exact x e : 0 <= e -> round_half_even (x * 2 ^ e) e = x.
Proof.
  intros He. unfold round_half_even.
  pose proof (Z.pow_pos_nonneg 2 e ltac:(lia) He) as Hpos.
  rewrite Z.div_mul, Z.mod_mul by lia.
  now destruct (Z.ltb_spec (2 * 0) (2 ^ e)); [|lia].
Qed.

Lemma rstrip_none p s :
  all_chars (fun c => negb (p c)) s = true -> rstrip_by p s = s.
Proof.
  induction s as [|c s IH]; [reflexivity|]. simpl.
  intros [Hc Hs]%andb_prop. apply negb_true_iff in Hc.
  now rewrite (IH Hs), Hc, andb_false_r.
Qed.

Lemma rstrip_all p s t :
  all_chars p t = true -> rstrip_by p (s ++ t) = rstrip_by p s.
Proof.
  intros Ht.
  assert (Hall : rstrip_by p t = EmptyString).
  { induction t as [|c t IH]; [reflexivity|]. simpl in Ht |- *.
    apply andb_prop in Ht as [Hc Ht]. now rewrite (IH Ht), Hc. }
  induction s as [|c s IH]; [exact Hall|].
  rewrite sapp_cons. simpl. now rewrite IH.
Qed.

Lemma rstrip_last_kept p s c :
  p c = false -> rstrip_by p (s ++ String c EmptyString) = s ++ String c EmptyString.
Proof.
  intros Hc. induction s as [|a s IH].
  - simpl. now rewrite Hc.
  - rewrite sapp_cons. simpl. rewrite IH.
    now destruct s.
Qed.

(** Trailing zeros and the point go, the digits before the point stay. *)
Lemma trim_whole D :
  all_chars isdigit D = true -> trim (D ++ ".00") = D.
Proof.
  intros HD. unfold trim.
  assert (E : D ++ ".00" = (D ++ ".") ++ "00") by now rewrite sapp_assoc.
  rewrite E, (rstrip_all (is_char "0") (D ++ ".") "00") by reflexivity.
  rewrite (rstrip_last_kept (is_char "0") D ".") by reflexivity.
  rewrite (rstrip_all (is_char ".") D ".") by reflexivity.
  apply rstrip_none. revert HD. apply LayoutFacts.all_chars_impl.
  intros c. clear. destruct c as [[] [] [] [] [] [] [] []]; vm_compute; congruence.
Qed.

End HumanSizeFacts.

Module HumanSizeTheorems.
Import Text TextFacts Sector HumanSize HumanSizeFacts.

Lemma scale_below_2_53 (n : Z) (k : nat) :
  0 <= n < 2 ^ 53 ->
  (k <= 4)%nat ->
  k = 0%nat \/ 1024 ^ Z.of_nat k <= n ->
  k = 4%nat \/ n < 1024 ^ Z.of_nat (S k) ->
  scale 4 0 (PyInt n)
  = Ok (k, if Nat.eqb k 0 then PyInt n
           else PyFloat (Finite n (- (10 * Z.of_nat k)))).
Proof.
  intros Hn Hk Hlow Hhigh.
  assert (H1 : 1024 ^ Z.of_nat 1 = 1024) by reflexivity.
  assert (H2 : 1024 ^ Z.of_nat 2 = 1024 * 2 ^ 10) by reflexivity.
  assert (H3 : 1024 ^ Z.of_nat 3 = 1024 * 2 ^ (10 + 10)) by reflexivity.
  assert (H4 : 1024 ^ Z.of_nat 4 = 1024 * 2 ^ (10 + 10 + 10)) by reflexivity.
  assert (Hmono : 1024 <= 1024 * 2 ^ 10 <= 1024 * 2 ^ (10 + 10)
                  /\ 1024 * 2 ^ (10 + 10) <= 1024 * 2 ^ (10 + 10 + 10))
    by (vm_compute; repeat split; discriminate).
  rewrite scale_step_int by exact Hn.
  destruct (Z.leb_spec 1024 n) as [G1|G1].
  2:{ destruct k as [|k]; [reflexivity|]. exfalso.
      destruct Hlow as [|Hlow]; [discriminate|].
      assert (1024 ^ Z.of_nat 1 <= 1024 ^ Z.of_nat (S k))
        by (apply Z.pow_le_mono_r; lia).
      lia. }
  rewrite (scale_step_float _ _ n 10) by lia.
  destruct (Z.leb_spec (1024 * 2 ^ 10) n) as [G2|G2].
  2:{ destruct k as [|[|k]].
      - destruct Hhigh as [|Hhigh]; [discriminate|]. lia.
      - reflexivity.
      - exfalso. destruct Hlow as [|Hlow]; [discriminate|].
        assert (1024 ^ Z.of_nat 2 <= 1024 ^ Z.of_nat (S (S k)))
          by (apply Z.pow_le_mono_r; lia).
        lia. }
  rewrite (scale_step_float _ _ n (10 + 10)) by lia.
  destruct (Z.leb_spec (1024 * 2 ^ (10 + 10)) n) as [G3|G3].
  2:{ destruct k as [|[|[|k]]].
      - destruct Hhigh as [|Hhigh]; [discriminate|]. lia.
      - destruct Hhigh as [|Hhigh]; [discriminate|]. lia.
      - reflexivity.
      - exfalso. destruct Hlow as [|Hlow]; [discriminate|].
        assert (1024 ^ Z.of_nat 3 <= 1024 ^ Z.of_nat (S (S (S k))))
          by (apply Z.pow_le_mono_r; lia).
        lia. }
  rewrite (scale_step_float _ _ n (10 + 10 + 10)) by lia.
  destruct (Z.leb_spec (1024 * 2 ^ (10 + 10 + 10)) n) as [G4|G4].
  2:{ destruct k as [|[|[|[|k]]]].
      - destruct Hhigh as [|Hhigh]; [discriminate|]. lia.
      - destruct Hhigh as [|Hhigh]; [discriminate|]. lia.
      - destruct Hhigh as [|Hhigh]; [discriminate|]. lia.
      - reflexivity.
      - exfalso. destruct Hlow as [|Hlow]; [discriminate|].
        assert (1024 ^ Z.of_nat 4 <= 1024 ^ Z.of_nat (S (S (S (S k)))))
          by (apply Z.pow_le_mono_r; lia).
        lia. }
  cbn [scale].
  destruct k as [|[|[|[|[|k]]]]]; try lia; try reflexivity;
    destruct Hhigh as [|Hhigh]; try discriminate; lia.
Qed.

(** X20: [human_size] of an [int] below [2^53], where every division by
    1024 is exact.  The unit is the largest of B, KiB, MiB, GiB, TiB that is
    not above the size, so nothing above TiB is used; the number printed is
    the size divided by that unit, written with two decimals, rounded half to
    even, and stripped of trailing zeros and of a trailing point.  In
    particular a size of [a] units, [a < 1024], is printed as the integer
    [a] and its unit: 0 as [0 B], 4096 as [4 KiB]. *)
Theorem human_size_below_2_53 :
  (forall (n : Z) (k : nat) (suffix : string),
      0 <= n < 2 ^ 53 ->
      suffixes !! k = Some suffix ->
      k = 0%nat \/ 1024 ^ Z.of_nat k <= n ->
      k = 4%nat \/ n < 1024 ^ Z.of_nat (S k) ->
      human_size (PyInt n)
      = Ok (trim (fixed_2 (Finite n (- (10 * Z.of_nat k)))) ++ " " ++ suffix ++ "B"))
  /\ (forall (a : Z) (k : nat) (suffix : string),
        0 <= a < 1024 ->
        suffixes !! k = Some suffix ->
        k = 0%nat \/ 1 <= a ->
        human_size (PyInt (a * 1024 ^ Z.of_nat k))
        = Ok (str_of_int a ++ " " ++ suffix ++ "B")).
Proof.
  assert (Hgeneral : forall (n : Z) (k : nat) (suffix : string),
      0 <= n < 2 ^ 53 ->
      suffixes !! k = Some suffix ->
      k = 0%nat \/ 1024 ^ Z.of_nat k <= n ->
      k = 4%nat \/ n < 1024 ^ Z.of_nat (S k) ->
      human_size (PyInt n)
      = Ok (trim (fixed_2 (Finite n (- (10 * Z.of_nat k)))) ++ " " ++ suffix ++ "B")).
  { intros n k suffix Hn Hsuffix Hlow Hhigh.
    assert (Hk : (k <= 4)%nat).
    { apply lookup_lt_Some in Hsuffix. cbn [suffixes length] in Hsuffix. lia. }
    unfold human_size. rewrite (scale_below_2_53 n k Hn Hk Hlow Hhigh).
    destruct k as [|k]; cbn [Nat.eqb format_2f].
    - rewrite (int_to_float_exact n 0 Hn) by lia. now rewrite Hsuffix.
    - now rewrite Hsuffix. }
  split; [exact Hgeneral|].
  intros a k suffix Ha Hsuffix Hone.
  assert (Hk : (k <= 4)%nat).
  { apply lookup_lt_Some in Hsuffix. cbn [suffixes length] in Hsuffix. lia. }
  assert (Hpow : 1024 ^ Z.of_nat k = 2 ^ (10 * Z.of_nat k)).
  { change 1024 with (2 ^ 10). rewrite <- Z.pow_mul_r by lia. reflexivity. }
  assert (Hpos : 0 < 1024 ^ Z.of_nat k) by (apply Z.pow_pos_nonneg; lia).
  assert (Hcap : 1024 ^ Z.of_nat k <= 1024 ^ Z.of_nat 4)
    by (apply Z.pow_le_mono_r; lia).
  assert (H4 : 1024 * 1024 ^ Z.of_nat 4 < 2 ^ 53) by (vm_compute; reflexivity).
  rewrite (Hgeneral (a * 1024 ^ Z.of_nat k) k suffix); try assumption.
  - do 2 f_equal.
    rewrite <- (trim_whole (str_of_int a)).
    2:{ rewrite str_of_int_nonneg by lia. apply (digits_spec a). lia. }
    f_equal. unfold fixed_2.
    assert (Hh : (if 0 <=? - (10 * Z.of_nat k)
                  then Z.abs (a * 1024 ^ Z.of_nat k) * 2 ^ (- (10 * Z.of_nat k)) * 100
                  else round_half_even (Z.abs (a * 1024 ^ Z.of_nat k) * 100)
                         (- - (10 * Z.of_nat k)))
                 = a * 100).
    { rewrite Z.abs_eq by nia. destruct (Z.leb_spec 0 (- (10 * Z.of_nat k))).
      - assert (k = 0%nat) as -> by lia. change (1024 ^ Z.of_nat 0) with 1.
        change (2 ^ (- (10 * Z.of_nat 0))) with 1. lia.
      - rewrite Z.opp_involutive, Hpow.
        replace (a * 2 ^ (10 * Z.of_nat k) * 100)
          with (a * 100 * 2 ^ (10 * Z.of_nat k)) by lia.
        apply round_half_even_exact. lia. }
    rewrite Hh, Z.div_mul, Z.mod_mul by lia.
    destruct (Z.ltb_spec (a * 1024 ^ Z.of_nat k) 0) as [?|_]; [nia|].
    rewrite str_of_int_nonneg by lia. reflexivity.
  - nia.
  - destruct Hone as [->|Hone]; [now left|]. right. nia.
  - destruct (Nat.eq_dec k 4%nat) as [->|Hne]; [now left|]. right.
    rewrite Nat2Z.inj_succ, Z.pow_succ_r by lia. nia.
Qed.

Lemma human_size_below_2_53_witness :
  human_size (PyInt 1724448768)
  = Ok (trim (fixed_2 (Finite 1724448768 (- (10 * Z.of_nat 3)))) ++ " " ++ "Gi" ++ "B")
  /\ human_size (PyInt (4 * 1024 ^ Z.of_nat 1)) = Ok (str_of_int 4 ++ " " ++ "Ki" ++ "B").
Proof.
  destruct human_size_below_2_53 as [Hgeneral Hwhole]. split.
  - apply (Hgeneral 1724448768 3%nat "Gi").
    + split; [lia|reflexivity].
    + reflexivity.
    + right. vm_compute. discriminate.
    + right. reflexivity.
  - apply (Hwhole 4 1%nat "Ki").
    + lia.
    + reflexivity.
    + right. lia.
Defined.

End HumanSizeTheorems.

(** ** Acquiring and releasing: mount points and loop devices *)

Module ResourceTheorems.
Import Text TextFacts Run RunFacts Preload Commands.

(** X21: entering [with mount_context_manager] can fail in two ways.  When
    the partition is not found, the exception of the lookup goes on and
    nothing else happens: no directory is made, [mount] is not run.  When
    [mount] exits with a code other than 0, [ErrorReturnCode] is raised, the
    body does not run, and the directory that [mkdtemp] made is not
    removed. *)
Theorem mount_context_manager_enter_fails {A : Type} (body : string -> M A)
    (w : world) (st s1 : state) (image : string) (partition : Z)
    (extra_options : string) :
  (forall e,
      get_offset_and_size image partition w st = (s1, Raised e) ->
      with_ (mount_context_manager image partition extra_options) body w st
      = (s1, Raised e))
  /\ (forall offset size code,
        get_offset_and_size image partition w st = (s1, Return (offset, size)) ->
        let mountpoint := mkdtemp_reply w (length (trace s1)) in
        let cmd := mount_command image mountpoint offset size extra_options in
        fst (exec_reply w (S (length (trace s1))) cmd) = code ->
        code <> 0 ->
        with_ (mount_context_manager image partition extra_options) body w st
        = (State (trace s1 ++ [Mkdtemp mountpoint; Exec cmd code]) (store s1),
           Raised (ErrorReturnCode "mount" code))).
Proof.
  split.
  - intros e Hlookup. unfold with_. rewrite run_bind.
    cbn [enter mount_context_manager]. unfold mount_partition.
    now rewrite run_bind, Hlookup.
  - intros offset size code Hlookup mountpoint cmd Hcode Hne.
    unfold with_. rewrite run_bind.
    cbn [enter mount_context_manager]. unfold mount_partition, sh.
    rewrite run_bind, Hlookup, run_bind, run_ask. fold mountpoint.
    rewrite run_bind, run_sh_ok. cbn [fst snd].
    fold (mount_command image mountpoint offset size extra_options). fold cmd. rewrite record_length, Hcode. cbn [existsb]. rewrite orb_false_r.
    destruct (Z.eqb_spec code 0) as [|_]; [contradiction|].
    unfold record. cbn [trace store prog cmd mount_command].
    now rewrite <- List.app_assoc.
Qed.

Lemma mount_context_manager_enter_fails_witness :
  with_ (mount_context_manager "/img/resin.img" 7 EmptyString)
    (fun mountpoint => ret mountpoint)
    (Demo.world_of 0 0 EmptyString) Demo.start
  = (record (Exec (parted_print "/img/resin.img" "B") 0) Demo.start, Raised IndexError)
  /\ with_ (mount_context_manager "/img/resin.img" 2 EmptyString)
       (fun mountpoint => ret mountpoint) Failing.failing_mount Demo.start
     = (State (trace (record (Exec (parted_print "/img/resin.img" "B") 0) Demo.start)
               ++ [Mkdtemp "/tmp/tmpq0";
                   Exec (mount_command "/img/resin.img" "/tmp/tmpq0" 46137344 327155712
                           EmptyString) 32])
              (store Demo.start),
        Raised (ErrorReturnCode "mount" 32)).
Proof.
  split.
  - apply (mount_context_manager_enter_fails (fun mountpoint => ret mountpoint)
             (Demo.world_of 0 0 EmptyString) Demo.start
             (record (Exec (parted_print "/img/resin.img" "B") 0) Demo.start)
             "/img/resin.img" 7 EmptyString).
    vm_compute. reflexivity.
  - apply (mount_context_manager_enter_fails (fun mountpoint => ret mountpoint)
             Failing.failing_mount Demo.start
             (record (Exec (parted_print "/img/resin.img" "B") 0) Demo.start)
             "/img/resin.img" 2 EmptyString).
    + vm_compute. reflexivity.
    + reflexivity.
    + discriminate.
Defined.

(** X22: the loop device of [expand_ext4].  When the partition is found,
    [losetup -f] and the binding exit with 0, [e2fsck] exits with 0, 1 or 2
    and [resize2fs] with 0, the check and the resize are run on the device
    that [losetup -f] printed (stripped of blanks), bound at the offset and
    with the size of the partition, and this device is detached at the end;
    [expand_ext4] returns when the detaching exits with 0.  When [resize2fs]
    exits with another code, [ErrorReturnCode] is raised and the device is
    not detached. *)
Theorem expand_ext4_binds_and_detaches (w : world) (st s1 : state)
    (image : string) (partition offset size : Z) :
  get_offset_and_size image partition w st = (s1, Return (offset, size)) ->
  let t := length (trace s1) in
  let device := strip (snd (exec_reply w t losetup_find)) in
  let check := fst (exec_reply w (t + 4) (e2fsck device)) in
  let resize := fst (exec_reply w (t + 6) (resize2fs device)) in
  let before :=
    (trace s1 ++ [Exec losetup_find 0;
                  Exec (losetup_bind image device offset size) 0;
                  Log INFO "Using {}" [AStr device];
                  Log INFO "Resizing filesystem" [];
                  Exec (e2fsck device) check;
                  fsck_record check;
                  Exec (resize2fs device) resize])%list in
  fst (exec_reply w t losetup_find) = 0 ->
  fst (exec_reply w (t + 1) (losetup_bind image device offset size)) = 0 ->
  In check [0; 1; 2] ->
  (resize <> 0 ->
   expand_ext4 image partition w st
   = (State before (store s1), Raised (ErrorReturnCode "resize2fs" resize)))
  /\ (resize = 0 ->
      fst (exec_reply w (t + 7) (losetup_detach device)) = 0 ->
      expand_ext4 image partition w st
      = (State (before ++ [Exec (losetup_detach device) 0]) (store s1), Return tt)).
Proof.
  intros Hlookup t device check resize before Hfind Hbind Hcheck.
  assert (Hlen : forall evs, length (trace s1 ++ evs) = (t + length evs)%nat).
  { intros evs. now rewrite length_app. }
  assert (Hrun : expand_ext4 image partition w st
                 = match sh_ok [0] (resize2fs device) w
                           (State (trace s1 ++ [Exec losetup_find 0;
                                     Exec (losetup_bind image device offset size) 0;
                                     Log INFO "Using {}" [AStr device];
                                     Log INFO "Resizing filesystem" [];
                                     Exec (e2fsck device) check;
                                     fsck_record check]) (store s1)) with
                   | (s2, Return _) =>
                       ((sh "losetup" [Str "-d"; Str device] ;;; ret tt) ;;; ret tt) w s2
                   | (s2, Raised e) => (s2, Raised e)
                   | (s2, Spinning) => (s2, Spinning)
                   end).
  { unfold expand_ext4, with_. rewrite run_bind.
    cbn [enter resume losetup_context_manager]. unfold losetup_partition, sh.
    rewrite run_bind, Hlookup, run_bind, run_sh_ok. fold losetup_find. fold t.
    rewrite Hfind. cbn [existsb Z.eqb orb snd fst]. fold device.
    rewrite run_bind, run_sh_ok. fold (losetup_bind image device offset size).
    rewrite record_length. fold t.
    replace (S t) with (t + 1)%nat by lia. rewrite Hbind.
    cbn [existsb Z.eqb orb]. rewrite run_ret.
    rewrite run_bind, run_log, run_bind, run_log, run_bind.
    unfold try_except_ErrorReturnCode. rewrite run_bind, run_sh_ok.
    unfold record. cbn [trace store]. rewrite <- !List.app_assoc. cbn [app].
    rewrite !Hlen. cbn [length]. fold check.
    assert (Hok : existsb (Z.eqb check) [0; 1; 2] = true).
    { destruct Hcheck as [<-|[<-|[<-|[]]]]; reflexivity. }
    rewrite Hok. cbv beta. fold check.
    assert (Hlog : (if check =? 0 then log INFO "e2fsck: File system OK" []
                    else log WARNING "e2fsck: File system errors corrected" [])
                   = emit (fsck_record check)).
    { unfold fsck_record. now destruct (check =? 0). }
    rewrite Hlog, run_emit.
    unfold record. cbn [trace store]. rewrite <- !List.app_assoc. cbn [app].
    rewrite run_bind.
    destruct (sh_ok [0] (resize2fs device) w _) as [s2 [?|?|]]; reflexivity. }
  rewrite Hrun, run_sh_ok. cbn [trace]. rewrite !Hlen. cbn [length]. fold resize.
  cbn [existsb]. rewrite orb_false_r.
  unfold record. cbn [trace store]. rewrite <- !List.app_assoc. cbn [app].
  split.
  - intros Hne. destruct (Z.eqb_spec resize 0) as [|_]; [contradiction|]. reflexivity.
  - intros Hzero Hdetach. rewrite Hzero. cbn [Z.eqb].
    unfold sh. rewrite !run_bind, run_sh_ok. fold (losetup_detach device).
    cbn [trace]. rewrite !Hlen. cbn [length]. rewrite Hdetach.
    cbn [existsb Z.eqb orb]. rewrite !run_ret.
    unfold record, before. cbn [trace store]. rewrite <- !List.app_assoc. cbn [app].
    now rewrite Hzero.
Qed.


Lemma expand_ext4_binds_and_detaches_witness :
  let w := Demo.world_of 1 0 EmptyString in
  let s1 := record (Exec (parted_print "/img/resin.img" "B") 0) Demo.start in
  expand_ext4 "/img/resin.img" 6 w Demo.start
  = (State ((trace s1
             ++ [Exec losetup_find 0;
                 Exec (losetup_bind "/img/resin.img" "/dev/loop0" 729808896 994639872) 0;
                 Log INFO "Using {}" [AStr "/dev/loop0"];
                 Log INFO "Resizing filesystem" [];
                 Exec (e2fsck "/dev/loop0") 1;
                 fsck_record 1;
                 Exec (resize2fs "/dev/loop0") 0])
            ++ [Exec (losetup_detach "/dev/loop0") 0])
           (store s1),
     Return tt).
Proof.
  intros w s1.
  apply (expand_ext4_binds_and_detaches w Demo.start s1 "/img/resin.img" 6
           729808896 994639872).
  - vm_compute. reflexivity.
  - reflexivity.
  - reflexivity.
  - vm_compute. right. left. reflexivity.
  - reflexivity.
  - reflexivity.
Defined.


End ResourceTheorems.

(** ** [preload] when everything succeeds *)

Module PreloadSuccess.
Import Text TextFacts Run RunFacts Preload Migration MigrationFacts Success.

Lemma later_refl st : later st st.
Proof. split; [exists []; now rewrite List.app_nil_r|reflexivity]. Qed.

Lemma later_trans a b c : later a b -> later b c -> later a c.
Proof.
  intros [[e1 H1] S1] [[e2 H2] S2]. split; [|now transitivity (store b)].
  exists (e1 ++ e2)%list. now rewrite H2, H1, List.app_assoc.
Qed.

Lemma ends_later a b c last : later a b -> ends b c last -> ends a c last.
Proof.
  intros [[e1 H1] _] [e2 H2]. exists (e1 ++ e2)%list.
  now rewrite H2, H1, <- !List.app_assoc.
Qed.

Lemma ends_record a b last ev : ends a b last -> ends a (record ev b) (last ++ [ev]).
Proof.
  intros [evs H]. exists evs. unfold record. cbn [trace].
  now rewrite H, <- !List.app_assoc.
Qed.

Lemma ends_nil a : ends a a [].
Proof. exists []. now rewrite !List.app_nil_r. Qed.

Lemma later_record ev st : later st (record ev st).
Proof. split; [now exists [ev]|reflexivity]. Qed.

Lemma later_record_r ev a b : later a b -> later a (record ev b).
Proof. intros H. exact (later_trans _ _ _ H (later_record ev b)). Qed.

Lemma returns_bind {A B} (m : M A) (k : A -> M B) w st st1 a b :
  m w st = (st1, Return a) -> later st st1 -> returns (k a) w st1 b ->
  returns (bind m k) w st b.
Proof.
  intros Hm Hl (st2 & Hk & Hl2). exists st2.
  split; [now rewrite run_bind, Hm|exact (later_trans _ _ _ Hl Hl2)].
Qed.

Lemma py_index_in_range {A} (l : list A) (i : Z) :
  0 <= i < Z.of_nat (length l) -> exists x, py_index l i = Ok x.
Proof.
  intros Hi. unfold py_index.
  destruct (Z.ltb_spec i 0); [lia|].
  destruct (Z.leb_spec 0 i); [|lia].
  destruct (Z.ltb_spec i (Z.of_nat (length l))); [|lia].
  cbn [andb]. destruct (l !! Z.to_nat i) as [x|] eqn:Hx; [now exists x|].
  apply lookup_ge_None in Hx. lia.
Qed.

Section Cooperative.
Variables (w : world) (image : string) (ge2 : bool) (pid : string).
Hypothesis coop : cooperative w.
Hypothesis table : forall t, exists tb,
  parse_parted (parted_lines (snd (exec_reply w t (parted_print image "B")))) = Ok tb
  /\ (6 <= length tb)%nat.
Hypothesis os_release : forall t mountpoint, exists text v,
  read_reply w t (path_join mountpoint "etc/os-release") = Some text
  /\ find_version (file_lines text) = Ok v
  /\ Version.version_ge_2 v = Ok ge2.
Hypothesis no_file : forall t path, isfile_reply w t path = false.
Hypothesis pid_file : forall t, read_reply w t "/var/run/docker.pid" = Some pid.

Lemma get_offset_and_size_returns partition st :
  1 <= partition <= 6 ->
  exists extent,
    get_offset_and_size image partition w st
    = (record (Exec (parted_print image "B") 0) st, Return extent).
Proof.
  intros Hp. unfold get_offset_and_size, get_offsets_and_sizes.
  go coop. cbn [snd].
  destruct (table (length (trace st))) as (tb & Hparse & Hlen).
  unfold parted_lines in Hparse. rewrite Hparse, run_lift_Ok.
  destruct (py_index_in_range tb (partition - 1) ltac:(lia)) as (x & Hx).
  exists x. now rewrite Hx.
Qed.

Lemma mount_partition_returns partition extra st :
  1 <= partition <= 6 ->
  exists mountpoint st',
    mount_partition image partition extra w st = (st', Return mountpoint)
    /\ later st st'.
Proof.
  intros Hp. unfold mount_partition, sh.
  destruct (get_offset_and_size_returns partition st Hp) as (extent & Hext).
  rewrite run_bind, Hext. go coop.
  eexists. eexists. split; [reflexivity|].
  repeat apply later_record_r. apply later_refl.
Qed.

Lemma release_returns mountpoint st :
  exists st',
    (sh "umount" [Str mountpoint] ;;; emit (Rmdir mountpoint)) w st = (st', Return tt)
    /\ later st st'
    /\ exists evs, trace st'
                   = (evs ++ [Exec (OsRelease.umount mountpoint) 0; Rmdir mountpoint])%list.
Proof.
  unfold sh. go coop. eexists. split; [reflexivity|]. split.
  - repeat apply later_record_r. apply later_refl.
  - exists (trace st). unfold record. cbn [trace]. now rewrite <- List.app_assoc.
Qed.

Lemma get_resin_os_version_returns st :
  exists v, returns (get_resin_os_version image) w st v
            /\ Version.version_ge_2 v = Ok ge2.
Proof.
  destruct (mount_partition_returns 2 EmptyString st ltac:(lia))
    as (m & s1 & Hmount & Hl1).
  destruct (os_release (length (trace s1)) m) as (text & v & Hread & Hfind & Hge).
  exists v. split; [|exact Hge]. unfold returns.
  rewrite (OsReleaseFacts.get_resin_os_version_run w st s1 image m text Hmount Hread).
  rewrite Hfind.
  unfold sh. go coop. eexists. split; [reflexivity|].
  apply (later_trans _ _ _ Hl1). repeat apply later_record_r. apply later_refl.
Qed.

Lemma expand_ext4_returns_later partition st :
  1 <= partition <= 6 -> returns (expand_ext4 image partition) w st tt.
Proof.
  intros Hp.
  destruct (get_offset_and_size_returns partition st Hp) as (extent & Hext).
  unfold returns, expand_ext4, with_. cbn [enter resume losetup_context_manager].
  unfold losetup_partition, sh.
  rewrite run_bind, run_bind, Hext. go coop.
  unfold try_except_ErrorReturnCode. go coop.
  rewrite run_sh_ok.
  match goal with |- context [exec_reply w ?t (e2fsck ?d)] =>
    pose proof (coop t (e2fsck d)) as Hfsck; cbn [prog e2fsck] in Hfsck;
    change (String.eqb "e2fsck" "e2fsck") with true in Hfsck; cbv iota in Hfsck;
    destruct (exec_reply w t (e2fsck d)) as [code out] eqn:Hreply
  end.
  cbn [fst] in *.
  assert (Hok : existsb (Z.eqb code) [0; 1; 2] = true).
  { destruct Hfsck as [<-|[<-|[<-|[]]]]; reflexivity. }
  rewrite Hok. cbn [fst].
  assert (Hlog : exists lvl msg,
             (if code =? 0 then log INFO "e2fsck: File system OK" []
              else log WARNING "e2fsck: File system errors corrected" [])
             = log lvl msg []).
  { destruct (code =? 0); eauto. }
  destruct Hlog as (lvl & msg & ->).
  go coop.
  eexists. split; [reflexivity|].
  repeat apply later_record_r. apply later_refl.
Qed.

Lemma start_docker_daemon_returns_later fuel driver mountpoint socket st :
  returns (start_docker_daemon (S fuel) driver mountpoint socket) w st tt.
Proof.
  unfold returns, start_docker_daemon.
  destruct (DaemonFacts.fix_rce_docker_run mountpoint w st)
    as (probes & dir & Hfix & _ & _).
  rewrite run_bind, Hfix. go coop.
  cbn [wait_while_isfile]. unfold isfile. go coop. rewrite no_file. go coop.
  rewrite ReadinessTheorems.wait_until_ok_step. cbv zeta.
  unfold Readiness.poll_code.
  match goal with |- context [exec_reply w ?t (docker_version socket)] =>
    pose proof (coop t (docker_version socket)) as Hready;
    cbn [prog docker_version] in Hready;
    change (String.eqb "docker" "e2fsck") with false in Hready; cbv iota in Hready;
    rewrite Hready
  end.
  cbn [Z.eqb]. go coop.
  eexists. split; [reflexivity|].
  do 5 apply later_record_r.
  split; [now exists probes|reflexivity].
Qed.

Section Pull.
Variables (app_data : nat) (d : gmap string pyval) (repo : string) (image_id : pyval).
Hypothesis has_repo : d !! "imageRepo" = Some (VStr repo).
Hypothesis has_id : d !! "imageId" = Some image_id.

Let killed : list event :=
  [Read "/var/run/docker.pid" (Some pid); Exec (Pull.kill_command (strip pid)) 0].

Lemma pull_block_returns fuel driver mountpoint socket st :
  store st !! app_data = Some d ->
  exists st',
    Pull.pull_block (S fuel) driver mountpoint socket app_data w st = (st', Return tt)
    /\ later st st' /\ ends st st' killed.
Proof.
  intros Hd.
  destruct (start_docker_daemon_returns_later fuel driver mountpoint socket st)
    as (s1 & Hstart & Hl1).
  assert (Hd1 : store s1 !! app_data = Some d).
  { destruct Hl1 as [_ Hsub]. exact (lookup_weaken _ _ _ _ Hd Hsub). }
  destruct (PullFacts.write_apps_json_run w s1 app_data (mountpoint ++ "/apps.json")
              d repo Hd1 has_repo) as (sto & Hwrite & Hsto).
  pose proof (AppsJson.write_apps_json_store w s1 app_data (mountpoint ++ "/apps.json"))
    as Hsub.
  rewrite Hwrite in Hsub. cbn [fst store] in Hsub.
  unfold Pull.pull_block, with_. rewrite run_bind.
  cbn [enter resume docker_context_manager]. rewrite Hstart.
  rewrite run_bind, Hwrite.
  rewrite run_bind. unfold getitem at 1. cbn [store]. rewrite Hsto, has_id.
  unfold docker_pull, open_read, sh. go coop. rewrite pid_file. go coop.
  fold (Pull.kill_command (strip pid)).
  eexists. split; [reflexivity|]. split.
  - apply (later_trans _ _ _ Hl1). repeat apply later_record_r.
    split; [now eexists|exact Hsub].
  - apply (ends_later _ _ _ _ Hl1).
    apply (ends_record _ _ [_]), (ends_record _ _ []).
    eexists (_ :: _ :: _ :: _ :: _ :: nil). unfold record. cbn [trace].
    rewrite <- !List.app_assoc. reflexivity.
Qed.

Lemma pull_into_returns fuel extra driver (prepare : string -> M unit) st :
  (forall mountpoint s, returns (prepare mountpoint) w s tt) ->
  store st !! app_data = Some d ->
  exists st' mountpoint,
    Variants.pull_into (S fuel) image app_data extra driver prepare w st
    = (st', Return tt)
    /\ later st st'
    /\ ends st st' (killed ++ [Exec (OsRelease.umount mountpoint) 0; Rmdir mountpoint]).
Proof.
  intros Hprepare Hd. unfold Variants.pull_into.
  rewrite run_bind, run_ask.
  set (s0 := record _ st).
  assert (Hl0 : later st s0) by apply later_record.
  destruct (mount_partition_returns 6 extra s0 ltac:(lia)) as (m & s1 & Hmount & Hl1).
  unfold with_ at 1. rewrite run_bind.
  cbn [enter resume mount_context_manager]. rewrite Hmount.
  rewrite run_bind.
  destruct (Hprepare m s1) as (s2 & Hprep & Hl2). rewrite Hprep.
  assert (Hd2 : store s2 !! app_data = Some d).
  { destruct (later_trans _ _ _ Hl0 (later_trans _ _ _ Hl1 Hl2)) as [_ Hsub].
    exact (lookup_weaken _ _ _ _ Hd Hsub). }
  destruct (pull_block_returns fuel driver m
              (mkdtemp_reply w (length (trace st)) ++ "/docker.sock") s2 Hd2)
    as (s3 & Hpull & Hl3 & He3).
  unfold Pull.pull_block in Hpull. rewrite Hpull.
  unfold sh. go coop. fold (OsRelease.umount m).
  eexists. exists m. split; [reflexivity|].
  pose proof (later_trans _ _ _ Hl0 (later_trans _ _ _ Hl1 Hl2)) as Hl02.
  split.
  - apply (later_trans _ _ _ Hl02), (later_trans _ _ _ Hl3).
    repeat apply later_record_r. apply later_refl.
  - apply (ends_later _ _ _ _ Hl02).
    change (killed ++ [Exec (OsRelease.umount m) 0; Rmdir m])%list
      with ((killed ++ [Exec (OsRelease.umount m) 0]) ++ [Rmdir m])%list.
    now do 2 apply ends_record.
Qed.

End Pull.

End Cooperative.

(** No mount point puts [etc/os-release] at the path of the pid file. *)
Lemma os_release_is_not_the_pid_file mountpoint :
  String.eqb (path_join mountpoint "etc/os-release") "/var/run/docker.pid" = false.
Proof.
  apply String.eqb_neq. intros Heq.
  assert (Hend : exists x, path_join mountpoint "etc/os-release"
                           = x ++ String "e" EmptyString).
  { unfold path_join.
    destruct (is_empty mountpoint || ends_with_slash mountpoint)%bool.
    - exists (mountpoint ++ "etc/os-releas"). now rewrite sapp_assoc.
    - exists (mountpoint ++ "/etc/os-releas"). now rewrite !sapp_assoc. }
  destruct Hend as (x & Hx). rewrite Hx in Heq.
  pose proof (f_equal (rstrip_by (HumanSize.is_char "d")) Heq) as Hcut.
  rewrite HumanSizeFacts.rstrip_last_kept in Hcut by reflexivity.
  rewrite Heq in Hcut. vm_compute in Hcut. discriminate Hcut.
Qed.


End PreloadSuccess.
